(** * The work agent's reconciliation helpers

    A shallow embedding of these pieces of the agent:
    - the status-condition merge of [pkg/helper/helpers.go]
      ([MergeStatusConditions], [MergeManifestConditions], [IsOwnedBy]);
    - the executor authorizer of the [auth] package ([sarValidator.Validate],
      [checkEscalation], [validateBySubjectAccessReviews]);
    - the applied-resource garbage collector of [pkg/spoke/helper/helper.go]
      ([DeleteAppliedResources], [ApplyOwnerReferences]);
    - the other helpers of [pkg/helper/helpers.go]: [RemoveFinalizer], the
      queue key and the filter of applied manifest works,
      [NewAppliedManifestWorkOwner], [FindManifestConiguration] and
      [UpdateManifestWorkStatus].

    Go maps are [gmap]s, slices are lists, [time.Now()] reads a wall clock
    that is threaded through the merge, and every call to the API server is
    answered by an explicit world and recorded in the list of calls made. *)

From Stdlib Require Import ZArith Ascii String List Lia.
From stdpp Require Import base option list countable gmap strings.

Local Open Scope string_scope.
Local Open Scope list_scope.

(** ** metav1: times, conditions, owner references *)

Module metav1.

(** [metav1.Time]: an instant; [0] stands for the zero value of
    [time.Time], the only one for which [IsZero] holds. *)
Definition Time : Type := Z.

Definition IsZero (t : Time) : bool := Z.eqb t 0.

(** [metav1.Condition]. [ConditionStatus] is a string type in Go. *)
Record Condition : Type := {
  Type_ : string;
  Status : string;
  ObservedGeneration : Z;
  LastTransitionTime : Time;
  Reason : string;
  Message : string
}.

#[global] Instance Condition_eq_dec : EqDecision Condition.
Proof. solve_decision. Defined.

Definition withLastTransitionTime (c : Condition) (t : Time) : Condition :=
  {| Type_ := Type_ c; Status := Status c;
     ObservedGeneration := ObservedGeneration c;
     LastTransitionTime := t;
     Reason := Reason c; Message := Message c |}.

(** [metav1.OwnerReference]. [Controller] and [BlockOwnerDeletion] are
    [*bool] in Go. *)
Record OwnerReference : Type := {
  APIVersion : string;
  Kind : string;
  Name : string;
  UID : string;
  Controller : option bool;
  BlockOwnerDeletion : option bool
}.

#[global] Instance OwnerReference_eq_dec : EqDecision OwnerReference.
Proof. solve_decision. Defined.

End metav1.

(** ** State passing

    Both effects of the modelled code, reading the clock and calling the API
    server, are threaded as explicit state. *)

Module St.

Definition M (S A : Type) : Type := S -> A * S.

Definition ret {S A} (a : A) : M S A := fun s => (a, s).

Definition bind {S A B} (m : M S A) (f : A -> M S B) : M S B :=
  fun s => let (a, s') := m s in f a s'.

End St.

Notation "'let*' x ':=' m 'in' k" := (St.bind m (fun x => k))
  (at level 10, x name, m at level 100, k at level 200, only parsing).

(** ** The wall clock

    [time.Now()] is the only effect of the merge. The clock is a sequence of
    readings; the state of a computation is the number of readings taken so
    far, so two calls of [time.Now()] need not return the same instant. *)

Module Clock.

Definition M (A : Type) : Type := St.M nat A.

Definition ret {A} (a : A) : M A := St.ret a.

(** [time.Now()] against the readings [wall]. *)
Definition Now (wall : nat -> metav1.Time) : M metav1.Time :=
  fun k => (wall k, S k).

End Clock.

(** ** k8s.io/apimachinery/pkg/api/meta: condition helpers

    The two library functions [MergeStatusConditions] calls. They are not part
    of the repository; they are written here after the library
    ([conditions.go]), and checked below against the repository's own test
    table for them. *)

Module meta.
Import metav1.

Section WithClock.
Variable wall : nat -> Time.

(** [FindStatusCondition]: a pointer to the first condition of the given
    type, here its index and value. *)
Definition FindStatusCondition (conditions : list Condition)
    (conditionType : string) : option (nat * Condition) :=
  list_find (fun c => Type_ c = conditionType) conditions.

(** [SetStatusCondition(&conditions, newCondition)]: returns the new
    contents of the slice.
    - no condition of that type: append [newCondition], stamping its
      transition time with [time.Now()] when it is zero;
    - otherwise update the first one in place: when the status differs,
      take the new status and the new transition time ([time.Now()] when
      that is zero); always take reason, message and observed
      generation. *)
Definition SetStatusCondition (conditions : list Condition)
    (newCondition : Condition) : Clock.M (list Condition) :=
  match FindStatusCondition conditions (Type_ newCondition) with
  | None =>
      let* t := (if IsZero (LastTransitionTime newCondition)
                 then Clock.Now wall
                 else Clock.ret (LastTransitionTime newCondition)) in
      Clock.ret (conditions ++ [withLastTransitionTime newCondition t])
  | Some (i, existingCondition) =>
      let* flipped :=
        (if decide (Status existingCondition <> Status newCondition)
         then
           let* t := (if negb (IsZero (LastTransitionTime newCondition))
                      then Clock.ret (LastTransitionTime newCondition)
                      else Clock.Now wall) in
           Clock.ret (Status newCondition, t)
         else Clock.ret (Status existingCondition,
                         LastTransitionTime existingCondition)) in
      Clock.ret (<[i := {| Type_ := Type_ existingCondition;
                           Status := fst flipped;
                           ObservedGeneration := ObservedGeneration newCondition;
                           LastTransitionTime := snd flipped;
                           Reason := Reason newCondition;
                           Message := Message newCondition |}]> conditions)
  end.

End WithClock.

End meta.

(** ** The work API types used by the merge *)

Module workapiv1.
Import metav1.

(** [ManifestResourceMeta]: the identity of a manifest plus its position
    in the manifest list. [Ordinal] is an [int32]; no arithmetic is done
    on it. *)
Record ManifestResourceMeta : Type := {
  Ordinal : Z;
  Group : string;
  Version : string;
  Kind : string;
  Resource : string;
  Name : string;
  Namespace : string
}.

#[global] Instance ManifestResourceMeta_eq_dec : EqDecision ManifestResourceMeta.
Proof. solve_decision. Defined.

#[global] Instance ManifestResourceMeta_countable : Countable ManifestResourceMeta.
Proof.
  refine (inj_countable'
    (fun m => (Ordinal m, Group m, Version m, Kind m, Resource m, Name m, Namespace m))
    (fun t => match t with
              | (o, g, v, k, r, n, ns) =>
                  {| Ordinal := o; Group := g; Version := v; Kind := k;
                     Resource := r; Name := n; Namespace := ns |}
              end) _).
  intros []; reflexivity.
Defined.

(** [FeedbackValue]: a named value read back from the applied resource;
    the merge only carries it along. *)
Record FeedbackValue : Type := {
  FeedbackName : string;
  FeedbackRaw : string
}.

#[global] Instance FeedbackValue_eq_dec : EqDecision FeedbackValue.
Proof. solve_decision. Defined.

(** [ManifestCondition]. [StatusFeedbacks] holds the [Values] of the
    [StatusFeedbackResult]. *)
Record ManifestCondition : Type := {
  ResourceMeta : ManifestResourceMeta;
  StatusFeedbacks : list FeedbackValue;
  Conditions : list Condition
}.

#[global] Instance ManifestCondition_eq_dec : EqDecision ManifestCondition.
Proof. solve_decision. Defined.

End workapiv1.

(** ** pkg/helper/helpers.go *)

Module helper.
Import metav1 workapiv1.

(** [resetOrdinal]: the same identity with the zero ordinal. *)
Definition resetOrdinal (m : ManifestResourceMeta) : ManifestResourceMeta :=
  {| Ordinal := 0;
     Group := Group m;
     Version := Version m;
     Kind := workapiv1.Kind m;
     Resource := Resource m;
     Name := workapiv1.Name m;
     Namespace := Namespace m |}.

(** The zero value [workapiv1.ManifestResourceMeta{}]. *)
Definition zeroMeta : ManifestResourceMeta :=
  {| Ordinal := 0; Group := ""; Version := ""; Kind := "";
     Resource := ""; Name := ""; Namespace := "" |}.

(** [IsOwnedBy]: some existing owner has the UID of [myOwner]. *)
Fixpoint IsOwnedBy (myOwner : OwnerReference)
    (existingOwners : list OwnerReference) : bool :=
  match existingOwners with
  | [] => false
  | owner :: rest =>
      if decide (UID myOwner = UID owner) then true
      else IsOwnedBy myOwner rest
  end.

Section WithClock.
Variable wall : nat -> Time.

(** The loop of [MergeStatusConditions] over [newConditions], with
    [merged] as the slice being updated. *)
Fixpoint setStatusConditions (merged newConditions : list Condition)
    : Clock.M (list Condition) :=
  match newConditions with
  | [] => Clock.ret merged
  | condition :: rest =>
      let* merged' := meta.SetStatusCondition wall merged condition in
      setStatusConditions merged' rest
  end.

(** [MergeStatusConditions]: [merged] starts as a copy of [conditions]. *)
Definition MergeStatusConditions (conditions newConditions : list Condition)
    : Clock.M (list Condition) :=
  setStatusConditions ([] ++ conditions) newConditions.

(** [mergeManifestCondition]: identity from the new record, feedbacks
    from the old one, conditions merged. *)
Definition mergeManifestCondition (condition newCondition : ManifestCondition)
    : Clock.M ManifestCondition :=
  let* merged := MergeStatusConditions (Conditions condition)
                                       (Conditions newCondition) in
  Clock.ret {| ResourceMeta := ResourceMeta newCondition;
               StatusFeedbacks := StatusFeedbacks condition;
               Conditions := merged |}.

(** The search indices of [MergeManifestConditions] and the list of
    ordinal-free keys seen more than once. *)
Record indices : Type := {
  metaIndex : gmap ManifestResourceMeta ManifestCondition;
  metaWithoutOridinalIndex : gmap ManifestResourceMeta ManifestCondition;
  duplicated : list ManifestResourceMeta
}.

Definition noIndices : indices :=
  {| metaIndex := ∅; metaWithoutOridinalIndex := ∅; duplicated := [] |}.

(** One iteration of the first loop: every record goes into the index by
    resource meta (a later record with the same meta replaces an earlier
    one); its identity without ordinal, unless it is the zero value, goes
    into the second index when it is new there and into [duplicated]
    otherwise. *)
Definition indexCondition (ix : indices) (condition : ManifestCondition)
    : indices :=
  let metaIndex' := <[ResourceMeta condition := condition]> (metaIndex ix) in
  let metaWithoutOridinal := resetOrdinal (ResourceMeta condition) in
  if decide (metaWithoutOridinal <> zeroMeta) then
    match metaWithoutOridinalIndex ix !! metaWithoutOridinal with
    | Some _ =>
        {| metaIndex := metaIndex';
           metaWithoutOridinalIndex := metaWithoutOridinalIndex ix;
           duplicated := duplicated ix ++ [metaWithoutOridinal] |}
    | None =>
        {| metaIndex := metaIndex';
           metaWithoutOridinalIndex :=
             <[metaWithoutOridinal := condition]> (metaWithoutOridinalIndex ix);
           duplicated := duplicated ix |}
    end
  else
    {| metaIndex := metaIndex';
       metaWithoutOridinalIndex := metaWithoutOridinalIndex ix;
       duplicated := duplicated ix |}.

Definition buildIndices (conditions : list ManifestCondition) : indices :=
  fold_left indexCondition conditions noIndices.

(** The second loop: delete every duplicated key from the index. *)
Definition removeDuplicated
    (index : gmap ManifestResourceMeta ManifestCondition)
    (dups : list ManifestResourceMeta)
    : gmap ManifestResourceMeta ManifestCondition :=
  fold_left (fun m metaWithoutOridinal => delete metaWithoutOridinal m)
            dups index.

(** The two-step match of a new record against the indices. *)
Definition matchCondition
    (byMeta byIdentity : gmap ManifestResourceMeta ManifestCondition)
    (newCondition : ManifestCondition) : option ManifestCondition :=
  match byMeta !! ResourceMeta newCondition with
  | Some condition => Some condition
  | None => byIdentity !! resetOrdinal (ResourceMeta newCondition)
  end.

(** [for i := range newCondition.Conditions]: stamp every condition with
    a fresh reading of the clock. (In Go the elements are written through
    the slice, so the caller's record sees the stamps too.) *)
Fixpoint stampConditions (conditions : list Condition)
    : Clock.M (list Condition) :=
  match conditions with
  | [] => Clock.ret []
  | c :: rest =>
      let* t := Clock.Now wall in
      let* rest' := stampConditions rest in
      Clock.ret (withLastTransitionTime c t :: rest')
  end.

(** The third loop, with [merged] as the slice being appended to. *)
Fixpoint mergeConditions
    (byMeta byIdentity : gmap ManifestResourceMeta ManifestCondition)
    (merged newConditions : list ManifestCondition)
    : Clock.M (list ManifestCondition) :=
  match newConditions with
  | [] => Clock.ret merged
  | newCondition :: rest =>
      match matchCondition byMeta byIdentity newCondition with
      | Some condition =>
          let* m := mergeManifestCondition condition newCondition in
          mergeConditions byMeta byIdentity (merged ++ [m]) rest
      | None =>
          let* stamped := stampConditions (Conditions newCondition) in
          mergeConditions byMeta byIdentity
            (merged ++ [{| ResourceMeta := ResourceMeta newCondition;
                           StatusFeedbacks := StatusFeedbacks newCondition;
                           Conditions := stamped |}]) rest
      end
  end.

Definition MergeManifestConditions
    (conditions newConditions : list ManifestCondition)
    : Clock.M (list ManifestCondition) :=
  let ix := buildIndices conditions in
  mergeConditions (metaIndex ix)
    (removeDuplicated (metaWithoutOridinalIndex ix) (duplicated ix))
    [] newConditions.

End WithClock.

End helper.


(** ** Errors

    Go's [error] values that occur in the modelled code: a status error of
    the API machinery with its reason, a plain message ([fmt.Errorf] without
    [%w]), a wrapped error ([fmt.Errorf] with [%w]), and the authorizer's
    [NotAllowedError]. A nil error is [None]. *)

Module apierrors.

Inductive StatusReason : Type :=
| StatusReasonUnknown
| StatusReasonForbidden
| StatusReasonNotFound
| StatusReasonAlreadyExists
| StatusReasonConflict
| StatusReasonTimeout
| StatusReasonInternalError.

#[global] Instance StatusReason_eq_dec : EqDecision StatusReason.
Proof. solve_decision. Defined.

Inductive error : Type :=
| StatusError (reason : StatusReason) (message : string)
| errorString (message : string)
| wrapError (message : string) (err : error)
| NotAllowedError (Err : error) (RequeueTime : Z).

#[global] Instance error_eq_dec : EqDecision error.
Proof. solve_decision. Defined.

(** [ReasonForError]: the reason of the first status error on the unwrap
    chain. [NotAllowedError] has no [Unwrap] method and is no status error. *)
Fixpoint ReasonForError (err : error) : StatusReason :=
  match err with
  | StatusError reason _ => reason
  | wrapError _ err' => ReasonForError err'
  | errorString _ => StatusReasonUnknown
  | NotAllowedError _ _ => StatusReasonUnknown
  end.

Definition hasReason (reason : StatusReason) (err : option error) : bool :=
  match err with
  | None => false
  | Some e => bool_decide (ReasonForError e = reason)
  end.

Definition IsForbidden : option error -> bool := hasReason StatusReasonForbidden.
Definition IsNotFound : option error -> bool := hasReason StatusReasonNotFound.
Definition IsAlreadyExists : option error -> bool := hasReason StatusReasonAlreadyExists.
Definition IsConflict : option error -> bool := hasReason StatusReasonConflict.

End apierrors.

(** ** schema, unstructured objects, and the calls to the API server *)

Module schema.

Record GroupVersionResource : Type := {
  Group : string;
  Version : string;
  Resource : string
}.

#[global] Instance GroupVersionResource_eq_dec : EqDecision GroupVersionResource.
Proof. solve_decision. Defined.

(** [GroupVersionResource.String], what [%v] prints. *)
Definition String (gvr : GroupVersionResource) : string :=
  Group gvr +:+ "/" +:+ Version gvr +:+ ", Resource=" +:+ Resource gvr.

(** [strings.Count(gv, "/")]. *)
Fixpoint countSlash (gv : string) : nat :=
  match gv with
  | EmptyString => 0
  | String.String c rest =>
      if Ascii.eqb c "/"%char then S (countSlash rest) else countSlash rest
  end.

(** [gv[:strings.Index(gv, "/")]]: the text before the first slash. *)
Fixpoint beforeSlash (gv : string) : string :=
  match gv with
  | EmptyString => EmptyString
  | String.String c rest =>
      if Ascii.eqb c "/"%char then EmptyString
      else String.String c (beforeSlash rest)
  end.

(** [ParseGroupVersion], projected on the group: [None] is the error for
    more than one slash. *)
Definition ParseGroupVersion (gv : string) : option string :=
  if decide (String.length gv = 0 \/ gv = "/") then Some ""
  else match countSlash gv with
       | 0 => Some ""
       | 1 => Some (beforeSlash gv)
       | _ => None
       end.

End schema.

Module unstructured.

(** [unstructured.Unstructured]: the metadata the code reads, and the rest
    of the object as an opaque document. *)
Record Unstructured : Type := {
  Namespace : string;
  Name : string;
  UID : string;
  ResourceVersion : string;
  OwnerReferences : list metav1.OwnerReference;
  DeletionTimestamp : option metav1.Time;
  Body : string
}.

#[global] Instance Unstructured_eq_dec : EqDecision Unstructured.
Proof. solve_decision. Defined.

End unstructured.

Module authorizationv1.

Record ResourceAttributes : Type := {
  Namespace : string;
  Verb : string;
  Group : string;
  Version : string;
  Resource : string;
  Subresource : string;
  Name : string
}.

#[global] Instance ResourceAttributes_eq_dec : EqDecision ResourceAttributes.
Proof. solve_decision. Defined.

Record SubjectAccessReviewSpec : Type := {
  ResourceAttributes_ : option ResourceAttributes;
  User : string;
  Groups : list string
}.

#[global] Instance SubjectAccessReviewSpec_eq_dec : EqDecision SubjectAccessReviewSpec.
Proof. solve_decision. Defined.

Record SubjectAccessReviewStatus : Type := {
  Allowed : bool;
  Reason : string
}.

#[global] Instance SubjectAccessReviewStatus_eq_dec : EqDecision SubjectAccessReviewStatus.
Proof. solve_decision. Defined.

Record SubjectAccessReview : Type := {
  Spec : SubjectAccessReviewSpec;
  Status : SubjectAccessReviewStatus
}.

#[global] Instance SubjectAccessReview_eq_dec : EqDecision SubjectAccessReview.
Proof. solve_decision. Defined.

End authorizationv1.

Module rest.

(** [rest.Config]: the host and the impersonated user name. *)
Record Config : Type := {
  Host : string;
  ImpersonateUserName : string
}.

#[global] Instance Config_eq_dec : EqDecision Config.
Proof. solve_decision. Defined.

End rest.

(** The work API types of the executor and of the applied resources. They
    belong to the same Go package as [workapiv1] above and are kept in modules
    of their own because their field names repeat. *)

Module workapiv1_executor.

Record ManifestWorkSubjectServiceAccount : Type := {
  Namespace : string;
  Name : string
}.

Record ManifestWorkExecutorSubject : Type := {
  Type_ : string;
  ServiceAccount : option ManifestWorkSubjectServiceAccount
}.

Record ManifestWorkExecutor : Type := {
  Subject : ManifestWorkExecutorSubject
}.

Definition ExecutorSubjectTypeServiceAccount : string := "ServiceAccount".

#[global] Instance SA_eq_dec : EqDecision ManifestWorkSubjectServiceAccount.
Proof. solve_decision. Defined.
#[global] Instance Subject_eq_dec : EqDecision ManifestWorkExecutorSubject.
Proof. solve_decision. Defined.
#[global] Instance Executor_eq_dec : EqDecision ManifestWorkExecutor.
Proof. solve_decision. Defined.

End workapiv1_executor.

Module workapiv1_applied.

(** [AppliedManifestResourceMeta], with the fields of the embedded
    [ResourceIdentifier] inlined. *)
Record AppliedManifestResourceMeta : Type := {
  Group : string;
  Resource : string;
  Name : string;
  Namespace : string;
  Version : string;
  UID : string
}.

#[global] Instance AppliedManifestResourceMeta_eq_dec : EqDecision AppliedManifestResourceMeta.
Proof. solve_decision. Defined.

End workapiv1_applied.

(** ** The API server

    Every request goes to a server whose answers the code does not control:
    a [Server] gives, for each kind of request, the answer and the next state
    of the world. Each request is also recorded, with its answer, in the list
    of calls made. *)

Module client.
Import apierrors.

(** [metav1.DeleteOptions]: the UID precondition and the propagation
    policy. *)
Record DeleteOptions : Type := {
  PreconditionUID : option string;
  PropagationPolicy : option string
}.

#[global] Instance DeleteOptions_eq_dec : EqDecision DeleteOptions.
Proof. solve_decision. Defined.

Definition DeletePropagationBackground : string := "Background".
Definition MergePatchType : string := "application/merge-patch+json".

(** The document [ApplyOwnerReferences] marshals: an otherwise empty object
    with [metadata.uid], [metadata.resourceVersion] and
    [metadata.ownerReferences]. *)
Record OwnerPatch : Type := {
  PatchUID : string;
  PatchResourceVersion : string;
  PatchOwnerReferences : list metav1.OwnerReference
}.

#[global] Instance OwnerPatch_eq_dec : EqDecision OwnerPatch.
Proof. solve_decision. Defined.

Inductive Call : Type :=
| CallAccessReview (review : authorizationv1.SubjectAccessReview)
    (answer : error + authorizationv1.SubjectAccessReview)
| CallCreate (cfg : rest.Config) (gvr : schema.GroupVersionResource)
    (namespace : string) (obj : option unstructured.Unstructured)
    (dryRun : list string) (err : option error)
| CallGet (gvr : schema.GroupVersionResource) (namespace name : string)
    (answer : error + unstructured.Unstructured)
| CallValidateDelete (executor : option workapiv1_executor.ManifestWorkExecutor)
    (gvr : schema.GroupVersionResource) (namespace name : string)
    (err : option error)
| CallPatch (gvr : schema.GroupVersionResource) (namespace name : string)
    (patchType : string) (patch : OwnerPatch) (err : option error)
| CallDelete (gvr : schema.GroupVersionResource) (namespace name : string)
    (opts : DeleteOptions) (err : option error)
| CallEvent (reason : string) (gvr : schema.GroupVersionResource)
    (namespace name : string) (because : string).

#[global] Instance Call_eq_dec : EqDecision Call.
Proof. solve_decision. Defined.

Record Server (W : Type) : Type := {
  (** [kubeClient.AuthorizationV1().SubjectAccessReviews().Create] *)
  accessReview : authorizationv1.SubjectAccessReview -> W ->
                 (error + authorizationv1.SubjectAccessReview) * W;
  (** [dynamicClient.Resource(gvr).Namespace(ns).Create], for a client made
      from the given configuration *)
  create : rest.Config -> schema.GroupVersionResource -> string ->
           option unstructured.Unstructured -> list string -> W ->
           option error * W;
  (** [dynamicClient.Resource(gvr).Namespace(ns).Get] *)
  get : schema.GroupVersionResource -> string -> string -> W ->
        (error + unstructured.Unstructured) * W;
  (** [validator.ValidateDelete], see [spoke_helper.DeleteAppliedResources] *)
  validateDelete : option workapiv1_executor.ManifestWorkExecutor ->
                   schema.GroupVersionResource -> string -> string -> W ->
                   option error * W;
  (** [dynamicClient.Resource(gvr).Namespace(ns).Patch] *)
  patch : schema.GroupVersionResource -> string -> string -> string ->
          OwnerPatch -> W -> option error * W;
  (** [dynamicClient.Resource(gvr).Namespace(ns).Delete] *)
  delete : schema.GroupVersionResource -> string -> string ->
           DeleteOptions -> W -> option error * W
}.

Arguments accessReview {W}.
Arguments create {W}.
Arguments get {W}.
Arguments validateDelete {W}.
Arguments patch {W}.
Arguments delete {W}.

(** A computation against the server: from a world, a result, the next
    world, and the calls it made, oldest first. *)
Definition M (W A : Type) : Type := W -> A * W * list Call.

Definition ret {W A} (a : A) : M W A := fun w => (a, w, []).

Definition bind {W A B} (m : M W A) (f : A -> M W B) : M W B :=
  fun w =>
    let '(a, w1, calls1) := m w in
    let '(b, w2, calls2) := f a w1 in
    (b, w2, calls1 ++ calls2).

(** What a computation returns, and the calls it makes, from a world. *)
Definition result {W A} (m : M W A) (w : W) : A := fst (fst (m w)).
Definition calls {W A} (m : M W A) (w : W) : list Call := snd (m w).

Section Requests.
Context {W : Type}.
Variable srv : Server W.

(** Send one request: ask the server, record the call with its answer. *)
Definition request {A} (ask : W -> A * W) (record : A -> Call) : M W A :=
  fun w => let (a, w') := ask w in (a, w', [record a]).

Definition SubjectAccessReviewsCreate (review : authorizationv1.SubjectAccessReview)
    : M W (error + authorizationv1.SubjectAccessReview) :=
  request (accessReview srv review) (CallAccessReview review).

Definition Create (cfg : rest.Config) (gvr : schema.GroupVersionResource)
    (namespace : string) (obj : option unstructured.Unstructured)
    (dryRun : list string) : M W (option error) :=
  request (create srv cfg gvr namespace obj dryRun)
          (CallCreate cfg gvr namespace obj dryRun).

Definition Get (gvr : schema.GroupVersionResource) (namespace name : string)
    : M W (error + unstructured.Unstructured) :=
  request (get srv gvr namespace name) (CallGet gvr namespace name).

Definition ValidateDelete (executor : option workapiv1_executor.ManifestWorkExecutor)
    (gvr : schema.GroupVersionResource) (namespace name : string)
    : M W (option error) :=
  request (validateDelete srv executor gvr namespace name)
          (CallValidateDelete executor gvr namespace name).

Definition Patch (gvr : schema.GroupVersionResource) (namespace name : string)
    (patchType : string) (p : OwnerPatch) : M W (option error) :=
  request (patch srv gvr namespace name patchType p)
          (CallPatch gvr namespace name patchType p).

Definition Delete (gvr : schema.GroupVersionResource) (namespace name : string)
    (opts : DeleteOptions) : M W (option error) :=
  request (delete srv gvr namespace name opts)
          (CallDelete gvr namespace name opts).

(** [recorder.Eventf]: recorded, never answered. *)
Definition Eventf (reason : string) (gvr : schema.GroupVersionResource)
    (namespace name because : string) : M W unit :=
  fun w => (tt, w, [CallEvent reason gvr namespace name because]).

End Requests.

End client.

Notation "'let!' x ':=' m 'in' k" := (client.bind m (fun x => k))
  (at level 10, x name, m at level 100, k at level 200, only parsing).

(** ** The auth package: the executor validator *)

Module auth.
Import apierrors.
Import workapiv1_executor.

(** [time.Second], in nanoseconds as [time.Duration] counts. *)
Definition Second : Z := 1000000000.

(** [ExecuteAction] is a string type. *)
Definition ApplyAction : string := "Apply".
Definition DeleteAction : string := "Delete".

(** The validator: its rest configuration (a pointer, possibly nil) and the
    factory of impersonating clients. A client is identified by the
    configuration it was made from. (The [kubeClient] of the Go struct is the
    server the run talks to.) *)
Record sarValidator : Type := {
  config : option rest.Config;
  newImpersonateClientFunc : option rest.Config -> string -> error + rest.Config
}.

(** [defaultNewImpersonateClient]. [newForConfig] is
    [dynamic.NewForConfig], which may refuse a configuration. *)
Definition defaultNewImpersonateClient
    (newForConfig : rest.Config -> option error)
    (cfg : option rest.Config) (username : string) : error + rest.Config :=
  match cfg with
  | None => inl (errorString "kube config should not be nil")
  | Some c =>
      let impersonatedConfig :=
        {| rest.Host := rest.Host c; rest.ImpersonateUserName := username |} in
      match newForConfig impersonatedConfig with
      | Some err => inl err
      | None => inr impersonatedConfig
      end
  end.

Definition username (saNamespace saName : string) : string :=
  "system:serviceaccount:" +:+ saNamespace +:+ ":" +:+ saName.

Definition groups (saNamespace : string) : list string :=
  ["system:serviceaccounts"; "system:authenticated";
   "system:serviceaccounts:" +:+ saNamespace].

(** [buildSubjectAccessReviews]: one review per verb, in the order of the
    verbs. *)
Fixpoint buildSubjectAccessReviews (saNamespace saName : string)
    (resource : authorizationv1.ResourceAttributes) (verbs : list string)
    : list authorizationv1.SubjectAccessReview :=
  match verbs with
  | [] => []
  | verb :: rest =>
      {| authorizationv1.Spec :=
           {| authorizationv1.ResourceAttributes_ :=
                Some {| authorizationv1.Namespace := authorizationv1.Namespace resource;
                        authorizationv1.Verb := verb;
                        authorizationv1.Group := authorizationv1.Group resource;
                        authorizationv1.Version := authorizationv1.Version resource;
                        authorizationv1.Resource := authorizationv1.Resource resource;
                        authorizationv1.Subresource := authorizationv1.Subresource resource;
                        authorizationv1.Name := authorizationv1.Name resource |};
              authorizationv1.User := username saNamespace saName;
              authorizationv1.Groups := groups saNamespace |};
         authorizationv1.Status :=
           {| authorizationv1.Allowed := false; authorizationv1.Reason := "" |} |}
      :: buildSubjectAccessReviews saNamespace saName resource rest
  end.

(** [strings.ToLower(string(action))] for the two actions [Validate] lets
    through. *)
Definition lowerAction (action : string) : string :=
  if decide (action = ApplyAction) then "apply"
  else if decide (action = DeleteAction) then "delete"
  else action.

Section WithServer.
Context {W : Type}.
Variable srv : client.Server W.

(** [validateBySubjectAccessReviews]: the reviews one after the other; an
    error or a denial ends the loop. *)
Fixpoint validateBySubjectAccessReviews
    (subjectAccessReviews : list authorizationv1.SubjectAccessReview)
    : client.M W (bool * option error) :=
  match subjectAccessReviews with
  | [] => client.ret (true, None)
  | subjectAccessReview :: rest =>
      let! answer := client.SubjectAccessReviewsCreate srv subjectAccessReview in
      match answer with
      | inl err => client.ret (false, Some err)
      | inr sar =>
          if negb (authorizationv1.Allowed (authorizationv1.Status sar))
          then client.ret (false, None)
          else validateBySubjectAccessReviews rest
      end
  end.

(** [sarValidator.checkEscalation]. *)
Definition checkEscalation (v : sarValidator)
    (sa : ManifestWorkSubjectServiceAccount)
    (gvr : schema.GroupVersionResource) (namespace name : string)
    (obj : option unstructured.Unstructured) : client.M W (option error) :=
  match newImpersonateClientFunc v (config v) (username (Namespace sa) (Name sa)) with
  | inl err => client.ret (Some err)
  | inr dynamicClient =>
      let! err := client.Create srv dynamicClient gvr namespace obj ["All"] in
      if IsForbidden err then
        client.ret (Some (NotAllowedError
          (errorString ("not allowed to apply the resource " +:+ schema.Group gvr
                        +:+ " " +:+ schema.Resource gvr +:+ ", " +:+ namespace
                        +:+ " " +:+ name +:+ ", error: permission escalation"))
          (60 * Second)))
      else if IsAlreadyExists err then client.ret None
      else client.ret err
  end.

(** [sarValidator.Validate]. *)
Definition Validate (v : sarValidator) (executor : option ManifestWorkExecutor)
    (gvr : schema.GroupVersionResource) (namespace name : string)
    (obj : option unstructured.Unstructured) (action : string)
    : client.M W (option error) :=
  match executor with
  | None => client.ret None
  | Some executor =>
      if decide (Type_ (Subject executor) <> ExecutorSubjectTypeServiceAccount)
      then client.ret (Some (errorString ("only support "
                     +:+ ExecutorSubjectTypeServiceAccount
                     +:+ " type for the executor")))
      else
      match ServiceAccount (Subject executor) with
      | None => client.ret (Some (errorString "the executor service account is nil"))
      | Some sa =>
          let verbs :=
            if decide (action = ApplyAction)
            then Some ["create"; "update"; "patch"; "get"]
            else if decide (action = DeleteAction)
            then Some ["delete"]
            else None in
          match verbs with
          | None => client.ret (Some (errorString ("execute action " +:+ action
                                               +:+ " is invalid")))
          | Some verbs =>
              let resource :=
                {| authorizationv1.Namespace := namespace;
                   authorizationv1.Verb := "";
                   authorizationv1.Group := schema.Group gvr;
                   authorizationv1.Version := schema.Version gvr;
                   authorizationv1.Resource := schema.Resource gvr;
                   authorizationv1.Subresource := "";
                   authorizationv1.Name := name |} in
              let reviews :=
                buildSubjectAccessReviews (Namespace sa) (Name sa) resource verbs in
              let! checked := validateBySubjectAccessReviews reviews in
              match snd checked with
              | Some err => client.ret (Some err)
              | None =>
                  if negb (fst checked) then
                    client.ret (Some (NotAllowedError
                      (errorString ("not allowed to " +:+ lowerAction action
                         +:+ " the resource " +:+ authorizationv1.Group resource
                         +:+ " " +:+ authorizationv1.Resource resource
                         +:+ ", " +:+ authorizationv1.Namespace resource
                         +:+ " " +:+ authorizationv1.Name resource))
                      (60 * Second)))
                  else if decide (action <> ApplyAction) then client.ret None
                  else if decide (schema.Group gvr <> "rbac.authorization.k8s.io")
                  then client.ret None
                  else if decide (schema.Resource gvr = "roles"
                                  \/ schema.Resource gvr = "rolebindings"
                                  \/ schema.Resource gvr = "clusterroles"
                                  \/ schema.Resource gvr = "clusterrolebindings")
                  then checkEscalation v sa gvr namespace name obj
                  else client.ret None
              end
          end
      end
  end.

End WithServer.

End auth.

(** ** library-go resourcemerge: owner references

    [MergeOwnerRefs] is a library function; it is written here after the
    library ([object_merger.go]) and checked below against the repository's
    test table for [ApplyOwnerReferences]. *)

Module resourcemerge.
Import metav1.

(** The last byte of a string; [None] for the empty string. *)
Fixpoint lastByte (s : string) : option ascii :=
  match s with
  | EmptyString => None
  | String.String c EmptyString => Some c
  | String.String _ rest => lastByte rest
  end.

(** [ownerRefMatched]: same name, same kind, both API versions parse and
    have the same group. The UID plays no part. *)
Definition ownerRefMatched (existing required : OwnerReference) : bool :=
  if decide (Name existing <> Name required) then false
  else if decide (Kind existing <> Kind required) then false
  else match schema.ParseGroupVersion (APIVersion existing) with
       | None => false
       | Some existingGroup =>
           match schema.ParseGroupVersion (APIVersion required) with
           | None => false
           | Some requiredGroup => bool_decide (existingGroup = requiredGroup)
           end
       end.

(** The inner loop: the index of the first existing reference that matches
    [o], or the length of the slice. *)
Fixpoint existedIndex (o : OwnerReference) (existing : list OwnerReference) : nat :=
  match existing with
  | [] => 0
  | e :: rest => if ownerRefMatched o e then 0 else S (existedIndex o rest)
  end.

(** One iteration of [MergeOwnerRefs] for the required reference [o].
    [None] is the run-time panic of [o.UID[len(o.UID)-1]] on an empty UID. *)
Definition mergeOwnerRef (state : bool * list OwnerReference) (o : OwnerReference)
    : option (bool * list OwnerReference) :=
  let (modified, existing) := state in
  match lastByte (UID o) with
  | None => None
  | Some last =>
      let removeOwner := Ascii.eqb last "-"%char in
      let i := existedIndex o existing in
      if decide (i = length existing) then
        if negb removeOwner then Some (true, existing ++ [o])
        else Some (modified, existing)
      else if removeOwner then
        Some (true, take i existing ++ drop (S i) existing)
      else
        match existing !! i with
        | Some e =>
            if decide (o <> e) then Some (true, <[i := o]> existing)
            else Some (modified, existing)
        | None => Some (modified, existing)
        end
  end.

Fixpoint MergeOwnerRefs (modified : bool) (existing required : list OwnerReference)
    : option (bool * list OwnerReference) :=
  match required with
  | [] => Some (modified, existing)
  | o :: rest =>
      match mergeOwnerRef (modified, existing) o with
      | None => None
      | Some (modified', existing') => MergeOwnerRefs modified' existing' rest
      end
  end.

End resourcemerge.

(** ** pkg/spoke/helper/helper.go *)

Module spoke_helper.
Import apierrors.
Import workapiv1_applied.

(** The message of the errors [DeleteAppliedResources] collects, up to the
    wrapped error. *)
Definition failedTo (what : string) (gvr : schema.GroupVersionResource)
    (namespace name : string) : string :=
  "failed to " +:+ what +:+ " " +:+ schema.String gvr +:+ " with key "
  +:+ namespace +:+ "/" +:+ name.

(** What one call of a function that may panic yields. *)
Inductive outcome (A : Type) : Type :=
| Returned (a : A)
| Panicked.

Arguments Returned {A}.
Arguments Panicked {A}.

Section WithServer.
Context {W : Type}.
Variable srv : client.Server W.

(** [ApplyOwnerReferences]. [meta.Accessor] does not fail on an
    unstructured object and [json.Marshal] does not fail on the patch, so
    their error returns are left out. [Panicked] is the panic of
    [MergeOwnerRefs] on a required owner with an empty UID. *)
Definition ApplyOwnerReferences (gvr : schema.GroupVersionResource)
    (existing : unstructured.Unstructured) (requiredOwner : metav1.OwnerReference)
    : client.M W (outcome (option error)) :=
  match resourcemerge.MergeOwnerRefs false
          (unstructured.OwnerReferences existing) [requiredOwner] with
  | None => client.ret Panicked
  | Some (modified, patchedOwner) =>
      if negb modified then client.ret (Returned None)
      else
        let patch :=
          {| client.PatchUID := unstructured.UID existing;
             client.PatchResourceVersion := unstructured.ResourceVersion existing;
             client.PatchOwnerReferences := patchedOwner |} in
        let! err := client.Patch srv gvr (unstructured.Namespace existing)
                      (unstructured.Name existing) client.MergePatchType patch in
        client.ret (Returned err)
  end.

(** The owner reference that asks for the removal of [owner]: the same
    reference with a dash appended to the UID. *)
Definition ownerToRemove (owner : metav1.OwnerReference) : metav1.OwnerReference :=
  {| metav1.APIVersion := metav1.APIVersion owner;
     metav1.Kind := metav1.Kind owner;
     metav1.Name := metav1.Name owner;
     metav1.UID := metav1.UID owner +:+ "-";
     metav1.Controller := metav1.Controller owner;
     metav1.BlockOwnerDeletion := metav1.BlockOwnerDeletion owner |}.

(** What one iteration of the loop of [DeleteAppliedResources] leaves
    behind: the two slices it appends to. *)
Definition progress : Type :=
  (list AppliedManifestResourceMeta * list error)%type.

(** The loop body from the check on the number of owners to its end: the
    code reached when the delete permission was granted, and also when it was
    refused with a forbidden error (that branch only logs and falls
    through). *)
Definition removeOwnerOrDelete (reason : string)
    (ownerCopy : metav1.OwnerReference) (acc : progress)
    (resource : AppliedManifestResourceMeta)
    (gvr : schema.GroupVersionResource) (u : unstructured.Unstructured)
    : client.M W (outcome progress) :=
  let (resourcesPendingFinalization, errs) := acc in
  let deletePolicy := client.DeletePropagationBackground in
  let existingOwner := unstructured.OwnerReferences u in
  if decide (1 < length existingOwner)%nat then
    let! applied := ApplyOwnerReferences gvr u ownerCopy in
    match applied with
    | Panicked => client.ret Panicked
    | Returned (Some e) =>
        client.ret (Returned (resourcesPendingFinalization,
          errs ++ [wrapError (failedTo "remove owner from resource"
                     gvr (Namespace resource) (Name resource)) e]))
    | Returned None =>
        client.ret (Returned (resourcesPendingFinalization, errs))
    end
  else if decide (UID resource <> unstructured.UID u) then
    client.ret (Returned (resourcesPendingFinalization, errs))
  else if match unstructured.DeletionTimestamp u with
          | Some t => negb (metav1.IsZero t)
          | None => false
          end
  then client.ret (Returned (resourcesPendingFinalization ++ [resource], errs))
  else
    let! err := client.Delete srv gvr (Namespace resource) (Name resource)
                  {| client.PreconditionUID := Some (UID resource);
                     client.PropagationPolicy := Some deletePolicy |} in
    if IsNotFound err then
      client.ret (Returned (resourcesPendingFinalization, errs))
    else if IsConflict err then
      client.ret (Returned (resourcesPendingFinalization, errs))
    else match err with
         | Some e =>
             client.ret (Returned (resourcesPendingFinalization,
               errs ++ [wrapError (failedTo "delete resource" gvr
                          (Namespace resource) (Name resource)) e]))
         | None =>
             let! _ := client.Eventf "ResourceDeleted" gvr
                         (Namespace resource) (Name resource) reason in
             client.ret (Returned (resourcesPendingFinalization ++ [resource],
                               errs))
         end.

(** The body of the loop for one resource. The validator is the one of the
    revision this file was written against: [auth.NewExecutorValidator] with
    the kube client alone, and its method [ValidateDelete]. That method is
    not among the sources; its answer (nil, a forbidden error, or another
    error) is left to the server. *)
Definition deleteAppliedResource (reason : string) (owner : metav1.OwnerReference)
    (executor : option workapiv1_executor.ManifestWorkExecutor)
    (acc : progress) (resource : AppliedManifestResourceMeta)
    : client.M W (outcome progress) :=
  let ownerCopy := ownerToRemove owner in
  let gvr := {| schema.Group := Group resource;
                schema.Version := Version resource;
                schema.Resource := Resource resource |} in
  let! got := client.Get srv gvr (Namespace resource) (Name resource) in
  match got with
  | inl err =>
      if IsNotFound (Some err) then client.ret (Returned acc)
      else
        client.ret (Returned (fst acc,
          snd acc ++ [wrapError (failedTo "get resource" gvr
                                   (Namespace resource) (Name resource)) err]))
  | inr u =>
      let existingOwner := unstructured.OwnerReferences u in
      if negb (helper.IsOwnedBy owner existingOwner) then client.ret (Returned acc)
      else
        let! err := client.ValidateDelete srv executor gvr
                      (Namespace resource) (Name resource) in
        match err with
        | Some e =>
            if negb (IsForbidden err) then
              client.ret (Returned (fst acc,
                snd acc ++ [wrapError (failedTo "check delete permission for resource"
                              gvr (Namespace resource) (Name resource)) e]))
            else removeOwnerOrDelete reason ownerCopy acc resource gvr u
        | None => removeOwnerOrDelete reason ownerCopy acc resource gvr u
        end
  end.

(** The loop over the resources. *)
Fixpoint deleteEach (reason : string) (owner : metav1.OwnerReference)
    (executor : option workapiv1_executor.ManifestWorkExecutor)
    (acc : progress) (resources : list AppliedManifestResourceMeta)
    : client.M W (outcome progress) :=
  match resources with
  | [] => client.ret (Returned acc)
  | resource :: rest =>
      let! step := deleteAppliedResource reason owner executor acc resource in
      match step with
      | Panicked => client.ret Panicked
      | Returned acc' => deleteEach reason owner executor acc' rest
      end
  end.

(** [DeleteAppliedResources]: the resources pending finalization and the
    errors. *)
Definition DeleteAppliedResources (resources : list AppliedManifestResourceMeta)
    (reason : string) (owner : metav1.OwnerReference)
    (executor : option workapiv1_executor.ManifestWorkExecutor)
    : client.M W (outcome progress) :=
  deleteEach reason owner executor ([], []) resources.

End WithServer.

End spoke_helper.

(** ** Pure views of the merge, used by the proofs

    [SetStatusCondition] reads the clock at most once; given that reading it
    is the following update of the first condition of the same type. *)

Module merge_view.
Import metav1 workapiv1.

(** The existing condition after [SetStatusCondition] met it. *)
Definition settle (now : Time) (existing new : Condition) : Condition :=
  if decide (Status existing <> Status new) then
    {| Type_ := Type_ existing;
       Status := Status new;
       ObservedGeneration := ObservedGeneration new;
       LastTransitionTime :=
         if IsZero (LastTransitionTime new) then now else LastTransitionTime new;
       Reason := Reason new;
       Message := Message new |}
  else
    {| Type_ := Type_ existing;
       Status := Status existing;
       ObservedGeneration := ObservedGeneration new;
       LastTransitionTime := LastTransitionTime existing;
       Reason := Reason new;
       Message := Message new |}.

Fixpoint upsert (now : Time) (conditions : list Condition) (new : Condition)
    : list Condition :=
  match conditions with
  | [] => [withLastTransitionTime new
             (if IsZero (LastTransitionTime new) then now
              else LastTransitionTime new)]
  | existing :: rest =>
      if decide (Type_ existing = Type_ new)
      then settle now existing new :: rest
      else existing :: upsert now rest new
  end.

(** The names of the conditions of a list, in order. *)
Definition types (conditions : list Condition) : list string :=
  map Type_ conditions.

(** The conditions of a brand-new record: the [n]-th one carries the
    reading number [k + n] of the clock. *)
Definition stamped (wall : nat -> Time) (k : nat) (conditions : list Condition)
    : list Condition :=
  imap (fun n c => withLastTransitionTime c (wall (k + n))) conditions.

(** The index by identity as the third loop of [MergeManifestConditions]
    sees it: built by the first loop, pruned by the second. *)
Definition identityIndex (conditions : list ManifestCondition)
    : gmap ManifestResourceMeta ManifestCondition :=
  helper.removeDuplicated
    (helper.metaWithoutOridinalIndex (helper.buildIndices conditions))
    (helper.duplicated (helper.buildIndices conditions)).

End merge_view.

(** ** Reading the list of calls *)

Module call_view.
Import apierrors.

Definition isCreate (c : client.Call) : bool :=
  match c with client.CallCreate _ _ _ _ _ _ => true | _ => false end.

Definition isPatch (c : client.Call) : bool :=
  match c with client.CallPatch _ _ _ _ _ _ => true | _ => false end.

Definition isDelete (c : client.Call) : bool :=
  match c with client.CallDelete _ _ _ _ _ => true | _ => false end.

(** The access reviews that were requested, in the order of the calls. *)
Definition reviewRequests (calls : list client.Call)
    : list authorizationv1.SubjectAccessReview :=
  omap (fun c => match c with
                 | client.CallAccessReview review _ => Some review
                 | _ => None
                 end) calls.

Definition verbOf (review : authorizationv1.SubjectAccessReview) : option string :=
  authorizationv1.Verb <$>
    authorizationv1.ResourceAttributes_ (authorizationv1.Spec review).

(** The call is an access review of [verb] that the server answered with
    "allowed". *)
Definition passedReview (verb : string) (c : client.Call) : bool :=
  match c with
  | client.CallAccessReview review (inr sar) =>
      bool_decide (verbOf review = Some verb)
      && authorizationv1.Allowed (authorizationv1.Status sar)
  | _ => false
  end.

Definition verbPassed (calls : list client.Call) (verb : string) : bool :=
  existsb (passedReview verb) calls.

(** Every verb of the list was reviewed and allowed. *)
Definition allVerbsPassed (calls : list client.Call) (verbs : list string) : bool :=
  forallb (verbPassed calls) verbs.

(** The verbs [Validate] reviews for the action Apply, and the resources it
    guards against escalation. *)
Definition applyVerbs : list string := ["create"; "update"; "patch"; "get"].
Definition rbacGroup : string := "rbac.authorization.k8s.io".
Definition rbacResources : list string :=
  ["roles"; "rolebindings"; "clusterroles"; "clusterrolebindings"].

(** The condition under which [Validate] goes on to [checkEscalation]
    once the reviews have passed. *)
Definition escalationGuarded (action : string)
    (gvr : schema.GroupVersionResource) : Prop :=
  action = auth.ApplyAction /\ schema.Group gvr = rbacGroup /\
  schema.Resource gvr ∈ rbacResources.

(** The resource attributes [Validate] reviews. *)
Definition reviewedResource (gvr : schema.GroupVersionResource)
    (namespace name : string) : authorizationv1.ResourceAttributes :=
  {| authorizationv1.Namespace := namespace;
     authorizationv1.Verb := "";
     authorizationv1.Group := schema.Group gvr;
     authorizationv1.Version := schema.Version gvr;
     authorizationv1.Resource := schema.Resource gvr;
     authorizationv1.Subresource := "";
     authorizationv1.Name := name |}.

(** The executor is a service account for which the validator's factory
    yields an impersonating client. *)
Definition impersonationReady (v : auth.sarValidator)
    (executor : option workapiv1_executor.ManifestWorkExecutor) : bool :=
  match executor with
  | None => false
  | Some e =>
      match workapiv1_executor.ServiceAccount (workapiv1_executor.Subject e) with
      | None => false
      | Some sa =>
          match auth.newImpersonateClientFunc v (auth.config v)
                  (auth.username (workapiv1_executor.Namespace sa)
                                 (workapiv1_executor.Name sa)) with
          | inl _ => false
          | inr _ => true
          end
      end
  end.

(** The denial [Validate] returns when a review is answered "not
    allowed". *)
Definition notAllowed (action : string) (gvr : schema.GroupVersionResource)
    (namespace name : string) : error :=
  NotAllowedError
    (errorString ("not allowed to " +:+ auth.lowerAction action
       +:+ " the resource " +:+ schema.Group gvr
       +:+ " " +:+ schema.Resource gvr
       +:+ ", " +:+ namespace +:+ " " +:+ name))
    (60 * auth.Second).

(** How a run of [validateBySubjectAccessReviews] over a list of reviews
    unfolds: the calls it makes and what it returns. *)
Inductive reviewed : list authorizationv1.SubjectAccessReview ->
    list client.Call -> bool * option error -> Prop :=
| reviewed_all : reviewed [] [] (true, None)
| reviewed_failed review rest err :
    reviewed (review :: rest)
             [client.CallAccessReview review (inl err)] (false, Some err)
| reviewed_denied review rest sar :
    authorizationv1.Allowed (authorizationv1.Status sar) = false ->
    reviewed (review :: rest)
             [client.CallAccessReview review (inr sar)] (false, None)
| reviewed_allowed review rest sar calls res :
    authorizationv1.Allowed (authorizationv1.Status sar) = true ->
    reviewed rest calls res ->
    reviewed (review :: rest)
             (client.CallAccessReview review (inr sar) :: calls) res.

End call_view.

(** ** Concrete inputs

    The values the repository's tests build, and small worlds for the
    authorizer and the garbage collector. *)

Module fixtures.
Import metav1 workapiv1.

(** [newCondition] of the tests; a nil [lastTransition] leaves the zero
    time. *)
Definition newCondition (name status reason message : string)
    (lastTransition : option Time) : Condition :=
  {| Type_ := name; Status := status; ObservedGeneration := 0;
     LastTransitionTime := default 0%Z lastTransition;
     Reason := reason; Message := message |}.

(** [newManifestCondition] of the tests. *)
Definition newManifestCondition (ordinal : Z) (resource : string)
    (conds : list Condition) : ManifestCondition :=
  {| ResourceMeta := {| Ordinal := ordinal; Group := ""; Version := "";
                        Kind := ""; Resource := resource; Name := "";
                        Namespace := "" |};
     StatusFeedbacks := [];
     Conditions := conds |}.

(** A clock whose readings are 1000, 1001, ... *)
Definition wall (k : nat) : Time := (1000 + Z.of_nat k)%Z.

Definition transitionTime : Time := 7%Z.

Definition one_false_stamped : Condition :=
  newCondition "one" "False" "my-reason" "my-message" (Some transitionTime).
Definition one_false : Condition :=
  newCondition "one" "False" "my-reason" "my-message" None.
Definition one_true : Condition :=
  newCondition "one" "True" "my-reason" "my-message" None.
Definition two_true : Condition :=
  newCondition "two" "True" "my-reason" "my-message" None.
Definition two_false : Condition :=
  newCondition "two" "False" "my-reason" "my-message" None.
Definition one_false_later : Condition :=
  newCondition "one" "False" "other-reason" "other-message" (Some 99%Z).

(** A matched pair of records: the old one has the conditions "one" and
    "two", the new one only "one". *)
Definition existing_one_two : ManifestCondition :=
  newManifestCondition 0 "resource1" [one_false_stamped; two_true].
Definition fresh_one : ManifestCondition :=
  newManifestCondition 0 "resource1" [one_false_later].

(** Two records with the same resource meta and different conditions. *)
Definition twice_resource1 : list ManifestCondition :=
  [newManifestCondition 0 "resource1" [one_false_stamped];
   newManifestCondition 0 "resource1" [newCondition "two" "True" "my-reason" "my-message" (Some 8%Z)]].

(** Two old records of the same identity at the ordinals 1 and 2, and a new
    record of that identity at the ordinal 3. *)
Definition colliding : list ManifestCondition :=
  [newManifestCondition 1 "resource1" [one_false_stamped];
   newManifestCondition 2 "resource1" [one_false_stamped]].
Definition fresh_third : ManifestCondition :=
  newManifestCondition 3 "resource1" [one_false_later; two_true].

(** A server without memory: it allows the reviews of the given verbs,
    knows the given live objects by name, and gives fixed answers to
    creates, delete validations, patches and deletes. *)
Definition fixedServer (allowedVerbs : list string)
    (createAnswer : option apierrors.error)
    (live : list unstructured.Unstructured)
    (verdict patchAnswer deleteAnswer : option apierrors.error)
    : client.Server unit :=
  {| client.accessReview := fun review w =>
       (inr {| authorizationv1.Spec := authorizationv1.Spec review;
               authorizationv1.Status :=
                 {| authorizationv1.Allowed :=
                      bool_decide (call_view.verbOf review ∈ map Some allowedVerbs);
                    authorizationv1.Reason := "" |} |}, w);
     client.create := fun _ _ _ _ _ w => (createAnswer, w);
     client.get := fun _ namespace name w =>
       (match list_find (fun u => unstructured.Namespace u = namespace /\
                                  unstructured.Name u = name) live with
        | Some (_, u) => inr u
        | None => inl (apierrors.StatusError apierrors.StatusReasonNotFound
                         "not found")
        end, w);
     client.validateDelete := fun _ _ _ _ w => (verdict, w);
     client.patch := fun _ _ _ _ _ w => (patchAnswer, w);
     client.delete := fun _ _ _ _ w => (deleteAnswer, w) |}.

Definition forbidden : apierrors.error :=
  apierrors.StatusError apierrors.StatusReasonForbidden "forbidden".
Definition alreadyExists : apierrors.error :=
  apierrors.StatusError apierrors.StatusReasonAlreadyExists "already exists".
Definition timeout : apierrors.error :=
  apierrors.StatusError apierrors.StatusReasonTimeout "timeout".

(** The executor of the integration tests. *)
Definition executor : workapiv1_executor.ManifestWorkExecutor :=
  {| workapiv1_executor.Subject :=
       {| workapiv1_executor.Type_ := "ServiceAccount";
          workapiv1_executor.ServiceAccount :=
            Some {| workapiv1_executor.Namespace := "cluster1";
                    workapiv1_executor.Name := "test-executor" |} |} |}.

Definition hostConfig : rest.Config :=
  {| rest.Host := "https://spoke"; rest.ImpersonateUserName := "" |}.

(** A validator with the default factory, and one without a rest
    configuration, whose factory fails. *)
Definition validator : auth.sarValidator :=
  {| auth.config := Some hostConfig;
     auth.newImpersonateClientFunc :=
       auth.defaultNewImpersonateClient (fun _ => None) |}.
Definition validatorWithoutConfig : auth.sarValidator :=
  {| auth.config := None;
     auth.newImpersonateClientFunc :=
       auth.defaultNewImpersonateClient (fun _ => None) |}.

Definition roles : schema.GroupVersionResource :=
  {| schema.Group := "rbac.authorization.k8s.io"; schema.Version := "v1";
     schema.Resource := "roles" |}.
Definition configmaps : schema.GroupVersionResource :=
  {| schema.Group := ""; schema.Version := "v1"; schema.Resource := "configmaps" |}.

(** The owner references and the secrets of the tests of
    [DeleteAppliedResources]. *)
Definition ownerRef (name uid : string) : OwnerReference :=
  {| APIVersion := ""; metav1.Kind := ""; metav1.Name := name; UID := uid;
     Controller := None; BlockOwnerDeletion := None |}.

Definition newSecret (namespace name : string) (terminated : bool)
    (uid : string) (owner : list OwnerReference) : unstructured.Unstructured :=
  {| unstructured.Namespace := namespace;
     unstructured.Name := name;
     unstructured.UID := uid;
     unstructured.ResourceVersion := "";
     unstructured.OwnerReferences := owner;
     unstructured.DeletionTimestamp := if terminated then Some 5%Z else None;
     unstructured.Body := "Secret" |}.

Definition appliedSecret (namespace name uid : string)
    : workapiv1_applied.AppliedManifestResourceMeta :=
  {| workapiv1_applied.Group := ""; workapiv1_applied.Resource := "secrets";
     workapiv1_applied.Name := name; workapiv1_applied.Namespace := namespace;
     workapiv1_applied.Version := "v1"; workapiv1_applied.UID := uid |}.

Definition secrets : schema.GroupVersionResource :=
  {| schema.Group := ""; schema.Version := "v1"; schema.Resource := "secrets" |}.

(** A server for the garbage collector: the live secrets, and the answer of
    the delete validation. Patches and deletes succeed. *)
Definition gcServer (live : list unstructured.Unstructured)
    (verdict : option apierrors.error) : client.Server unit :=
  fixedServer [] None live verdict None None.

End fixtures.

(** ** More views of the merge *)

Module merge_view_more.
Import metav1 workapiv1.

(** A list of new records none of which is matched: each record keeps its
    meta and feedbacks, and its conditions carry the next readings of the
    clock, starting at the reading number [k]. *)
Fixpoint brandNew (wall : nat -> Time) (k : nat) (fresh : list ManifestCondition)
    : list ManifestCondition :=
  match fresh with
  | [] => []
  | f :: rest =>
      {| ResourceMeta := ResourceMeta f;
         StatusFeedbacks := StatusFeedbacks f;
         Conditions := merge_view.stamped wall k (Conditions f) |}
      :: brandNew wall (k + length (Conditions f)) rest
  end.

(** The number of conditions of a list of records. *)
Definition conditionCount (records : list ManifestCondition) : nat :=
  sum_list (map (fun r => length (Conditions r)) records).

End merge_view_more.

(** ** Views of the calls of the garbage collector *)

Module gc_view.
Import workapiv1_applied.

(** The group, version and resource [DeleteAppliedResources] asks for. *)
Definition gvrOf (resource : AppliedManifestResourceMeta)
    : schema.GroupVersionResource :=
  {| schema.Group := Group resource;
     schema.Version := Version resource;
     schema.Resource := Resource resource |}.

(** The object is being deleted: its deletion timestamp is set and not
    zero. *)
Definition terminating (u : unstructured.Unstructured) : bool :=
  match unstructured.DeletionTimestamp u with
  | Some t => negb (metav1.IsZero t)
  | None => false
  end.

(** The gets that were requested, in the order of the calls. *)
Definition getRequests (calls : list client.Call)
    : list (schema.GroupVersionResource * string * string) :=
  omap (fun c => match c with
                 | client.CallGet gvr namespace name _ => Some (gvr, namespace, name)
                 | _ => None
                 end) calls.

(** The get [DeleteAppliedResources] makes for a resource. *)
Definition getRequest (resource : AppliedManifestResourceMeta)
    : schema.GroupVersionResource * string * string :=
  (gvrOf resource, Namespace resource, Name resource).

(** The options of the deletes of [DeleteAppliedResources]. *)
Definition deleteOptions (resource : AppliedManifestResourceMeta)
    : client.DeleteOptions :=
  {| client.PreconditionUID := Some (UID resource);
     client.PropagationPolicy := Some client.DeletePropagationBackground |}.

End gc_view.

(** ** pkg/helper/helpers.go: finalizers, queue keys, owners, options *)

(** [strings.HasPrefix] and [strings.TrimPrefix], on byte strings. *)
Module gostrings.

(** [s[from:]] *)
Definition sliceFrom (s : string) (from : nat) : string :=
  String.substring from (String.length s - from) s.

(** [s[:to]] *)
Definition sliceTo (s : string) (to : nat) : string :=
  String.substring 0 to s.

(** [len(s) >= len(prefix) && s[:len(prefix)] == prefix] *)
Definition HasPrefix (s prefix : string) : bool :=
  Nat.leb (String.length prefix) (String.length s)
  && String.eqb (sliceTo s (String.length prefix)) prefix.

Definition TrimPrefix (s prefix : string) : string :=
  if HasPrefix s prefix then sliceFrom s (String.length prefix) else s.

End gostrings.

(** The metadata of a [runtime.Object] that the helpers read through
    [meta.Accessor]: the name, the UID and the finalizers. The objects are
    API objects, for which [meta.Accessor] does not fail. *)
Module runtime.

Record Object : Type := {
  Name : string;
  UID : string;
  Finalizers : list string
}.

#[global] Instance Object_eq_dec : EqDecision Object.
Proof. solve_decision. Defined.

End runtime.

Module workapiv1_options.

(** [workapiv1.ResourceIdentifier]. *)
Record ResourceIdentifier : Type := {
  Group : string;
  Resource : string;
  Name : string;
  Namespace : string
}.

#[global] Instance ResourceIdentifier_eq_dec : EqDecision ResourceIdentifier.
Proof. solve_decision. Defined.

(** [workapiv1.ManifestConfigOption]: the identifier, and the rest of the
    option (feedback rules, update strategy), which the helper carries along
    without reading it, as an opaque document. *)
Record ManifestConfigOption : Type := {
  ResourceIdentifier_ : ResourceIdentifier;
  Rules : string
}.

#[global] Instance ManifestConfigOption_eq_dec : EqDecision ManifestConfigOption.
Proof. solve_decision. Defined.

(** [workapiv1.GroupVersion] and its [String]: the group, a slash and the
    version, or the version alone for the empty group. *)
Definition GroupName : string := "work.open-cluster-management.io".
Definition GroupVersionString (group version : string) : string :=
  if decide (group = "") then version else group +:+ "/" +:+ version.

End workapiv1_options.

Module helper_objects.
Import workapiv1_options.

(** The loop of [RemoveFinalizer], from the finalizers still to visit and
    the new finalizers collected so far. *)
Fixpoint keepOthers (finalizers : list string) (finalizerName : string)
    (newFinalizers : list string) : list string :=
  match finalizers with
  | [] => newFinalizers
  | f :: rest =>
      if decide (f = finalizerName) then keepOthers rest finalizerName newFinalizers
      else keepOthers rest finalizerName (newFinalizers ++ [f])
  end.

(** [RemoveFinalizer]: the object after the mutation. *)
Definition RemoveFinalizer (object : runtime.Object) (finalizerName : string)
    : runtime.Object :=
  {| runtime.Name := runtime.Name object;
     runtime.UID := runtime.UID object;
     runtime.Finalizers := keepOthers (runtime.Finalizers object) finalizerName [] |}.

(** [AppliedManifestworkQueueKeyFunc]. *)
Definition AppliedManifestworkQueueKeyFunc (hubhash : string)
    (obj : runtime.Object) : string :=
  if negb (gostrings.HasPrefix (runtime.Name obj) hubhash) then ""
  else gostrings.TrimPrefix (runtime.Name obj) (hubhash +:+ "-").

(** [AppliedManifestworkHubHashFilter]. *)
Definition AppliedManifestworkHubHashFilter (hubHash : string)
    (obj : runtime.Object) : bool :=
  gostrings.HasPrefix (runtime.Name obj) hubHash.

(** [NewAppliedManifestWorkOwner]. *)
Definition NewAppliedManifestWorkOwner (appliedWork : runtime.Object)
    : metav1.OwnerReference :=
  {| metav1.APIVersion := GroupVersionString GroupName "v1";
     metav1.Kind := "AppliedManifestWork";
     metav1.Name := runtime.Name appliedWork;
     metav1.UID := runtime.UID appliedWork;
     metav1.Controller := None;
     metav1.BlockOwnerDeletion := None |}.

(** The identifier [FindManifestConiguration] looks for. *)
Definition identifierOf (resourceMeta : workapiv1.ManifestResourceMeta)
    : ResourceIdentifier :=
  {| Group := workapiv1.Group resourceMeta;
     Resource := workapiv1.Resource resourceMeta;
     Namespace := workapiv1.Namespace resourceMeta;
     Name := workapiv1.Name resourceMeta |}.

(** The loop of [FindManifestConiguration]. *)
Fixpoint findConfig (identifier : ResourceIdentifier)
    (manifestOptions : list ManifestConfigOption) : option ManifestConfigOption :=
  match manifestOptions with
  | [] => None
  | config :: rest =>
      if decide (ResourceIdentifier_ config = identifier) then Some config
      else findConfig identifier rest
  end.

(** [FindManifestConiguration]; [None] is nil. *)
Definition FindManifestConiguration (resourceMeta : workapiv1.ManifestResourceMeta)
    (manifestOptions : list ManifestConfigOption) : option ManifestConfigOption :=
  findConfig (identifierOf resourceMeta) manifestOptions.

End helper_objects.

(** ** pkg/helper/helpers.go: the status update on the hub *)

(** The manifest works of the hub and the client for them
    ([workv1client.ManifestWorkInterface]). *)
Module hub.
Import apierrors.

(** [workapiv1.ManifestWorkStatus]; [Manifests] is
    [ResourceStatus.Manifests]. *)
Record ManifestWorkStatus : Type := {
  Conditions : list metav1.Condition;
  Manifests : list workapiv1.ManifestCondition
}.

#[global] Instance ManifestWorkStatus_eq_dec : EqDecision ManifestWorkStatus.
Proof. solve_decision. Defined.

(** [workapiv1.ManifestWork]: the name, the status, and the rest of the
    object as an opaque document. *)
Record ManifestWork : Type := {
  Name : string;
  Body : string;
  Status : ManifestWorkStatus
}.

#[global] Instance ManifestWork_eq_dec : EqDecision ManifestWork.
Proof. solve_decision. Defined.

Inductive Call : Type :=
| CallGet (name : string) (answer : error + ManifestWork)
| CallUpdateStatus (manifestWork : ManifestWork) (answer : error + ManifestWork).

#[global] Instance Call_eq_dec : EqDecision Call.
Proof. solve_decision. Defined.

Record Server (W : Type) : Type := {
  (** [client.Get] *)
  get : string -> W -> (error + ManifestWork) * W;
  (** [client.UpdateStatus] *)
  updateStatus : ManifestWork -> W -> (error + ManifestWork) * W
}.

Arguments get {W}.
Arguments updateStatus {W}.

(** A computation against the hub: from a world, a result, the next world,
    and the calls it made, oldest first. *)
Definition M (W A : Type) : Type := W -> A * W * list Call.

Definition ret {W A} (a : A) : M W A := fun w => (a, w, []).

Definition bind {W A B} (m : M W A) (f : A -> M W B) : M W B :=
  fun w =>
    let '(a, w1, calls1) := m w in
    let '(b, w2, calls2) := f a w1 in
    (b, w2, calls1 ++ calls2).

Definition result {W A} (m : M W A) (w : W) : A := fst (fst (m w)).
Definition calls {W A} (m : M W A) (w : W) : list Call := snd (m w).

Definition Get {W} (srv : Server W) (name : string)
    : M W (error + ManifestWork) :=
  fun w => let (a, w') := get srv name w in (a, w', [CallGet name a]).

Definition UpdateStatus {W} (srv : Server W) (manifestWork : ManifestWork)
    : M W (error + ManifestWork) :=
  fun w => let (a, w') := updateStatus srv manifestWork w in
           (a, w', [CallUpdateStatus manifestWork a]).

End hub.

(** [retry.RetryOnConflict] with [retry.DefaultBackoff]: the function is
    tried up to four times, again only after a conflict; when the tries are
    used up the last conflict is returned. The waits between the tries are
    left out. The function works on the variables it captures, of type
    [S]. *)
Module retry.
Import apierrors.

Definition DefaultBackoffSteps : nat := 4.

Fixpoint onConflict {W S} (steps : nat)
    (fn : S -> hub.M W (S * option error)) (vars : S) (lastErr : option error)
    : hub.M W (S * option error) :=
  match steps with
  | 0 => hub.ret (vars, lastErr)
  | S steps' =>
      hub.bind (fn vars) (fun tried =>
        match snd tried with
        | None => hub.ret (fst tried, None)
        | Some e =>
            if IsConflict (Some e) then onConflict steps' fn (fst tried) (Some e)
            else hub.ret (fst tried, Some e)
        end)
  end.

Definition RetryOnConflict {W S} (steps : nat)
    (fn : S -> hub.M W (S * option error)) (vars : S)
    : hub.M W (S * option error) :=
  onConflict steps fn vars None.

End retry.

Module helper_status.
Import apierrors hub.

(** [UpdateManifestWorkStatusFunc]: the status after the mutation, and the
    error. *)
Definition UpdateManifestWorkStatusFunc : Type :=
  ManifestWorkStatus -> option error * ManifestWorkStatus.

(** The loop over the update functions, on the copy of the status. *)
Fixpoint applyUpdates (updateFuncs : list UpdateManifestWorkStatusFunc)
    (newStatus : ManifestWorkStatus) : error + ManifestWorkStatus :=
  match updateFuncs with
  | [] => inr newStatus
  | update :: rest =>
      match update newStatus with
      | (Some err, _) => inl err
      | (None, newStatus') => applyUpdates rest newStatus'
      end
  end.

(** What the two functions return: the status, the flag and the error. *)
Definition outcome : Type := (option ManifestWorkStatus * bool * option error)%type.

Section WithServer.
Context {W : Type}.
Variable srv : Server W.

(** [updateManifestWorkStatus]. [equality.Semantic.DeepEqual] is the
    equality of the statuses. The mutation of [manifestWork] is what is
    sent to the hub. *)
Definition updateManifestWorkStatus (manifestWork : ManifestWork)
    (updateFuncs : list UpdateManifestWorkStatusFunc) : M W outcome :=
  let oldStatus := Status manifestWork in
  match applyUpdates updateFuncs oldStatus with
  | inl err => ret (None, false, Some err)
  | inr newStatus =>
      if decide (oldStatus = newStatus) then ret (Some newStatus, false, None)
      else
        bind (UpdateStatus srv {| Name := Name manifestWork;
                                  Body := Body manifestWork;
                                  Status := newStatus |})
          (fun answer =>
             match answer with
             | inl err => ret (None, false, Some err)
             | inr updatedManifestWork =>
                 ret (Some (Status updatedManifestWork), true, None)
             end)
  end.

(** The function [UpdateManifestWorkStatus] retries; the variables it
    captures and assigns are [updatedWorkStatus] and [updated]. *)
Definition retried (name : string)
    (updateFuncs : list UpdateManifestWorkStatusFunc)
    (vars : option ManifestWorkStatus * bool)
    : M W ((option ManifestWorkStatus * bool) * option error) :=
  bind (Get srv name) (fun got =>
    match got with
    | inl err => ret (vars, Some err)
    | inr manifestWork =>
        bind (updateManifestWorkStatus manifestWork updateFuncs)
          (fun r => ret (fst r, snd r))
    end).

(** [UpdateManifestWorkStatus]. *)
Definition UpdateManifestWorkStatus (manifestWork : ManifestWork)
    (updateFuncs : list UpdateManifestWorkStatusFunc) : M W outcome :=
  bind (updateManifestWorkStatus manifestWork updateFuncs) (fun first =>
    match snd first with
    | None => ret (fst first, None)
    | Some _ =>
        bind (retry.RetryOnConflict retry.DefaultBackoffSteps
                (retried (Name manifestWork) updateFuncs) (fst first))
          (fun r => ret (fst r, snd r))
    end).

End WithServer.

End helper_status.

(** ** Views of the calls to the hub *)

Module hub_view.

Definition isGet (c : hub.Call) : bool :=
  match c with hub.CallGet _ _ => true | _ => false end.

Definition isUpdateStatus (c : hub.Call) : bool :=
  match c with hub.CallUpdateStatus _ _ => true | _ => false end.

(** The call is a status update that the hub accepted. *)
Definition isAccepted (c : hub.Call) : bool :=
  match c with hub.CallUpdateStatus _ (inr _) => true | _ => false end.

(** The number of calls of a kind. *)
Definition count (kind : hub.Call -> bool) (calls : list hub.Call) : nat :=
  length (List.filter kind calls).

(** What a run of a status update leaves to see: the bounds on its calls,
    and how its result relates to them. [name] is the name every get asks
    for, [gets] and [updates] bound the gets and the status updates; an
    error comes with no status and no flag; the flag is set exactly when
    the hub accepted a status update, which is then the last call and whose
    answer carries the status returned. *)
Definition summary (name : string) (gets updates : nat)
    (r : helper_status.outcome) (calls : list hub.Call) : Prop :=
  count isGet calls <= gets /\
  count isUpdateStatus calls <= updates /\
  (forall n answer, hub.CallGet n answer ∈ calls -> n = name) /\
  (snd r = None \/ fst r = (None, false)) /\
  (snd (fst r) = true ->
     snd r = None /\
     exists earlier sent accepted,
       calls = earlier ++ [hub.CallUpdateStatus sent (inr accepted)] /\
       fst (fst r) = Some (hub.Status accepted)) /\
  (forall c, c ∈ calls -> isAccepted c = true ->
     snd (fst r) = true /\ exists earlier, calls = earlier ++ [c]).

(** A hub for examples: it has one manifest work and answers every status
    update with the given error, or accepts it when there is none. *)
Definition fixedHub (stored : hub.ManifestWork) (refusal : option apierrors.error)
    : hub.Server unit :=
  {| hub.get := fun _ w => (inr stored, w);
     hub.updateStatus := fun manifestWork w =>
       (match refusal with
        | Some err => inl err
        | None => inr manifestWork
        end, w) |}.

Definition conflict : apierrors.error :=
  apierrors.StatusError apierrors.StatusReasonConflict "conflict".

Definition emptyWork : hub.ManifestWork :=
  {| hub.Name := "work1"; hub.Body := "";
     hub.Status := {| hub.Conditions := []; hub.Manifests := [] |} |}.

(** An update function that sets the condition Applied. *)
Definition setApplied : helper_status.UpdateManifestWorkStatusFunc :=
  fun status =>
    (None,
     {| hub.Conditions :=
          [{| metav1.Type_ := "Applied"; metav1.Status := "True";
              metav1.ObservedGeneration := 0%Z;
              metav1.LastTransitionTime := 1%Z;
              metav1.Reason := "AppliedManifestWorkComplete";
              metav1.Message := "" |}];
        hub.Manifests := hub.Manifests status |}).

End hub_view.

Module merge_facts.
Import metav1 workapiv1 helper merge_view.

Section WithClock.
Variable wall : nat -> Time.

Lemma FindStatusCondition_cons (e : Condition) (cs : list Condition) (n : string) :
  meta.FindStatusCondition (e :: cs) n =
  if decide (Type_ e = n) then Some (0, e)
  else prod_map S id <$> meta.FindStatusCondition cs n.
Proof. reflexivity. Qed.

Lemma SetStatusCondition_upsert (cs : list Condition) (c : Condition) (k : nat) :
  fst (meta.SetStatusCondition wall cs c k) = upsert (wall k) cs c.
Proof.
  unfold meta.SetStatusCondition.
  induction cs as [|e cs IH].
  - simpl. unfold St.bind, St.ret, Clock.Now, Clock.ret.
    destruct (IsZero (LastTransitionTime c)); reflexivity.
  - rewrite FindStatusCondition_cons.
    simpl upsert.
    destruct (decide (Type_ e = Type_ c)) as [Heq|Hne].
    + unfold settle, St.bind, St.ret, Clock.Now, Clock.ret.
      destruct (decide (Status e <> Status c));
        destruct (IsZero (LastTransitionTime c)); reflexivity.
    + destruct (meta.FindStatusCondition cs (Type_ c)) as [[i x]|]; simpl.
      * rewrite <- IH.
        unfold St.bind, St.ret, Clock.Now, Clock.ret.
        destruct (decide (Status x <> Status c));
          destruct (IsZero (LastTransitionTime c)); reflexivity.
      * rewrite <- IH.
        unfold St.bind, St.ret, Clock.Now, Clock.ret.
        destruct (IsZero (LastTransitionTime c)); reflexivity.
Qed.

Lemma SetStatusCondition_clock (cs : list Condition) (c : Condition) (k : nat) :
  k <= snd (meta.SetStatusCondition wall cs c k) <= S k.
Proof.
  unfold meta.SetStatusCondition, St.bind, St.ret, Clock.Now, Clock.ret.
  destruct (meta.FindStatusCondition cs (Type_ c)) as [[i x]|].
  - destruct (decide (Status x <> Status c));
      destruct (IsZero (LastTransitionTime c)); simpl; lia.
  - destruct (IsZero (LastTransitionTime c)); simpl; lia.
Qed.

Lemma setStatusConditions_cons (merged rest : list Condition) (c : Condition) (k : nat) :
  setStatusConditions wall merged (c :: rest) k =
  setStatusConditions wall (upsert (wall k) merged c) rest
    (snd (meta.SetStatusCondition wall merged c k)).
Proof.
  simpl. unfold St.bind.
  rewrite <- SetStatusCondition_upsert.
  destruct (meta.SetStatusCondition wall merged c k); reflexivity.
Qed.

Lemma upsert_types (now : Time) (cs : list Condition) (c : Condition) (n : string) :
  n ∈ types (upsert now cs c) <-> n ∈ types cs \/ n = Type_ c.
Proof.
  unfold types. induction cs as [|e cs IH]; simpl.
  - rewrite list_elem_of_singleton. simpl.
    split; [auto | intros [H|H]; [inversion H | exact H]].
  - destruct (decide (Type_ e = Type_ c)) as [Heq|Hne]; simpl.
    + assert (Type_ (settle now e c) = Type_ e) as ->
        by (unfold settle; destruct (decide (Status e <> Status c)); reflexivity).
      rewrite !elem_of_cons. rewrite Heq. tauto.
    + rewrite !elem_of_cons, IH. tauto.
Qed.

Lemma upsert_keeps (now : Time) (cs : list Condition) (c e : Condition) :
  e ∈ cs -> Type_ e <> Type_ c -> e ∈ upsert now cs c.
Proof.
  intros Hin Hne. induction cs as [|x cs IH]; simpl.
  - inversion Hin.
  - apply elem_of_cons in Hin as [->|Hin].
    + destruct (decide (Type_ x = Type_ c)); [contradiction|]. left.
    + destruct (decide (Type_ x = Type_ c)); right; auto.
Qed.

Lemma setStatusConditions_types (news merged : list Condition) (k : nat) (n : string) :
  n ∈ types (fst (setStatusConditions wall merged news k)) <->
  n ∈ types merged \/ n ∈ types news.
Proof.
  revert merged k. induction news as [|c news IH]; intros merged k.
  - simpl. split; [auto | intros [H|H]; [exact H | inversion H]].
  - rewrite setStatusConditions_cons, IH, upsert_types.
    change (types (c :: news)) with (Type_ c :: types news).
    rewrite elem_of_cons. tauto.
Qed.

Lemma setStatusConditions_keeps (news merged : list Condition) (k : nat) (e : Condition) :
  e ∈ merged -> Type_ e ∉ types news ->
  e ∈ fst (setStatusConditions wall merged news k).
Proof.
  revert merged k. induction news as [|c news IH]; intros merged k Hin Hno.
  - exact Hin.
  - rewrite setStatusConditions_cons.
    change (types (c :: news)) with (Type_ c :: types news) in Hno.
    rewrite not_elem_of_cons in Hno.
    destruct Hno as [Hne Hno].
    apply IH; [apply upsert_keeps; assumption | exact Hno].
Qed.

Lemma setStatusConditions_clock (news merged : list Condition) (k : nat) :
  k <= snd (setStatusConditions wall merged news k).
Proof.
  revert merged k. induction news as [|c news IH]; intros merged k.
  - simpl. lia.
  - rewrite setStatusConditions_cons.
    specialize (IH (upsert (wall k) merged c)
                   (snd (meta.SetStatusCondition wall merged c k))).
    pose proof (SetStatusCondition_clock merged c k). lia.
Qed.

(** Finding a condition by name after one [upsert]. *)
Lemma upsert_find_other (now : Time) (cs : list Condition) (c : Condition) (n : string) :
  Type_ c <> n ->
  meta.FindStatusCondition (upsert now cs c) n = meta.FindStatusCondition cs n.
Proof.
  intros Hne. induction cs as [|e cs IH]; simpl upsert.
  - rewrite FindStatusCondition_cons. simpl.
    destruct (decide (Type_ c = n)); [contradiction|reflexivity].
  - destruct (decide (Type_ e = Type_ c)) as [Heq|Hne'].
    + rewrite !FindStatusCondition_cons.
      assert (Type_ (settle now e c) = Type_ e) as ->
        by (unfold settle; destruct (decide (Status e <> Status c)); reflexivity).
      destruct (decide (Type_ e = n)); [congruence|reflexivity].
    + rewrite !FindStatusCondition_cons, IH. reflexivity.
Qed.

Lemma upsert_find_same (now : Time) (cs : list Condition) (c e : Condition) (i : nat) :
  meta.FindStatusCondition cs (Type_ c) = Some (i, e) ->
  meta.FindStatusCondition (upsert now cs c) (Type_ c) = Some (i, settle now e c).
Proof.
  revert i. induction cs as [|x cs IH]; intros i; simpl upsert.
  - discriminate.
  - rewrite FindStatusCondition_cons.
    destruct (decide (Type_ x = Type_ c)) as [Heq|Hne].
    + intros [= <- <-]. rewrite FindStatusCondition_cons.
      assert (Type_ (settle now x c) = Type_ x) as ->
        by (unfold settle; destruct (decide (Status x <> Status c)); reflexivity).
      destruct (decide (Type_ x = Type_ c)); [reflexivity|contradiction].
    + rewrite FindStatusCondition_cons.
      destruct (decide (Type_ x = Type_ c)); [contradiction|].
      destruct (meta.FindStatusCondition cs (Type_ c)) as [[j y]|] eqn:Hf;
        simpl; [|discriminate].
      intros [= <- <-]. rewrite (IH j eq_refl). reflexivity.
Qed.

Lemma mergeManifestCondition_run (a b : ManifestCondition) (k : nat) :
  mergeManifestCondition wall a b k =
  ({| ResourceMeta := ResourceMeta b;
      StatusFeedbacks := StatusFeedbacks a;
      Conditions := fst (setStatusConditions wall (Conditions a) (Conditions b) k) |},
   snd (setStatusConditions wall (Conditions a) (Conditions b) k)).
Proof.
  unfold mergeManifestCondition, MergeStatusConditions, St.bind, Clock.ret, St.ret.
  simpl app.
  destruct (setStatusConditions wall (Conditions a) (Conditions b) k); reflexivity.
Qed.

Lemma settle_same_status (now : Time) (e c : Condition) :
  Status c = Status e ->
  Status (settle now e c) = Status e /\
  LastTransitionTime (settle now e c) = LastTransitionTime e.
Proof.
  intros Hs. unfold settle.
  destruct (decide (Status e <> Status c)); [congruence|]. split; reflexivity.
Qed.

Lemma setStatusConditions_find_stable (news merged : list Condition) (k : nat)
    (n : string) (i : nat) (e : Condition) :
  meta.FindStatusCondition merged n = Some (i, e) ->
  exists e',
    meta.FindStatusCondition (fst (setStatusConditions wall merged news k)) n
      = Some (i, e') /\
    ((forall cn, cn ∈ news -> Type_ cn = n -> Status cn = Status e) ->
     Status e' = Status e /\ LastTransitionTime e' = LastTransitionTime e).
Proof.
  revert merged k e. induction news as [|c news IH]; intros merged k e Hfind.
  - exists e. split; [exact Hfind | intros _; split; reflexivity].
  - rewrite setStatusConditions_cons.
    destruct (decide (Type_ c = n)) as [Heq|Hne].
    + subst n.
      pose proof (upsert_find_same (wall k) merged c e i Hfind) as Hup.
      destruct (IH _ (snd (meta.SetStatusCondition wall merged c k)) _ Hup)
        as (e' & Hf' & Hkeep).
      exists e'. split; [exact Hf'|].
      intros Hall.
      assert (Status c = Status e) as Hc
        by (apply Hall; [left | reflexivity]).
      destruct (settle_same_status (wall k) e c Hc) as [Hs Ht].
      rewrite <- Hs, <- Ht. apply Hkeep.
      intros cn Hin Hty. rewrite Hs. apply Hall; [right; exact Hin | exact Hty].
    + pose proof (upsert_find_other (wall k) merged c n Hne) as Hup.
      rewrite Hfind in Hup.
      destruct (IH _ (snd (meta.SetStatusCondition wall merged c k)) _ Hup)
        as (e' & Hf' & Hkeep).
      exists e'. split; [exact Hf'|].
      intros Hall. apply Hkeep.
      intros cn Hin Hty. apply Hall; [right; exact Hin | exact Hty].
Qed.

(** C1 (as amended). The conditions of a merged record are named by the
    union of the names of the old and of the new record: a name is in the
    output exactly when it is in one of the two; and a condition of the old
    record whose name the new record does not have is in the output as it
    was. *)
Theorem merged_condition_names_are_the_union
    (condition newCondition : ManifestCondition) (k : nat) :
  let out := Conditions (fst (mergeManifestCondition wall condition newCondition k)) in
  (forall n, n ∈ types out <->
             n ∈ types (Conditions condition) \/ n ∈ types (Conditions newCondition))
  /\ (forall c, c ∈ Conditions condition /\
                Type_ c ∉ types (Conditions newCondition) -> c ∈ out).
Proof.
  rewrite mergeManifestCondition_run. simpl. split.
  - intros n. apply setStatusConditions_types.
  - intros c [Hin Hno]. apply setStatusConditions_keeps; assumption.
Qed.

(** C5. In a matched pair of records, take the condition the old record
    has under a name. The merged record has a condition under that name at
    the same place; when every condition of that name in the new record
    has the old status, it keeps the old status and the old transition
    time; and its transition time differs from the old one only if the new
    record has a condition of that name with another status. *)
Theorem unchanged_status_keeps_transition_time
    (condition newCondition : ManifestCondition) (k : nat)
    (n : string) (i : nat) (co : Condition) :
  meta.FindStatusCondition (Conditions condition) n = Some (i, co) ->
  exists c,
    meta.FindStatusCondition
      (Conditions (fst (mergeManifestCondition wall condition newCondition k))) n
      = Some (i, c)
    /\ ((forall cn, cn ∈ Conditions newCondition -> Type_ cn = n ->
                    Status cn = Status co) ->
        Status c = Status co /\ LastTransitionTime c = LastTransitionTime co)
    /\ (LastTransitionTime c <> LastTransitionTime co ->
        exists cn, cn ∈ Conditions newCondition /\ Type_ cn = n /\
                   Status cn <> Status co).
Proof.
  intros Hfind. rewrite mergeManifestCondition_run. simpl.
  destruct (setStatusConditions_find_stable (Conditions newCondition)
              (Conditions condition) k n i co Hfind) as (c & Hf & Hkeep).
  exists c. split; [exact Hf|]. split; [exact Hkeep|].
  intros Hdiff.
  destruct (decide (Exists (fun cn => Type_ cn = n /\ Status cn <> Status co)
                           (Conditions newCondition))) as [Hex|Hnex].
  - apply Exists_exists in Hex as (cn & Hin & Hty & Hst).
    exists cn. split; [exact Hin | split; assumption].
  - exfalso. apply Hdiff. apply Hkeep.
    intros cn Hin Hty.
    destruct (decide (Status cn = Status co)) as [Hs|Hs]; [exact Hs|].
    exfalso. apply Hnex. apply Exists_exists.
    exists cn. split; [exact Hin | split; assumption].
Qed.

End WithClock.

(** C5, on an instance: the old record has "one" with status False since
    the instant 7; the new record reports "one" with status False, another
    reason and the instant 99. The merged condition keeps the instant 7. *)
Lemma unchanged_status_keeps_transition_time_witness :
  exists c,
    meta.FindStatusCondition
      (Conditions (fst (mergeManifestCondition fixtures.wall
                          fixtures.existing_one_two fixtures.fresh_one 0)))
      "one" = Some (0, c)
    /\ LastTransitionTime c = 7%Z.
Proof.
  destruct (unchanged_status_keeps_transition_time fixtures.wall
              fixtures.existing_one_two fixtures.fresh_one 0 "one" 0
              fixtures.one_false_stamped eq_refl) as (c & Hf & Hkeep & _).
  exists c. split; [exact Hf|].
  apply Hkeep. intros cn Hin _.
  apply list_elem_of_singleton in Hin. subst cn. reflexivity.
Defined.

(** C1 (as amended), on the instance of the test "remove old status
    condition": the old condition "two", which the new record does not
    have, is in the merged record. *)
Lemma merged_condition_names_are_the_union_witness :
  fixtures.two_true ∈
    Conditions (fst (mergeManifestCondition fixtures.wall
                       fixtures.existing_one_two fixtures.fresh_one 0)).
Proof.
  apply (merged_condition_names_are_the_union fixtures.wall
           fixtures.existing_one_two fixtures.fresh_one 0).
  split.
  - right. left.
  - intros Hin. apply list_elem_of_singleton in Hin. discriminate.
Defined.

(** C1 as stated fails: the old record has "one" and "two", the new one
    only "one", and the merged record still has "two". *)
Lemma absent_condition_name_survives :
  let out := Conditions (fst (mergeManifestCondition fixtures.wall
                                fixtures.existing_one_two fixtures.fresh_one 0)) in
  ~ (forall n, n ∈ types out <-> n ∈ types (Conditions fixtures.fresh_one)).
Proof.
  intros out Hall.
  assert ("two" ∈ types (Conditions fixtures.fresh_one)) as Hin.
  { apply Hall. vm_compute. right. left. }
  vm_compute in Hin. apply list_elem_of_singleton in Hin. discriminate.
Qed.

End merge_facts.

Module index_facts.
Import metav1 workapiv1 helper merge_view.

(** The ordinal-free key of a record. *)
Local Abbreviation key c := (resetOrdinal (ResourceMeta c)).

Lemma metaIndex_indexCondition (ix : indices) (c : ManifestCondition) :
  metaIndex (indexCondition ix c) = <[ResourceMeta c := c]> (metaIndex ix).
Proof.
  unfold indexCondition.
  destruct (decide (key c <> zeroMeta)); [|reflexivity].
  destruct (metaWithoutOridinalIndex ix !! key c); reflexivity.
Qed.

Lemma metaIndex_fold_miss (l : list ManifestCondition) (ix : indices)
    (m : ManifestResourceMeta) :
  (forall e, e ∈ l -> ResourceMeta e <> m) ->
  metaIndex (fold_left indexCondition l ix) !! m = metaIndex ix !! m.
Proof.
  revert ix. induction l as [|a l IH]; intros ix Hmiss; simpl; [reflexivity|].
  rewrite IH by (intros e He; apply Hmiss; right; exact He).
  rewrite metaIndex_indexCondition.
  apply lookup_insert_ne. apply Hmiss. left.
Qed.

Lemma metaIndex_fold_hit (l : list ManifestCondition) (ix : indices)
    (r : ManifestCondition) :
  NoDup (map ResourceMeta l) -> r ∈ l ->
  metaIndex (fold_left indexCondition l ix) !! ResourceMeta r = Some r.
Proof.
  revert ix. induction l as [|a l IH]; intros ix Hnd Hin; [inversion Hin|].
  simpl in Hnd. apply NoDup_cons in Hnd as [Hfresh Hnd].
  simpl. apply elem_of_cons in Hin as [->|Hin].
  - rewrite metaIndex_fold_miss.
    + rewrite metaIndex_indexCondition. apply lookup_insert_eq.
    + intros e He Heq. apply Hfresh. rewrite <- Heq.
      apply list_elem_of_fmap. exists e. split; [reflexivity | exact He].
  - apply IH; assumption.
Qed.

Lemma removeDuplicated_None (dups : list ManifestResourceMeta)
    (m : gmap ManifestResourceMeta ManifestCondition) (k : ManifestResourceMeta) :
  m !! k = None -> removeDuplicated m dups !! k = None.
Proof.
  unfold removeDuplicated. revert m.
  induction dups as [|d dups IH]; intros m Hm; simpl; [exact Hm|].
  apply IH. rewrite lookup_delete. destruct (decide (d = k)); [reflexivity|exact Hm].
Qed.

Lemma removeDuplicated_dup (dups : list ManifestResourceMeta)
    (m : gmap ManifestResourceMeta ManifestCondition) (k : ManifestResourceMeta) :
  k ∈ dups -> removeDuplicated m dups !! k = None.
Proof.
  revert m. induction dups as [|d dups IH]; intros m Hin; [inversion Hin|].
  apply elem_of_cons in Hin as [->|Hin].
  - change (removeDuplicated (delete d m) dups !! d = None).
    apply removeDuplicated_None. apply lookup_delete_eq.
  - change (removeDuplicated (delete d m) dups !! k = None). apply IH, Hin.
Qed.

Lemma duplicated_step (ix : indices) (c : ManifestCondition)
    (k : ManifestResourceMeta) :
  k ∈ duplicated ix -> k ∈ duplicated (indexCondition ix c).
Proof.
  intros Hin. unfold indexCondition.
  destruct (decide (key c <> zeroMeta)); [|exact Hin].
  destruct (metaWithoutOridinalIndex ix !! key c); simpl; [|exact Hin].
  apply elem_of_app. left. exact Hin.
Qed.

Lemma duplicated_fold (l : list ManifestCondition) (ix : indices)
    (k : ManifestResourceMeta) :
  k ∈ duplicated ix -> k ∈ duplicated (fold_left indexCondition l ix).
Proof.
  revert ix. induction l as [|a l IH]; intros ix Hin; simpl; [exact Hin|].
  apply IH, duplicated_step, Hin.
Qed.

Lemma seen_step (ix : indices) (c : ManifestCondition) (k : ManifestResourceMeta) :
  is_Some (metaWithoutOridinalIndex ix !! k) ->
  is_Some (metaWithoutOridinalIndex (indexCondition ix c) !! k).
Proof.
  intros Hsome. unfold indexCondition.
  destruct (decide (key c <> zeroMeta)); [|exact Hsome].
  destruct (metaWithoutOridinalIndex ix !! key c) eqn:Hl; simpl; [exact Hsome|].
  rewrite lookup_insert. destruct (decide (key c = k)); [eauto|exact Hsome].
Qed.

Lemma seen_fold (l : list ManifestCondition) (ix : indices)
    (k : ManifestResourceMeta) :
  is_Some (metaWithoutOridinalIndex ix !! k) ->
  is_Some (metaWithoutOridinalIndex (fold_left indexCondition l ix) !! k).
Proof.
  revert ix. induction l as [|a l IH]; intros ix Hs; simpl; [exact Hs|].
  apply IH, seen_step, Hs.
Qed.

Lemma first_sight (ix : indices) (c : ManifestCondition) :
  key c <> zeroMeta ->
  is_Some (metaWithoutOridinalIndex (indexCondition ix c) !! key c).
Proof.
  intros Hnz. unfold indexCondition.
  destruct (decide (key c <> zeroMeta)); [|contradiction].
  destruct (metaWithoutOridinalIndex ix !! key c) eqn:Hl; simpl.
  - rewrite Hl. eauto.
  - rewrite lookup_insert_eq. eauto.
Qed.

Lemma second_sight (ix : indices) (c : ManifestCondition) :
  key c <> zeroMeta ->
  is_Some (metaWithoutOridinalIndex ix !! key c) ->
  key c ∈ duplicated (indexCondition ix c).
Proof.
  intros Hnz [x Hx]. unfold indexCondition.
  destruct (decide (key c <> zeroMeta)); [|contradiction].
  rewrite Hx. simpl. apply elem_of_app. right. left.
Qed.

Lemma zero_never_indexed (l : list ManifestCondition) (ix : indices) :
  metaWithoutOridinalIndex ix !! zeroMeta = None ->
  metaWithoutOridinalIndex (fold_left indexCondition l ix) !! zeroMeta = None.
Proof.
  revert ix. induction l as [|a l IH]; intros ix Hz; simpl; [exact Hz|].
  apply IH. unfold indexCondition.
  destruct (decide (key a <> zeroMeta)) as [Hnz|]; [|exact Hz].
  destruct (metaWithoutOridinalIndex ix !! key a); simpl; [exact Hz|].
  rewrite lookup_insert_ne; [exact Hz | exact Hnz].
Qed.

(** Two records of the same identity leave no entry for it. *)
Lemma colliding_identity_unindexed (existing : list ManifestCondition)
    (i j : nat) (a b : ManifestCondition) :
  existing !! i = Some a -> existing !! j = Some b -> i < j ->
  key a = key b ->
  identityIndex existing !! key a = None.
Proof.
  intros Ha Hb Hlt Hkey. unfold identityIndex.
  destruct (decide (key a = zeroMeta)) as [Hz|Hnz].
  - rewrite Hz. apply removeDuplicated_None.
    apply zero_never_indexed. apply lookup_empty.
  - apply removeDuplicated_dup.
    pose proof (take_drop_middle existing j b Hb) as Hsplit.
    assert (take j existing !! i = Some a) as Ha'
      by (rewrite lookup_take_lt by exact Hlt; exact Ha).
    pose proof (take_drop_middle (take j existing) i a Ha') as Hsplit'.
    unfold buildIndices. rewrite <- Hsplit, <- Hsplit'.
    rewrite fold_left_app. simpl. apply duplicated_fold.
    rewrite Hkey. apply second_sight; [rewrite <- Hkey; exact Hnz|].
    rewrite <- Hkey. rewrite fold_left_app. simpl.
    apply seen_fold. apply first_sight. exact Hnz.
Qed.

End index_facts.

Module manifest_merge_facts.
Import metav1 workapiv1 helper merge_view.
Import merge_facts index_facts.

Section WithClock.
Variable wall : nat -> Time.

Lemma stampConditions_run (cs : list Condition) (k : nat) :
  stampConditions wall cs k = (stamped wall k cs, k + length cs).
Proof.
  unfold stamped. revert k. induction cs as [|c cs IH]; intros k; simpl.
  - unfold Clock.ret, St.ret. f_equal. lia.
  - unfold St.bind, Clock.Now. rewrite IH. unfold Clock.ret, St.ret.
    f_equal; [|lia].
    rewrite Nat.add_0_r. f_equal.
    apply imap_ext. intros i x _. simpl. do 2 f_equal. lia.
Qed.

(** The third loop only appends to what it was given. *)
Lemma mergeConditions_appends
    (bm bi : gmap ManifestResourceMeta ManifestCondition)
    (news acc : list ManifestCondition) (k : nat) :
  exists res,
    fst (mergeConditions wall bm bi acc news k) = acc ++ res /\
    length res = length news /\
    k <= snd (mergeConditions wall bm bi acc news k).
Proof.
  revert acc k. induction news as [|c news IH]; intros acc k; simpl.
  - exists []. rewrite app_nil_r. repeat split; simpl; lia.
  - destruct (matchCondition bm bi c) as [old|].
    + unfold St.bind. rewrite mergeManifestCondition_run.
      match goal with |- context [mergeConditions wall bm bi ?a news ?k'] =>
        destruct (IH a k') as (res & Hres & Hlen & Hk) end.
      eexists (_ :: res). rewrite Hres, <- app_assoc. simpl.
      repeat split; [congruence|].
      pose proof (setStatusConditions_clock wall (Conditions c) (Conditions old) k).
      lia.
    + unfold St.bind. rewrite stampConditions_run.
      match goal with |- context [mergeConditions wall bm bi ?a news ?k'] =>
        destruct (IH a k') as (res & Hres & Hlen & Hk) end.
      eexists (_ :: res). rewrite Hres, <- app_assoc. simpl.
      repeat split; [congruence|lia].
Qed.

Lemma mergeConditions_app
    (bm bi : gmap ManifestResourceMeta ManifestCondition)
    (pre post acc : list ManifestCondition) (k : nat) :
  mergeConditions wall bm bi acc (pre ++ post) k =
  mergeConditions wall bm bi
    (fst (mergeConditions wall bm bi acc pre k)) post
    (snd (mergeConditions wall bm bi acc pre k)).
Proof.
  revert acc k. induction pre as [|c pre IH]; intros acc k; simpl; [reflexivity|].
  destruct (matchCondition bm bi c) as [old|]; unfold St.bind.
  - destruct (mergeManifestCondition wall old c k). apply IH.
  - destruct (stampConditions wall (Conditions c) k). apply IH.
Qed.

Lemma exact_miss (existing : list ManifestCondition) (m : ManifestResourceMeta) :
  (forall e, e ∈ existing -> ResourceMeta e <> m) ->
  metaIndex (buildIndices existing) !! m = None.
Proof.
  intros Hmiss. unfold buildIndices.
  rewrite metaIndex_fold_miss by exact Hmiss. apply lookup_empty.
Qed.

(** C6. Let two records of the existing list, at different places, have the
    same identity without ordinal, and let a new record have that identity
    too while no existing record has its full resource meta. Then the index
    by identity has no entry for that identity, and the record the merge
    puts out for the new one, at the place of the new one, is the new
    record itself (its own meta and its own feedbacks) with each condition
    stamped by a reading of the clock taken during the merge: it is merged
    with neither of the two. *)
Theorem colliding_identity_is_brand_new
    (existing pre post : list ManifestCondition)
    (f a b : ManifestCondition) (i j k : nat) :
  existing !! i = Some a -> existing !! j = Some b -> i <> j ->
  resetOrdinal (ResourceMeta a) = resetOrdinal (ResourceMeta b) ->
  resetOrdinal (ResourceMeta f) = resetOrdinal (ResourceMeta a) ->
  (forall e, e ∈ existing -> ResourceMeta e <> ResourceMeta f) ->
  identityIndex existing !! resetOrdinal (ResourceMeta a) = None /\
  exists k', k <= k' /\
    fst (MergeManifestConditions wall existing (pre ++ f :: post) k) !! length pre
    = Some {| ResourceMeta := ResourceMeta f;
              StatusFeedbacks := StatusFeedbacks f;
              Conditions := stamped wall k' (Conditions f) |}.
Proof.
  intros Ha Hb Hij Hab Hfa Hmiss.
  assert (identityIndex existing !! resetOrdinal (ResourceMeta a) = None) as Hnone.
  { destruct (decide (i < j)) as [Hlt|Hge].
    - exact (colliding_identity_unindexed existing i j a b Ha Hb Hlt Hab).
    - rewrite Hab.
      apply (colliding_identity_unindexed existing j i b a Hb Ha);
        [lia | symmetry; exact Hab]. }
  split; [exact Hnone|].
  unfold MergeManifestConditions. fold (identityIndex existing).
  rewrite mergeConditions_app.
  destruct (mergeConditions_appends (metaIndex (buildIndices existing))
              (identityIndex existing) pre [] k) as (res & Hres & Hlen & Hk).
  simpl in Hres. rewrite Hres.
  set (k1 := snd (mergeConditions wall (metaIndex (buildIndices existing))
                    (identityIndex existing) [] pre k)) in *.
  exists k1. split; [exact Hk|].
  simpl. unfold matchCondition.
  rewrite (exact_miss existing (ResourceMeta f) Hmiss), Hfa, Hnone.
  unfold St.bind. rewrite stampConditions_run.
  match goal with |- context [mergeConditions wall ?bm ?bi ?acc post ?k'] =>
    destruct (mergeConditions_appends bm bi post acc k') as (res' & Hres' & _ & _)
  end.
  rewrite Hres', <- app_assoc, <- Hlen. simpl.
  apply list_lookup_middle. reflexivity.
Qed.

(** Merging a list of conditions with names all different into itself
    changes nothing and does not read the clock. *)
Lemma types_inj (cs : list Condition) (x y : Condition) :
  NoDup (types cs) -> x ∈ cs -> y ∈ cs -> Type_ x = Type_ y -> x = y.
Proof.
  unfold types. induction cs as [|e cs IH]; intros Hnd Hx Hy Heq; [inversion Hx|].
  simpl in Hnd. apply NoDup_cons in Hnd as [Hfresh Hnd].
  apply elem_of_cons in Hx as [->|Hx]; apply elem_of_cons in Hy as [->|Hy].
  - reflexivity.
  - exfalso. apply Hfresh. rewrite Heq. apply list_elem_of_fmap. eauto.
  - exfalso. apply Hfresh. rewrite <- Heq. apply list_elem_of_fmap. eauto.
  - apply IH; assumption.
Qed.

Lemma SetStatusCondition_present (cs : list Condition) (c : Condition) (k : nat) :
  NoDup (types cs) -> c ∈ cs ->
  meta.SetStatusCondition wall cs c k = (cs, k).
Proof.
  intros Hnd Hin. unfold meta.SetStatusCondition.
  destruct (meta.FindStatusCondition cs (Type_ c)) as [[i x]|] eqn:Hfind.
  - apply list_find_Some in Hfind as (Hix & Hty & _).
    assert (x = c) as ->.
    { apply (types_inj cs); try assumption.
      apply list_elem_of_lookup. eauto. }
    destruct (decide (Status c <> Status c)) as [Hne|_]; [contradiction|].
    unfold St.bind, Clock.ret, St.ret. simpl. f_equal.
    apply list_insert_id. rewrite Hix. destruct c; reflexivity.
  - apply list_find_None in Hfind.
    rewrite Forall_forall in Hfind. exfalso. apply (Hfind c Hin). reflexivity.
Qed.

Lemma setStatusConditions_present (news cs : list Condition) (k : nat) :
  NoDup (types cs) -> (forall c, c ∈ news -> c ∈ cs) ->
  setStatusConditions wall cs news k = (cs, k).
Proof.
  intros Hnd. induction news as [|c news IH]; intros Hsub; simpl; [reflexivity|].
  unfold St.bind.
  rewrite SetStatusCondition_present by (try assumption; apply Hsub; left).
  apply IH. intros x Hx. apply Hsub. right. exact Hx.
Qed.

Lemma mergeManifestCondition_self (r : ManifestCondition) (k : nat) :
  NoDup (types (Conditions r)) -> mergeManifestCondition wall r r k = (r, k).
Proof.
  intros Hnd. rewrite mergeManifestCondition_run.
  rewrite setStatusConditions_present by (try assumption; auto).
  simpl. destruct r; reflexivity.
Qed.

Lemma mergeConditions_hits
    (bm bi : gmap ManifestResourceMeta ManifestCondition)
    (news acc : list ManifestCondition) (k : nat) :
  (forall r, r ∈ news -> bm !! ResourceMeta r = Some r /\
                         NoDup (types (Conditions r))) ->
  mergeConditions wall bm bi acc news k = (acc ++ news, k).
Proof.
  revert acc. induction news as [|c news IH]; intros acc Hall; simpl.
  - rewrite app_nil_r. reflexivity.
  - destruct (Hall c) as [Hhit Hnd]; [left|].
    unfold matchCondition. rewrite Hhit. unfold St.bind.
    rewrite mergeManifestCondition_self by exact Hnd.
    rewrite IH by (intros r Hr; apply Hall; right; exact Hr).
    rewrite <- app_assoc. reflexivity.
Qed.

(** C9 (as amended). For a list of records with resource metas all
    different, each with condition names all different, merging the list
    with itself gives the list back, every field of every record and of
    every condition unchanged, without reading the clock. *)
Theorem merge_with_itself (X : list ManifestCondition) (k : nat) :
  NoDup (map ResourceMeta X) ->
  Forall (fun r => NoDup (types (Conditions r))) X ->
  MergeManifestConditions wall X X k = (X, k).
Proof.
  intros Hmetas Hnames. unfold MergeManifestConditions.
  rewrite mergeConditions_hits; [reflexivity|].
  intros r Hr. split.
  - unfold buildIndices. apply metaIndex_fold_hit; assumption.
  - rewrite Forall_forall in Hnames. apply Hnames, Hr.
Qed.

End WithClock.

(** C6, on an instance: two old records of "resource1" at the ordinals 1
    and 2, a new record of "resource1" at the ordinal 3. *)
Lemma colliding_identity_is_brand_new_witness :
  identityIndex fixtures.colliding
    !! resetOrdinal (ResourceMeta (fixtures.newManifestCondition 1 "resource1" []))
  = None /\
  exists k', 0 <= k' /\
    fst (MergeManifestConditions fixtures.wall fixtures.colliding
           ([] ++ fixtures.fresh_third :: []) 0) !! 0
    = Some {| ResourceMeta := ResourceMeta fixtures.fresh_third;
              StatusFeedbacks := StatusFeedbacks fixtures.fresh_third;
              Conditions := stamped fixtures.wall k'
                              (Conditions fixtures.fresh_third) |}.
Proof.
  apply (colliding_identity_is_brand_new fixtures.wall fixtures.colliding [] []
           fixtures.fresh_third
           (fixtures.newManifestCondition 1 "resource1" [fixtures.one_false_stamped])
           (fixtures.newManifestCondition 2 "resource1" [fixtures.one_false_stamped])
           0 1 0).
  - reflexivity.
  - reflexivity.
  - lia.
  - reflexivity.
  - reflexivity.
  - intros e He.
    apply elem_of_cons in He as [->|He]; [discriminate|].
    apply list_elem_of_singleton in He. subst e. discriminate.
Defined.

(** C9, on an instance: the two records of the first test table. *)
Lemma merge_with_itself_witness :
  MergeManifestConditions fixtures.wall
    [fixtures.existing_one_two;
     fixtures.newManifestCondition 1 "resource2" [fixtures.two_true]]
    [fixtures.existing_one_two;
     fixtures.newManifestCondition 1 "resource2" [fixtures.two_true]] 0
  = ([fixtures.existing_one_two;
      fixtures.newManifestCondition 1 "resource2" [fixtures.two_true]], 0).
Proof.
  apply (merge_with_itself fixtures.wall).
  - apply (bool_decide_unpack (NoDup _)). vm_compute. reflexivity.
  - constructor; [|constructor; [|constructor]];
      apply (bool_decide_unpack (NoDup _)); vm_compute; reflexivity.
Defined.

(** C9 as stated fails: for a list with the same resource meta twice, the
    merge with itself gives another list. *)
Lemma merge_with_itself_differs :
  fst (MergeManifestConditions fixtures.wall
         fixtures.twice_resource1 fixtures.twice_resource1 0)
  <> fixtures.twice_resource1.
Proof. vm_compute. discriminate. Qed.

End manifest_merge_facts.

Module auth_facts.
Import apierrors workapiv1_executor auth call_view.

Lemma forallb_agree {A} (f g : A -> bool) (l : list A) :
  (forall x, x ∈ l -> f x = g x) -> forallb f l = forallb g l.
Proof.
  induction l as [|a l IH]; intros Hfg; simpl; [reflexivity|].
  rewrite Hfg by left. rewrite IH; [reflexivity|].
  intros x Hx. apply Hfg. right. exact Hx.
Qed.

Section WithServer.
Context {W : Type}.
Variable srv : client.Server W.

Lemma validate_reviewed (reviews : list authorizationv1.SubjectAccessReview) (w : W) :
  reviewed reviews
    (client.calls (validateBySubjectAccessReviews srv reviews) w)
    (client.result (validateBySubjectAccessReviews srv reviews) w).
Proof.
  unfold client.calls, client.result.
  revert w. induction reviews as [|review rest IH]; intros w; simpl.
  - constructor.
  - unfold client.bind, client.SubjectAccessReviewsCreate, client.request.
    destruct (client.accessReview srv review w) as [[err|sar] w1]; simpl.
    + constructor.
    + destruct (authorizationv1.Allowed (authorizationv1.Status sar)) eqn:Hok; simpl.
      * specialize (IH w1).
        destruct (validateBySubjectAccessReviews srv rest w1) as [[res w2] calls].
        simpl in *. constructor; assumption.
      * constructor. exact Hok.
Qed.

Lemma verbOf_build (saNamespace saName : string)
    (resource : authorizationv1.ResourceAttributes) (verb : string)
    (rest : list string) (review : authorizationv1.SubjectAccessReview)
    (more : list authorizationv1.SubjectAccessReview) :
  buildSubjectAccessReviews saNamespace saName resource (verb :: rest)
    = review :: more ->
  verbOf review = Some verb /\
  more = buildSubjectAccessReviews saNamespace saName resource rest.
Proof. simpl. intros [= <- <-]. split; reflexivity. Qed.

Lemma reviewed_summary (saNamespace saName : string)
    (resource : authorizationv1.ResourceAttributes) (verbs : list string)
    (calls : list client.Call) (res : bool * option error) :
  NoDup verbs ->
  reviewed (buildSubjectAccessReviews saNamespace saName resource verbs) calls res ->
  allVerbsPassed calls verbs = fst res /\
  (forall v, v ∉ verbs -> verbPassed calls v = false) /\
  (forall c, c ∈ calls -> isCreate c = false) /\
  (snd res <> None -> fst res = false) /\
  reviewRequests calls `prefix_of`
    buildSubjectAccessReviews saNamespace saName resource verbs.
Proof.
  revert calls. induction verbs as [|verb verbs IH]; intros calls Hnd Hrun.
  - inversion Hrun; subst. simpl. repeat split; try done.
    intros c Hc. inversion Hc.
  - apply NoDup_cons in Hnd as [Hfresh Hnd].
    remember (buildSubjectAccessReviews saNamespace saName resource (verb :: verbs))
      as reviews eqn:Hbuild.
    destruct Hrun as [|review rest err|review rest sar Hno
                      |review rest sar calls res Hyes Hrest];
      [discriminate| | |];
      symmetry in Hbuild; apply verbOf_build in Hbuild as [Hverb ->].
    + simpl. repeat split; try done.
      * intros c Hc. apply list_elem_of_singleton in Hc. subst c. reflexivity.
      * eexists. reflexivity.
    + simpl. rewrite Hno, andb_false_r. simpl. repeat split; try done.
      * intros v _. rewrite andb_false_r. reflexivity.
      * intros c Hc. apply list_elem_of_singleton in Hc. subst c. reflexivity.
      * eexists. reflexivity.
    + destruct (IH calls Hnd Hrest) as (Hall & Hother & Hnocreate & Herr & Hpre).
      repeat split.
      * simpl. rewrite Hverb, Hyes, bool_decide_eq_true_2 by reflexivity. simpl.
        rewrite <- Hall. apply forallb_agree. intros v Hv. simpl.
        rewrite Hverb, bool_decide_eq_false_2; [reflexivity|].
        intros [= ->]. apply Hfresh. exact Hv.
      * intros v Hv. apply not_elem_of_cons in Hv as [Hne Hv]. simpl.
        rewrite Hverb, bool_decide_eq_false_2 by congruence. simpl.
        apply Hother, Hv.
      * intros c Hc. apply elem_of_cons in Hc as [->|Hc]; [reflexivity|].
        apply Hnocreate, Hc.
      * exact Herr.
      * simpl. apply prefix_cons. exact Hpre.
Qed.

Lemma checkEscalation_run (v : sarValidator) (sa : ManifestWorkSubjectServiceAccount)
    (gvr : schema.GroupVersionResource) (namespace name : string)
    (obj : option unstructured.Unstructured) (w : W) :
  (exists err,
     newImpersonateClientFunc v (config v) (username (Namespace sa) (Name sa))
       = inl err /\
     checkEscalation srv v sa gvr namespace name obj w = (Some err, w, []))
  \/
  (exists cfg,
     newImpersonateClientFunc v (config v) (username (Namespace sa) (Name sa))
       = inr cfg /\
     checkEscalation srv v sa gvr namespace name obj w =
       let (err, w') := client.create srv cfg gvr namespace obj ["All"] w in
       (if IsForbidden err then
          Some (NotAllowedError
            (errorString ("not allowed to apply the resource " +:+ schema.Group gvr
                          +:+ " " +:+ schema.Resource gvr +:+ ", " +:+ namespace
                          +:+ " " +:+ name +:+ ", error: permission escalation"))
            (60 * Second))
        else if IsAlreadyExists err then None else err,
        w', [client.CallCreate cfg gvr namespace obj ["All"] err])).
Proof.
  unfold checkEscalation.
  destruct (newImpersonateClientFunc v (config v) (username (Namespace sa) (Name sa)))
    as [err|cfg].
  - left. eauto.
  - right. exists cfg. split; [reflexivity|].
    unfold client.bind, client.Create, client.request.
    destruct (client.create srv cfg gvr namespace obj ["All"] w) as [err w'].
    destruct (IsForbidden err); [reflexivity|].
    destruct (IsAlreadyExists err); reflexivity.
Qed.

Lemma applyVerbs_NoDup : NoDup applyVerbs.
Proof. apply (bool_decide_unpack (NoDup _)). vm_compute. reflexivity. Qed.

Lemma allVerbsPassed_app (calls more : list client.Call) (verbs : list string) :
  (forall c, c ∈ more -> isCreate c = true) ->
  allVerbsPassed (calls ++ more) verbs = allVerbsPassed calls verbs.
Proof.
  intros Hmore. apply forallb_agree. intros v _.
  unfold verbPassed. rewrite existsb_app.
  replace (existsb (passedReview v) more) with false; [apply orb_false_r|].
  symmetry. apply not_true_is_false. intros Hex.
  apply existsb_exists in Hex as (c & Hc & Hp).
  apply list_elem_of_In in Hc. specialize (Hmore c Hc).
  destruct c; discriminate.
Qed.

Lemma guarded_resources (r : string) :
  r = "roles" \/ r = "rolebindings" \/ r = "clusterroles"
    \/ r = "clusterrolebindings" <-> r ∈ rbacResources.
Proof.
  unfold rbacResources. rewrite !elem_of_cons, elem_of_nil. tauto.
Qed.

(** A run of [Validate]: either it makes no call at all, or it runs the
    reviews of the verbs of the action and then, when all passed and the
    guard applies, at most one create. *)
Lemma Validate_run (v : sarValidator) (executor : option ManifestWorkExecutor)
    (gvr : schema.GroupVersionResource) (namespace name : string)
    (obj : option unstructured.Unstructured) (action : string) (w : W) :
  let run := Validate srv v executor gvr namespace name obj action in
  client.calls run w = []
  \/
  (exists e sa verbs rcalls checked,
     executor = Some e /\ ServiceAccount (Subject e) = Some sa /\
     (action = ApplyAction /\ verbs = applyVerbs \/
      action = DeleteAction /\ verbs = ["delete"]) /\
     reviewed (buildSubjectAccessReviews (Namespace sa) (Name sa)
                 (reviewedResource gvr namespace name) verbs) rcalls checked /\
     ((checked <> (true, None) /\ client.calls run w = rcalls /\
       client.result run w =
         match snd checked with
         | Some err => Some err
         | None => Some (notAllowed action gvr namespace name)
         end)
      \/ (checked = (true, None) /\ ~ escalationGuarded action gvr /\
          client.calls run w = rcalls /\ client.result run w = None)
      \/ (checked = (true, None) /\ escalationGuarded action gvr /\
          exists err,
            newImpersonateClientFunc v (config v)
              (username (Namespace sa) (Name sa)) = inl err /\
            client.calls run w = rcalls /\ client.result run w = Some err)
      \/ (checked = (true, None) /\ escalationGuarded action gvr /\
          exists cfg err,
            newImpersonateClientFunc v (config v)
              (username (Namespace sa) (Name sa)) = inr cfg /\
            client.calls run w =
              rcalls ++ [client.CallCreate cfg gvr namespace obj ["All"] err]))).
Proof.
  unfold client.calls, client.result, Validate.
  destruct executor as [e|]; simpl; [|left; reflexivity].
  destruct (decide (Type_ (Subject e) <> ExecutorSubjectTypeServiceAccount));
    simpl; [left; reflexivity|].
  destruct (ServiceAccount (Subject e)) as [sa|] eqn:Hsa; simpl;
    [|left; reflexivity].
  assert (forall verbs, exists rcalls checked w1,
            validateBySubjectAccessReviews srv
              (buildSubjectAccessReviews (Namespace sa) (Name sa)
                 (reviewedResource gvr namespace name) verbs) w
              = (checked, w1, rcalls) /\
            reviewed (buildSubjectAccessReviews (Namespace sa) (Name sa)
                        (reviewedResource gvr namespace name) verbs)
                     rcalls checked) as Hreviews.
  { intros verbs.
    pose proof (validate_reviewed
      (buildSubjectAccessReviews (Namespace sa) (Name sa)
         (reviewedResource gvr namespace name) verbs) w) as Hrun.
    unfold client.calls, client.result in Hrun.
    destruct (validateBySubjectAccessReviews srv _ w) as [[checked w1] rcalls].
    exists rcalls, checked, w1. split; [reflexivity | exact Hrun]. }
  destruct (decide (action = ApplyAction)) as [Happly|Hnot].
  - right. destruct (Hreviews applyVerbs) as (rcalls & checked & w1 & Hrun & Hrev).
    exists e, sa, applyVerbs, rcalls, checked.
    split; [reflexivity|]. split; [exact Hsa|]. split; [left; done|].
    split; [exact Hrev|].
    unfold client.bind. unfold reviewedResource, applyVerbs in Hrun.
    rewrite Hrun. clear Hrun.
    destruct checked as [ok [err|]]; simpl.
    { left. rewrite app_nil_r. repeat split. discriminate. }
    destruct ok; simpl.
    2:{ left. rewrite app_nil_r. repeat split. discriminate. }
    right.
    destruct (decide (action <> ApplyAction)); [contradiction|].
    destruct (decide (schema.Group gvr <> "rbac.authorization.k8s.io")) as [Hg|Hg].
    { left. simpl. rewrite app_nil_r. repeat split.
      intros (_ & Hgrp & _). contradiction. }
    match goal with |- context [decide ?P] => destruct (decide P) as [Hres|Hres] end.
    2:{ left. simpl. rewrite app_nil_r. repeat split.
        intros (_ & _ & Hin). apply Hres, guarded_resources, Hin. }
    assert (escalationGuarded action gvr) as Hguard.
    { split; [exact Happly|]. split; [apply dec_stable; exact Hg|].
      apply guarded_resources, Hres. }
    right.
    destruct (checkEscalation_run v sa gvr namespace name obj w1)
      as [(err & Hfac & ->)|(cfg & Hfac & ->)].
    + left. split; [reflexivity|]. split; [exact Hguard|].
      exists err. simpl. rewrite app_nil_r. repeat split. exact Hfac.
    + right. split; [reflexivity|]. split; [exact Hguard|].
      destruct (client.create srv cfg gvr namespace obj ["All"] w1) as [err w2].
      exists cfg, err. split; [exact Hfac|]. reflexivity.
  - assert (~ escalationGuarded action gvr) as Hng by (intros (H & _); contradiction).
    destruct (decide (action = DeleteAction)) as [Hdel|Hnodel]; [|left; reflexivity].
    right. destruct (Hreviews ["delete"]) as (rcalls & checked & w1 & Hrun & Hrev).
    exists e, sa, ["delete"], rcalls, checked.
    split; [reflexivity|]. split; [exact Hsa|]. split; [right; done|].
    split; [exact Hrev|].
    unfold client.bind. unfold reviewedResource in Hrun.
    rewrite Hrun. clear Hrun.
    destruct checked as [ok [err|]]; simpl.
    { left. rewrite app_nil_r. repeat split. discriminate. }
    destruct ok; simpl.
    2:{ left. rewrite app_nil_r. repeat split. discriminate. }
    right. left.
    destruct (decide (action <> ApplyAction)); [|contradiction].
    simpl. rewrite app_nil_r. repeat split. exact Hng.
Qed.

(** The calls of [Validate]: the reviews, then at most one create, which is
    there exactly under the conditions of the escalation guard. *)
Lemma Validate_calls (v : sarValidator) (executor : option ManifestWorkExecutor)
    (gvr : schema.GroupVersionResource) (namespace name : string)
    (obj : option unstructured.Unstructured) (action : string) (w : W) :
  exists rcalls ccalls,
    client.calls (Validate srv v executor gvr namespace name obj action) w
      = rcalls ++ ccalls /\
    (forall c, c ∈ rcalls -> isCreate c = false) /\
    ((ccalls = [] /\
      ~ (escalationGuarded action gvr /\
         allVerbsPassed rcalls applyVerbs = true /\
         impersonationReady v executor = true))
     \/
     (exists e sa cfg err,
        ccalls = [client.CallCreate cfg gvr namespace obj ["All"] err] /\
        executor = Some e /\
        ServiceAccount (Subject e) = Some sa /\
        newImpersonateClientFunc v (config v)
          (username (Namespace sa) (Name sa)) = inr cfg /\
        escalationGuarded action gvr /\
        allVerbsPassed rcalls applyVerbs = true)).
Proof.
  destruct (Validate_run v executor gvr namespace name obj action w)
    as [Hnone|(e & sa & verbs & rcalls & checked & He & Hsa & Hverbs & Hrev & Hcases)].
  { exists [], []. rewrite Hnone. repeat split; [intros c Hc; inversion Hc|].
    left. split; [reflexivity|]. intros (_ & H & _). discriminate. }
  assert (NoDup verbs) as Hnd.
  { destruct Hverbs as [[_ ->]|[_ ->]];
      [exact applyVerbs_NoDup | apply NoDup_singleton]. }
  destruct (reviewed_summary _ _ _ verbs rcalls checked Hnd Hrev)
    as (Hall & _ & Hnocreate & Herr & _).
  exists rcalls.
  destruct Hcases as [(Hfail & -> & _)|[(Hok & Hng & -> & _)
                     |[(Hok & Hg & err & Hfac & -> & _)
                      |(Hok & Hg & cfg & err & Hfac & ->)]]].
  - exists []. rewrite app_nil_r. repeat split; [exact Hnocreate|].
    left. split; [reflexivity|]. intros ((Happly & _) & Hpass & _).
    destruct Hverbs as [[_ ->]|[Hdel _]].
    + apply Hfail. rewrite Hall in Hpass.
      destruct checked as [ok [e'|]]; simpl in *.
      * rewrite Herr in Hpass by discriminate. discriminate.
      * rewrite Hpass. reflexivity.
    + rewrite Happly in Hdel. discriminate.
  - exists []. rewrite app_nil_r. repeat split; [exact Hnocreate|].
    left. split; [reflexivity|]. tauto.
  - exists []. rewrite app_nil_r. repeat split; [exact Hnocreate|].
    left. split; [reflexivity|]. intros (_ & _ & H).
    unfold impersonationReady in H. rewrite He, Hsa, Hfac in H. discriminate.
  - exists [client.CallCreate cfg gvr namespace obj ["All"] err].
    repeat split; [exact Hnocreate|].
    right. exists e, sa, cfg, err.
    split; [reflexivity|]. split; [exact He|]. split; [exact Hsa|].
    split; [exact Hfac|]. split; [exact Hg|].
    destruct Hverbs as [[_ ->]|[Hdel _]].
    + rewrite Hall, Hok. reflexivity.
    + destruct Hg as (Happly & _). rewrite Happly in Hdel. discriminate.
Qed.

(** C3 (as amended). Over every server and every world: [Validate] issues
    a create call exactly when the action is Apply, the group is
    rbac.authorization.k8s.io, the resource is one of the four RBAC
    resources, each of the four verbs was reviewed and allowed, and the
    impersonating client of the executor could be made; a create call that
    is issued is a dry run of the given object by that client; and for
    another action or another resource there is no create call, whatever
    the reviews answer. *)
Theorem dry_run_create_scope (v : sarValidator)
    (executor : option ManifestWorkExecutor)
    (gvr : schema.GroupVersionResource) (namespace name : string)
    (obj : option unstructured.Unstructured) (action : string) (w : W) :
  let calls :=
    client.calls (Validate srv v executor gvr namespace name obj action) w in
  ((exists c, c ∈ calls /\ isCreate c = true) <->
   escalationGuarded action gvr /\
   allVerbsPassed calls applyVerbs = true /\
   impersonationReady v executor = true)
  /\ (forall c, c ∈ calls /\ isCreate c = true ->
       exists e sa cfg err,
         executor = Some e /\ ServiceAccount (Subject e) = Some sa /\
         newImpersonateClientFunc v (config v)
           (username (Namespace sa) (Name sa)) = inr cfg /\
         c = client.CallCreate cfg gvr namespace obj ["All"] err)
  /\ (forall c, ~ escalationGuarded action gvr /\ c ∈ calls ->
                isCreate c = false).
Proof.
  intros calls. subst calls.
  destruct (Validate_calls v executor gvr namespace name obj action w)
    as (rcalls & ccalls & -> & Hnocreate & Hshape).
  assert (Hpassed : allVerbsPassed (rcalls ++ ccalls) applyVerbs
                    = allVerbsPassed rcalls applyVerbs).
  { destruct Hshape as [[-> _]|(e & sa & cfg & err & -> & _)].
    - rewrite app_nil_r. reflexivity.
    - apply allVerbsPassed_app. intros c Hc.
      apply list_elem_of_singleton in Hc. subst c. reflexivity. }
  rewrite Hpassed.
  destruct Hshape as [[-> Hnot]|(e & sa & cfg & err & -> & He & Hsa & Hfac & Hg & Hall)].
  - rewrite app_nil_r. split; [split|split].
    + intros (c & Hc & Hcreate). rewrite Hnocreate in Hcreate by exact Hc.
      discriminate.
    + intros H. contradiction.
    + intros c [Hc Hcreate]. rewrite Hnocreate in Hcreate by exact Hc.
      discriminate.
    + intros c [_ Hc]. apply Hnocreate, Hc.
  - split; [split|split].
    + intros _. split; [exact Hg|]. split; [exact Hall|].
      unfold impersonationReady. rewrite He, Hsa, Hfac. reflexivity.
    + intros _. exists (client.CallCreate cfg gvr namespace obj ["All"] err).
      split; [|reflexivity]. apply elem_of_app. right. left.
    + intros c [Hc Hcreate]. apply elem_of_app in Hc as [Hc|Hc].
      * rewrite Hnocreate in Hcreate by exact Hc. discriminate.
      * apply list_elem_of_singleton in Hc. subst c.
        exists e, sa, cfg, err. repeat split; assumption.
    + intros c [Hng _]. contradiction.
Qed.

Lemma reviewed_denial (reviews : list authorizationv1.SubjectAccessReview)
    (calls : list client.Call) (res : bool * option error)
    (pre post : list client.Call)
    (review sar : authorizationv1.SubjectAccessReview) :
  reviewed reviews calls res ->
  calls = pre ++ client.CallAccessReview review (inr sar) :: post ->
  authorizationv1.Allowed (authorizationv1.Status sar) = false ->
  post = [] /\ res = (false, None).
Proof.
  intros Hrun. revert pre.
  induction Hrun as [|r rest err|r rest sar0 Hno|r rest sar0 calls res Hyes Hrun IH];
    intros pre Hcalls Hdenied.
  - destruct pre; discriminate.
  - destruct pre as [|c pre]; [discriminate|].
    destruct pre; discriminate.
  - destruct pre as [|c pre].
    + injection Hcalls as _ _ <-. split; reflexivity.
    + destruct pre; discriminate.
  - destruct pre as [|c pre].
    + injection Hcalls as _ <- _. congruence.
    + injection Hcalls as _ Hcalls. exact (IH pre Hcalls Hdenied).
Qed.

(** C7. Over every server and every world: the reviews [Validate]
    requests are an initial part of the reviews built for the verbs of the
    action, in their order; and when one of them is answered "not allowed",
    no call follows it, and [Validate] returns a [NotAllowedError] that asks
    for a requeue after 60 seconds. *)
Theorem reviews_stop_at_first_denial (v : sarValidator)
    (executor : option ManifestWorkExecutor)
    (gvr : schema.GroupVersionResource) (namespace name : string)
    (obj : option unstructured.Unstructured) (action : string) (w : W)
    (pre post : list client.Call)
    (review sar : authorizationv1.SubjectAccessReview) :
  let run := Validate srv v executor gvr namespace name obj action in
  client.calls run w = pre ++ client.CallAccessReview review (inr sar) :: post ->
  authorizationv1.Allowed (authorizationv1.Status sar) = false ->
  post = [] /\
  (exists message,
     client.result run w
     = Some (NotAllowedError (errorString message) (60 * 1000000000))) /\
  (exists e sa verbs,
     executor = Some e /\ ServiceAccount (Subject e) = Some sa /\
     (action = ApplyAction /\ verbs = ["create"; "update"; "patch"; "get"] \/
      action = DeleteAction /\ verbs = ["delete"]) /\
     reviewRequests (client.calls run w) `prefix_of`
       buildSubjectAccessReviews (Namespace sa) (Name sa)
         (reviewedResource gvr namespace name) verbs).
Proof.
  intros run Hcalls Hdenied. subst run.
  destruct (Validate_run v executor gvr namespace name obj action w)
    as [Hnone|(e & sa & verbs & rcalls & checked & He & Hsa & Hverbs & Hrev & Hcases)].
  { rewrite Hnone in Hcalls. destruct pre; discriminate. }
  assert (NoDup verbs) as Hnd.
  { destruct Hverbs as [[_ ->]|[_ ->]];
      [exact applyVerbs_NoDup | apply NoDup_singleton]. }
  destruct (reviewed_summary _ _ _ verbs rcalls checked Hnd Hrev)
    as (_ & _ & _ & _ & Hprefix).
  destruct Hcases as [(Hfail & Hrc & Hres)|[(Hok & _ & Hrc & _)
                     |[(Hok & _ & err & _ & Hrc & _)
                      |(Hok & _ & cfg & err & _ & Hrc)]]].
  - rewrite Hrc in Hcalls.
    destruct (reviewed_denial _ _ _ _ _ _ _ Hrev Hcalls Hdenied) as [-> ->].
    split; [reflexivity|]. split.
    + rewrite Hres. simpl. eexists. reflexivity.
    + exists e, sa, verbs. rewrite Hrc. repeat split; assumption.
  - rewrite Hrc in Hcalls.
    destruct (reviewed_denial _ _ _ _ _ _ _ Hrev Hcalls Hdenied) as [_ ->].
    discriminate.
  - rewrite Hrc in Hcalls.
    destruct (reviewed_denial _ _ _ _ _ _ _ Hrev Hcalls Hdenied) as [_ ->].
    discriminate.
  - exfalso. rewrite Hrc in Hcalls.
    destruct post as [|y post _] using rev_ind.
    + apply app_inj_tail in Hcalls as [_ Hlast]. discriminate.
    + change (rcalls ++ [client.CallCreate cfg gvr namespace obj ["All"] err]
              = pre ++ (client.CallAccessReview review (inr sar) :: post) ++ [y])
        in Hcalls.
      rewrite app_assoc in Hcalls.
      apply app_inj_tail in Hcalls as [Hcalls _].
      destruct (reviewed_denial _ _ _ _ _ _ _ Hrev Hcalls Hdenied) as [_ ->].
      discriminate.
Qed.

Lemma one_reason (err : option error) :
  IsAlreadyExists err = true -> IsForbidden err = false.
Proof.
  unfold IsAlreadyExists, IsForbidden, hasReason.
  destruct err as [e|]; [|discriminate].
  intros H. apply bool_decide_eq_true_1 in H.
  apply bool_decide_eq_false_2. rewrite H. discriminate.
Qed.

(** C4. In [checkEscalation], once the impersonating client is there and
    the server has answered the dry-run create: that create is the only
    call; a forbidden answer gives a [NotAllowedError] that asks for a
    requeue after 60 seconds; an already-exists answer gives nil; any other
    answer, an error or nil, is returned as it is. *)
Theorem escalation_guard_outcomes (v : sarValidator)
    (sa : ManifestWorkSubjectServiceAccount)
    (gvr : schema.GroupVersionResource) (namespace name : string)
    (obj : option unstructured.Unstructured) (w w' : W)
    (cfg : rest.Config) (err : option error) :
  let run := checkEscalation srv v sa gvr namespace name obj in
  newImpersonateClientFunc v (config v) (username (Namespace sa) (Name sa))
    = inr cfg ->
  client.create srv cfg gvr namespace obj ["All"] w = (err, w') ->
  client.calls run w = [client.CallCreate cfg gvr namespace obj ["All"] err] /\
  (IsForbidden err = true ->
     exists message,
       client.result run w
       = Some (NotAllowedError (errorString message) (60 * 1000000000))) /\
  (IsAlreadyExists err = true -> client.result run w = None) /\
  (IsForbidden err = false -> IsAlreadyExists err = false ->
     client.result run w = err).
Proof.
  intros run Hfac Hcreate. subst run. unfold client.calls, client.result.
  destruct (checkEscalation_run v sa gvr namespace name obj w)
    as [(e & Hfac' & _)|(cfg' & Hfac' & ->)]; [congruence|].
  assert (cfg' = cfg) as -> by congruence.
  rewrite Hcreate. simpl. split; [reflexivity|]. split; [|split].
  - intros ->. eexists. reflexivity.
  - intros Hexists. rewrite (one_reason err Hexists), Hexists. reflexivity.
  - intros -> ->. reflexivity.
Qed.

End WithServer.

(** C3, on an instance: the executor with all four verbs allowed applies a
    role; the dry-run create is issued. *)
Lemma dry_run_create_scope_witness :
  exists c,
    c ∈ client.calls
          (Validate (fixtures.fixedServer applyVerbs None [] None None None)
             fixtures.validator (Some fixtures.executor) fixtures.roles
             "cluster1" "role1" None ApplyAction) tt
    /\ isCreate c = true.
Proof.
  apply (dry_run_create_scope
           (fixtures.fixedServer applyVerbs None [] None None None)
           fixtures.validator (Some fixtures.executor) fixtures.roles
           "cluster1" "role1" None ApplyAction tt).
  split; [|split].
  - split; [reflexivity|]. split; [reflexivity|].
    apply (bool_decide_unpack (_ ∈ _)). vm_compute. reflexivity.
  - vm_compute. reflexivity.
  - vm_compute. reflexivity.
Defined.

(** C3 as stated fails: the action is Apply, the resource is roles in the
    RBAC group and the four reviews pass, but the validator has no rest
    configuration, its factory fails, and no create call is issued. *)
Lemma no_dry_run_without_client :
  let calls :=
    client.calls
      (Validate (fixtures.fixedServer applyVerbs None [] None None None)
         fixtures.validatorWithoutConfig (Some fixtures.executor) fixtures.roles
         "cluster1" "role1" None ApplyAction) tt in
  ~ ((exists c, c ∈ calls /\ isCreate c = true) <->
     escalationGuarded ApplyAction fixtures.roles /\
     allVerbsPassed calls applyVerbs = true).
Proof.
  intros calls [_ Hissued].
  destruct Hissued as (c & Hc & Hcreate).
  - split; [|vm_compute; reflexivity].
    split; [reflexivity|]. split; [reflexivity|].
    apply (bool_decide_unpack (_ ∈ _)). vm_compute. reflexivity.
  - assert (forallb (fun c => negb (isCreate c)) calls = true) as Hnone
      by (vm_compute; reflexivity).
    rewrite forallb_forall in Hnone.
    apply list_elem_of_In in Hc. specialize (Hnone c Hc).
    rewrite Hcreate in Hnone. discriminate.
Qed.

(** C7, on an instance: the server allows no verb; the executor applies a
    configmap; the review of "create" is the only call. *)
Lemma reviews_stop_at_first_denial_witness :
  (@nil client.Call) = [] /\
  (exists message,
     client.result
       (Validate (fixtures.fixedServer [] None [] None None None)
          fixtures.validator (Some fixtures.executor) fixtures.configmaps
          "cluster1" "cm1" None ApplyAction) tt
     = Some (NotAllowedError (errorString message) (60 * 1000000000))) /\
  (exists e sa verbs,
     Some fixtures.executor = Some e /\ ServiceAccount (Subject e) = Some sa /\
     (ApplyAction = ApplyAction /\ verbs = ["create"; "update"; "patch"; "get"] \/
      ApplyAction = DeleteAction /\ verbs = ["delete"]) /\
     reviewRequests
       (client.calls
          (Validate (fixtures.fixedServer [] None [] None None None)
             fixtures.validator (Some fixtures.executor) fixtures.configmaps
             "cluster1" "cm1" None ApplyAction) tt)
     `prefix_of`
       buildSubjectAccessReviews (Namespace sa) (Name sa)
         (reviewedResource fixtures.configmaps "cluster1" "cm1") verbs).
Proof.
  eapply (reviews_stop_at_first_denial
            (fixtures.fixedServer [] None [] None None None)
            fixtures.validator (Some fixtures.executor) fixtures.configmaps
            "cluster1" "cm1" None ApplyAction tt []).
  - vm_compute. reflexivity.
  - reflexivity.
Defined.

(** C4, on an instance: the dry run of a role that exists already. *)
Lemma escalation_guard_outcomes_witness :
  client.result
    (checkEscalation
       (fixtures.fixedServer applyVerbs (Some fixtures.alreadyExists) [] None None None)
       fixtures.validator
       {| Namespace := "cluster1"; Name := "test-executor" |}
       fixtures.roles "cluster1" "role1" None) tt
  = None.
Proof.
  destruct (escalation_guard_outcomes
              (fixtures.fixedServer applyVerbs (Some fixtures.alreadyExists)
                 [] None None None)
              fixtures.validator
              {| Namespace := "cluster1"; Name := "test-executor" |}
              fixtures.roles "cluster1" "role1" None tt tt
              {| rest.Host := "https://spoke";
                 rest.ImpersonateUserName :=
                   "system:serviceaccount:cluster1:test-executor" |}
              (Some fixtures.alreadyExists) eq_refl eq_refl)
    as (_ & _ & Hexists & _).
  apply Hexists. reflexivity.
Defined.

End auth_facts.

Module gc_facts.
Import apierrors workapiv1_applied spoke_helper call_view.

Lemma IsOwnedBy_UID (myOwner : metav1.OwnerReference)
    (existingOwners : list metav1.OwnerReference) :
  helper.IsOwnedBy myOwner existingOwners = true <->
  exists o, o ∈ existingOwners /\ metav1.UID o = metav1.UID myOwner.
Proof.
  induction existingOwners as [|owner rest IH]; simpl.
  - split; [discriminate|]. intros (o & Ho & _). inversion Ho.
  - destruct (decide (metav1.UID myOwner = metav1.UID owner)) as [Heq|Hne].
    + split; [|reflexivity]. intros _. exists owner. split; [left|congruence].
    + rewrite IH. split; intros (o & Ho & Huid).
      * exists o. split; [right; exact Ho | exact Huid].
      * apply elem_of_cons in Ho as [->|Ho]; [congruence|]. eauto.
Qed.

Lemma lastByte_dash (s : string) : resourcemerge.lastByte (s +:+ "-") = Some "-"%char.
Proof.
  induction s as [|c s IH]; [reflexivity|].
  simpl. destruct (s +:+ "-") eqn:Hs; [destruct s; discriminate|].
  exact IH.
Qed.

Lemma existedIndex_first (o x : metav1.OwnerReference)
    (pre post : list metav1.OwnerReference) :
  (forall y, y ∈ pre -> resourcemerge.ownerRefMatched o y = false) ->
  resourcemerge.ownerRefMatched o x = true ->
  resourcemerge.existedIndex o (pre ++ x :: post) = length pre.
Proof.
  intros Hpre Hx. induction pre as [|y pre IH]; simpl.
  - rewrite Hx. reflexivity.
  - rewrite Hpre by left. f_equal. apply IH.
    intros z Hz. apply Hpre. right. exact Hz.
Qed.

(** Asking for the removal of an owner takes the first matching reference
    out of the list and leaves the others as they are, in their order. *)
Lemma MergeOwnerRefs_removes (owner x : metav1.OwnerReference)
    (pre post : list metav1.OwnerReference) :
  (forall y, y ∈ pre -> resourcemerge.ownerRefMatched (ownerToRemove owner) y = false) ->
  resourcemerge.ownerRefMatched (ownerToRemove owner) x = true ->
  resourcemerge.MergeOwnerRefs false (pre ++ x :: post) [ownerToRemove owner]
  = Some (true, pre ++ post).
Proof.
  intros Hpre Hx. simpl. unfold resourcemerge.mergeOwnerRef.
  cbn [metav1.UID ownerToRemove]. rewrite lastByte_dash.
  rewrite (existedIndex_first _ x pre post Hpre Hx).
  destruct (decide (length pre = length (pre ++ x :: post))) as [Hlen|_].
  - rewrite length_app in Hlen. simpl in Hlen. lia.
  - simpl. rewrite take_app_length.
    rewrite (cons_middle x pre post), app_assoc.
    rewrite drop_app_length' by (rewrite length_app; simpl; lia).
    reflexivity.
Qed.

Section WithServer.
Context {W : Type}.
Variable srv : client.Server W.

(** The group, version and resource [DeleteAppliedResources] asks for. *)
Local Abbreviation gvrOf resource :=
  {| schema.Group := Group resource;
     schema.Version := Version resource;
     schema.Resource := Resource resource |}.

(** The loop body up to the delete validation, for a live object. *)
Lemma deleteAppliedResource_live (reason : string) (owner : metav1.OwnerReference)
    (executor : option workapiv1_executor.ManifestWorkExecutor)
    (acc : progress) (resource : AppliedManifestResourceMeta)
    (u : unstructured.Unstructured) (w w1 : W) :
  client.get srv (gvrOf resource) (Namespace resource) (Name resource) w
    = (inr u, w1) ->
  deleteAppliedResource srv reason owner executor acc resource w =
  if negb (helper.IsOwnedBy owner (unstructured.OwnerReferences u)) then
    (Returned acc, w1,
     [client.CallGet (gvrOf resource) (Namespace resource) (Name resource) (inr u)])
  else
    let '(verdict, w2) :=
      client.validateDelete srv executor (gvrOf resource)
        (Namespace resource) (Name resource) w1 in
    let '(out, w3, calls) :=
      match verdict with
      | Some e =>
          if negb (IsForbidden verdict) then
            (Returned (fst acc,
               snd acc ++ [wrapError (failedTo "check delete permission for resource"
                             (gvrOf resource) (Namespace resource) (Name resource)) e]),
             w2, [])
          else removeOwnerOrDelete srv reason (ownerToRemove owner) acc resource
                 (gvrOf resource) u w2
      | None => removeOwnerOrDelete srv reason (ownerToRemove owner) acc resource
                  (gvrOf resource) u w2
      end in
    (out, w3,
     client.CallGet (gvrOf resource) (Namespace resource) (Name resource) (inr u)
     :: client.CallValidateDelete executor (gvrOf resource)
          (Namespace resource) (Name resource) verdict
     :: calls).
Proof.
  intros Hget. unfold deleteAppliedResource, client.bind, client.Get, client.request.
  rewrite Hget.
  destruct (negb (helper.IsOwnedBy owner (unstructured.OwnerReferences u)));
    [reflexivity|].
  unfold client.ValidateDelete, client.request.
  destruct (client.validateDelete srv executor (gvrOf resource)
              (Namespace resource) (Name resource) w1) as [verdict w2].
  destruct verdict as [e|].
  - destruct (negb (IsForbidden (Some e))); [reflexivity|].
    destruct (removeOwnerOrDelete srv reason (ownerToRemove owner) acc resource
                (gvrOf resource) u w2) as [[out w3] calls].
    reflexivity.
  - destruct (removeOwnerOrDelete srv reason (ownerToRemove owner) acc resource
                (gvrOf resource) u w2) as [[out w3] calls].
    reflexivity.
Qed.

(** C10. [IsOwnedBy] answers true exactly when some owner reference of the
    list has the UID of the agent's reference; name, kind and API version
    play no part, so two references with the same UID get the same answer.
    In the garbage collector, a live object none of whose owners has the
    agent's UID is skipped after the get, with nothing recorded for it, and
    a live object one of whose owners has that UID, under whatever name,
    goes on to the delete validation. *)
Theorem ownership_is_decided_by_UID (myOwner : metav1.OwnerReference)
    (existingOwners : list metav1.OwnerReference) :
  (helper.IsOwnedBy myOwner existingOwners = true <->
   exists o, o ∈ existingOwners /\ metav1.UID o = metav1.UID myOwner)
  /\ (forall other, metav1.UID other = metav1.UID myOwner ->
         helper.IsOwnedBy other existingOwners
         = helper.IsOwnedBy myOwner existingOwners)
  /\ (forall reason executor acc resource u w w1,
         client.get srv (gvrOf resource) (Namespace resource) (Name resource) w
           = (inr u, w1) /\
         unstructured.OwnerReferences u = existingOwners ->
         let run := deleteAppliedResource srv reason myOwner executor acc resource in
         ((exists o, o ∈ existingOwners /\ metav1.UID o = metav1.UID myOwner) ->
            exists verdict rest,
              client.calls run w =
                client.CallGet (gvrOf resource) (Namespace resource)
                  (Name resource) (inr u)
                :: client.CallValidateDelete executor (gvrOf resource)
                     (Namespace resource) (Name resource) verdict
                :: rest)
         /\ (~ (exists o, o ∈ existingOwners /\ metav1.UID o = metav1.UID myOwner) ->
               client.calls run w =
                 [client.CallGet (gvrOf resource) (Namespace resource)
                    (Name resource) (inr u)]
               /\ client.result run w = Returned acc)).
Proof.
  split; [apply IsOwnedBy_UID|]. split.
  - intros other Huid.
    destruct (helper.IsOwnedBy myOwner existingOwners) eqn:Hmine.
    + apply IsOwnedBy_UID. apply IsOwnedBy_UID in Hmine as (o & Ho & Heq).
      exists o. split; [exact Ho | congruence].
    + apply not_true_is_false. intros Hother.
      apply IsOwnedBy_UID in Hother as (o & Ho & Heq).
      assert (helper.IsOwnedBy myOwner existingOwners = true) as Habs
        by (apply IsOwnedBy_UID; exists o; split; [exact Ho | congruence]).
      congruence.
  - intros reason executor acc resource u w w1 [Hget Howners] run. subst run.
    unfold client.calls, client.result.
    rewrite (deleteAppliedResource_live _ _ _ _ _ u w w1 Hget), Howners.
    split.
    + intros Hhas. apply IsOwnedBy_UID in Hhas. rewrite Hhas. simpl.
      destruct (client.validateDelete srv executor (gvrOf resource)
                  (Namespace resource) (Name resource) w1) as [verdict w2].
      exists verdict.
      destruct verdict as [e|]; [destruct (negb (IsForbidden (Some e)))|];
        try (destruct (removeOwnerOrDelete srv reason (ownerToRemove myOwner) acc
                         resource (gvrOf resource) u w2) as [[out w3] calls]);
        eexists; reflexivity.
    + intros Hnone.
      destruct (helper.IsOwnedBy myOwner existingOwners) eqn:Howned.
      * exfalso. apply Hnone, IsOwnedBy_UID, Howned.
      * simpl. split; reflexivity.
Qed.

Lemma MergeOwnerRefs_returns (owner : metav1.OwnerReference)
    (existing : list metav1.OwnerReference) :
  exists modified patched,
    resourcemerge.MergeOwnerRefs false existing [ownerToRemove owner]
    = Some (modified, patched).
Proof.
  simpl. unfold resourcemerge.mergeOwnerRef.
  cbn [metav1.UID ownerToRemove]. rewrite lastByte_dash.
  destruct (decide (resourcemerge.existedIndex (ownerToRemove owner) existing
                    = length existing)); simpl; eauto.
Qed.

(** With more than one owner the loop body ends in [ApplyOwnerReferences]:
    at most one patch, no delete, nothing added to the pending resources. *)
Lemma removeOwnerOrDelete_shared (reason : string) (owner : metav1.OwnerReference)
    (acc : progress) (resource : AppliedManifestResourceMeta)
    (gvr : schema.GroupVersionResource) (u : unstructured.Unstructured) (w : W) :
  1 < length (unstructured.OwnerReferences u) ->
  let run := removeOwnerOrDelete srv reason (ownerToRemove owner) acc resource gvr u in
  (forall c, c ∈ client.calls run w -> isDelete c = false) /\
  (exists errs, client.result run w = Returned (fst acc, errs)).
Proof.
  intros Hshared run. subst run.
  unfold client.calls, client.result, removeOwnerOrDelete.
  destruct acc as [pending errs].
  destruct (decide (1 < length (unstructured.OwnerReferences u)));
    [|contradiction].
  unfold client.bind, ApplyOwnerReferences.
  destruct (MergeOwnerRefs_returns owner (unstructured.OwnerReferences u))
    as (modified & patched & ->).
  destruct modified.
  - change (negb true) with false. cbv beta iota.
    unfold client.bind, client.Patch, client.request.
    match goal with |- context [client.patch srv ?g ?ns ?n ?t ?p w] =>
      destruct (client.patch srv g ns n t p w) as [answer w'] end.
    destruct answer; simpl; split; eauto;
      intros c Hc; apply list_elem_of_singleton in Hc; subst c; reflexivity.
  - simpl. split; eauto. intros c Hc. inversion Hc.
Qed.

(** C8 (as amended). Let the live object of a tracked resource have an
    owner reference [o] and at least one other owner reference. Whatever
    the server answers, no delete is issued for the resource and it is not
    added to the pending ones. If moreover [o] has the agent's UID and
    matches the agent's reference by name, kind and API group, no reference
    before it matching, and the delete validation answers nil or a
    forbidden error, then the calls for this resource are the get, the
    validation and one merge patch; the patch carries the object's UID and
    resource version and the owner references without [o], the others
    unchanged and in their order; and only a failure of the patch is added
    to the errors. *)
Theorem shared_owner_is_only_released (reason : string)
    (owner : metav1.OwnerReference)
    (executor : option workapiv1_executor.ManifestWorkExecutor)
    (acc : progress) (resource : AppliedManifestResourceMeta)
    (u : unstructured.Unstructured) (w w1 : W)
    (pre post : list metav1.OwnerReference) (o : metav1.OwnerReference) :
  client.get srv (gvrOf resource) (Namespace resource) (Name resource) w
    = (inr u, w1) ->
  unstructured.OwnerReferences u = pre ++ o :: post ->
  pre ++ post <> [] ->
  let run := deleteAppliedResource srv reason owner executor acc resource in
  (forall c, c ∈ client.calls run w -> isDelete c = false) /\
  (exists errs, client.result run w = Returned (fst acc, errs)) /\
  (forall verdict w2,
     metav1.UID o = metav1.UID owner /\
     resourcemerge.ownerRefMatched (ownerToRemove owner) o = true /\
     (forall x, x ∈ pre ->
        resourcemerge.ownerRefMatched (ownerToRemove owner) x = false) /\
     client.validateDelete srv executor (gvrOf resource)
       (Namespace resource) (Name resource) w1 = (verdict, w2) /\
     (verdict = None \/ IsForbidden verdict = true) ->
     exists answer,
       client.calls run w =
         [client.CallGet (gvrOf resource) (Namespace resource) (Name resource)
            (inr u);
          client.CallValidateDelete executor (gvrOf resource)
            (Namespace resource) (Name resource) verdict;
          client.CallPatch (gvrOf resource) (unstructured.Namespace u)
            (unstructured.Name u) client.MergePatchType
            {| client.PatchUID := unstructured.UID u;
               client.PatchResourceVersion := unstructured.ResourceVersion u;
               client.PatchOwnerReferences := pre ++ post |} answer]
       /\ client.result run w =
            Returned (fst acc,
                      snd acc ++
                      match answer with
                      | Some e => [wrapError (failedTo "remove owner from resource"
                                     (gvrOf resource) (Namespace resource)
                                     (Name resource)) e]
                      | None => []
                      end)).
Proof.
  intros Hget Howners Hothers run. subst run.
  assert (1 < length (unstructured.OwnerReferences u)) as Hshared.
  { rewrite Howners, length_app. simpl.
    destruct pre; [destruct post; [contradiction|simpl; lia]|simpl; lia]. }
  unfold client.calls, client.result.
  rewrite (deleteAppliedResource_live _ _ _ _ _ u w w1 Hget).
  split; [|split].
  - destruct (negb (helper.IsOwnedBy owner (unstructured.OwnerReferences u))).
    { intros c Hc. apply list_elem_of_singleton in Hc. subst c. reflexivity. }
    destruct (client.validateDelete srv executor (gvrOf resource)
                (Namespace resource) (Name resource) w1) as [verdict w2].
    pose proof (removeOwnerOrDelete_shared reason owner acc resource
                  (gvrOf resource) u w2 Hshared) as [Hnodelete _].
    unfold client.calls in Hnodelete.
    destruct verdict as [e|]; [destruct (negb (IsForbidden (Some e)))|];
      try (destruct (removeOwnerOrDelete srv reason (ownerToRemove owner) acc
                       resource (gvrOf resource) u w2) as [[out w3] calls]);
      cbn [snd] in *; intros c Hc;
      repeat (apply elem_of_cons in Hc as [->|Hc]; [reflexivity|]);
      try (inversion Hc; fail); apply Hnodelete, Hc.
  - destruct (negb (helper.IsOwnedBy owner (unstructured.OwnerReferences u))).
    { exists (snd acc). destruct acc; reflexivity. }
    destruct (client.validateDelete srv executor (gvrOf resource)
                (Namespace resource) (Name resource) w1) as [verdict w2].
    pose proof (removeOwnerOrDelete_shared reason owner acc resource
                  (gvrOf resource) u w2 Hshared) as [_ [errs Hresult]].
    unfold client.result in Hresult.
    destruct verdict as [e|]; [destruct (negb (IsForbidden (Some e)))|];
      try (destruct (removeOwnerOrDelete srv reason (ownerToRemove owner) acc
                       resource (gvrOf resource) u w2) as [[out w3] calls]);
      cbn [fst] in *; eauto.
  - intros verdict w2 (Huid & Hmatch & Hfirst & Hvalidate & Hverdict).
    assert (helper.IsOwnedBy owner (unstructured.OwnerReferences u) = true) as ->.
    { apply IsOwnedBy_UID. exists o. split; [|exact Huid].
      rewrite Howners. apply elem_of_app. right. left. }
    change (negb true) with false. cbv iota. rewrite Hvalidate.
    assert (removeOwnerOrDelete srv reason (ownerToRemove owner) acc resource
              (gvrOf resource) u w2 =
            let (answer, w3) :=
              client.patch srv (gvrOf resource) (unstructured.Namespace u)
                (unstructured.Name u) client.MergePatchType
                {| client.PatchUID := unstructured.UID u;
                   client.PatchResourceVersion := unstructured.ResourceVersion u;
                   client.PatchOwnerReferences := pre ++ post |} w2 in
            (Returned (fst acc,
                       snd acc ++
                       match answer with
                       | Some e => [wrapError (failedTo "remove owner from resource"
                                      (gvrOf resource) (Namespace resource)
                                      (Name resource)) e]
                       | None => []
                       end), w3,
             [client.CallPatch (gvrOf resource) (unstructured.Namespace u)
                (unstructured.Name u) client.MergePatchType
                {| client.PatchUID := unstructured.UID u;
                   client.PatchResourceVersion := unstructured.ResourceVersion u;
                   client.PatchOwnerReferences := pre ++ post |} answer])) as Hrest.
    { unfold removeOwnerOrDelete. destruct acc as [pending errs].
      destruct (decide (1 < length (unstructured.OwnerReferences u))) as [_|Hshort].
      2:{ exfalso. apply Hshort. rewrite Howners, length_app. simpl.
          destruct pre; [destruct post; [contradiction|simpl; lia]|simpl; lia]. }
      unfold client.bind, ApplyOwnerReferences. rewrite Howners.
      rewrite (MergeOwnerRefs_removes owner o pre post Hfirst Hmatch).
      unfold client.bind, client.Patch, client.request.
      change (negb true) with false. cbv beta iota.
      destruct (client.patch srv (gvrOf resource) (unstructured.Namespace u)
                  (unstructured.Name u) client.MergePatchType _ w2) as [answer w3].
      destruct answer; simpl; rewrite ?app_nil_r; reflexivity. }
    destruct Hverdict as [->|Hforbidden];
      [|destruct verdict as [e|];
        [rewrite Hforbidden; change (negb true) with false; cbv iota
        |discriminate]];
      rewrite Hrest;
      destruct (client.patch srv (gvrOf resource) (unstructured.Namespace u)
                  (unstructured.Name u) client.MergePatchType _ w2) as [answer w3];
      exists answer; split; reflexivity.
Qed.

End WithServer.

(** C10, on an instance: an owner list that has the agent's UID "a" under
    the name "n2". *)
Lemma ownership_is_decided_by_UID_witness :
  helper.IsOwnedBy (fixtures.ownerRef "n1" "a") [fixtures.ownerRef "n2" "a"] = true.
Proof.
  destruct (ownership_is_decided_by_UID (fixtures.gcServer [] None)
              (fixtures.ownerRef "n1" "a") [fixtures.ownerRef "n2" "a"])
    as ([_ Hif] & _).
  apply Hif.
  exists (fixtures.ownerRef "n2" "a"). split; [left | reflexivity].
Defined.

(** C8, on the instance of the test "skip with multiple owners": the secret
    is owned by the agent (n1, a) and by (n2, b); the patch leaves (n2, b). *)
Lemma shared_owner_is_only_released_witness :
  exists answer,
    client.calls
      (deleteAppliedResource
         (fixtures.gcServer
            [fixtures.newSecret "ns1" "n1" false "ns1-n1"
               [fixtures.ownerRef "n1" "a"; fixtures.ownerRef "n2" "b"]] None)
         "testing" (fixtures.ownerRef "n1" "a") None ([], [])
         (fixtures.appliedSecret "ns1" "n1" "ns1-n1")) tt
    = [client.CallGet fixtures.secrets "ns1" "n1"
         (inr (fixtures.newSecret "ns1" "n1" false "ns1-n1"
                 [fixtures.ownerRef "n1" "a"; fixtures.ownerRef "n2" "b"]));
       client.CallValidateDelete None fixtures.secrets "ns1" "n1" None;
       client.CallPatch fixtures.secrets "ns1" "n1" client.MergePatchType
         {| client.PatchUID := "ns1-n1";
            client.PatchResourceVersion := "";
            client.PatchOwnerReferences := [] ++ [fixtures.ownerRef "n2" "b"] |}
         answer]
    /\ client.result
         (deleteAppliedResource
            (fixtures.gcServer
               [fixtures.newSecret "ns1" "n1" false "ns1-n1"
                  [fixtures.ownerRef "n1" "a"; fixtures.ownerRef "n2" "b"]] None)
            "testing" (fixtures.ownerRef "n1" "a") None ([], [])
            (fixtures.appliedSecret "ns1" "n1" "ns1-n1")) tt
       = Returned ([], [] ++ match answer with
                             | Some e => [wrapError (failedTo "remove owner from resource"
                                            fixtures.secrets "ns1" "n1") e]
                             | None => []
                             end).
Proof.
  assert ([] ++ [fixtures.ownerRef "n2" "b"] <> []) as Hothers by discriminate.
  destruct (shared_owner_is_only_released
              (fixtures.gcServer
                 [fixtures.newSecret "ns1" "n1" false "ns1-n1"
                    [fixtures.ownerRef "n1" "a"; fixtures.ownerRef "n2" "b"]] None)
              "testing" (fixtures.ownerRef "n1" "a") None ([], [])
              (fixtures.appliedSecret "ns1" "n1" "ns1-n1")
              (fixtures.newSecret "ns1" "n1" false "ns1-n1"
                 [fixtures.ownerRef "n1" "a"; fixtures.ownerRef "n2" "b"])
              tt tt [] [fixtures.ownerRef "n2" "b"] (fixtures.ownerRef "n1" "a")
              eq_refl eq_refl Hothers) as (_ & _ & Hpatch).
  apply (Hpatch None tt).
  split; [reflexivity|]. split; [reflexivity|].
  split; [intros x Hx; inversion Hx|].
  split; [reflexivity | left; reflexivity].
Defined.

(** C8 as stated fails. First: the live secret is owned by the agent and by
    another owner, and the delete validation fails with a timeout; no patch
    is issued. Second: the agent's UID is on a reference of another name;
    the secret counts as owned, and no patch is issued either. *)
Lemma shared_owner_without_patch :
  filter (fun c => isPatch c = true)
    (client.calls
       (deleteAppliedResource
          (fixtures.gcServer
             [fixtures.newSecret "ns1" "n1" false "ns1-n1"
                [fixtures.ownerRef "n1" "a"; fixtures.ownerRef "n2" "b"]]
             (Some fixtures.timeout))
          "testing" (fixtures.ownerRef "n1" "a") (Some fixtures.executor) ([], [])
          (fixtures.appliedSecret "ns1" "n1" "ns1-n1")) tt) = []
  /\
  filter (fun c => isPatch c = true)
    (client.calls
       (deleteAppliedResource
          (fixtures.gcServer
             [fixtures.newSecret "ns1" "n1" false "ns1-n1"
                [fixtures.ownerRef "n3" "a"; fixtures.ownerRef "n2" "b"]] None)
          "testing" (fixtures.ownerRef "n1" "a") None ([], [])
          (fixtures.appliedSecret "ns1" "n1" "ns1-n1")) tt) = [].
Proof. split; vm_compute; reflexivity. Qed.

(** C2: the executor is refused the delete of a secret that only the agent
    owns, and the delete is issued all the same: the calls are the get, the
    refused validation, the delete with the UID precondition and the
    background policy, and the event; the secret ends among the resources
    pending finalization, and no error is returned. *)
Lemma forbidden_delete_is_still_issued :
  let run :=
    DeleteAppliedResources
      (fixtures.gcServer
         [fixtures.newSecret "ns1" "n1" false "ns1-n1" [fixtures.ownerRef "n1" "a"]]
         (Some fixtures.forbidden))
      [fixtures.appliedSecret "ns1" "n1" "ns1-n1"] "testing"
      (fixtures.ownerRef "n1" "a") (Some fixtures.executor) in
  client.calls run tt =
    [client.CallGet fixtures.secrets "ns1" "n1"
       (inr (fixtures.newSecret "ns1" "n1" false "ns1-n1"
               [fixtures.ownerRef "n1" "a"]));
     client.CallValidateDelete (Some fixtures.executor) fixtures.secrets
       "ns1" "n1" (Some fixtures.forbidden);
     client.CallDelete fixtures.secrets "ns1" "n1"
       {| client.PreconditionUID := Some "ns1-n1";
          client.PropagationPolicy := Some "Background" |} None;
     client.CallEvent "ResourceDeleted" fixtures.secrets "ns1" "n1" "testing"]
  /\ client.result run tt
     = Returned ([fixtures.appliedSecret "ns1" "n1" "ns1-n1"], []).
Proof. split; vm_compute; reflexivity. Qed.

End gc_facts.

(** ** The repository's test tables, run on the model *)

Module test_tables.
Import metav1 workapiv1 fixtures.

(** [TestMergeStatusConditions], "merge status condition". The test does
    not compare the transition times it left zero; here they are the two
    readings of the clock. *)
Example merge_status_condition :
  fst (helper.MergeStatusConditions wall [one_true] [one_false; two_true] 0)
  = [withLastTransitionTime one_false 1000%Z;
     withLastTransitionTime two_true 1001%Z].
Proof. vm_compute. reflexivity. Qed.

(** [TestMergeStatusConditions], "remove old status condition": the table
    expects both "one", with its old time, and "two". *)
Example remove_old_status_condition :
  fst (helper.MergeStatusConditions wall [one_false_stamped; two_true] [one_false] 0)
  = [one_false_stamped; two_true].
Proof. vm_compute. reflexivity. Qed.

(** [TestMergeManifestConditions], "merge new": the merged record has the
    old condition "one" and the new condition "two". *)
Example merge_new :
  map (fun r => map Type_ (Conditions r))
    (fst (helper.MergeManifestConditions wall
            [newManifestCondition 0 "resource1" [one_true]]
            [newManifestCondition 0 "resource1" [two_false]] 0))
  = [["one"; "two"]].
Proof. vm_compute. reflexivity. Qed.

(** [TestMergeManifestConditions], "remove useless": the record of
    resource2 moved from the ordinal 1 to 0 and keeps its time; the record
    of resource1 is gone. *)
Example remove_useless :
  fst (helper.MergeManifestConditions wall
         [newManifestCondition 0 "resource1" [one_true];
          newManifestCondition 1 "resource2"
            [newCondition "two" "True" "my-reason" "my-message" (Some transitionTime)]]
         [newManifestCondition 0 "resource2" [two_true]] 0)
  = [newManifestCondition 0 "resource2"
       [newCondition "two" "True" "my-reason" "my-message" (Some transitionTime)]].
Proof. vm_compute. reflexivity. Qed.

(** [TestApplyOwnerReferences]: the five rows, as the owner references to
    patch, or no patch. *)
Example apply_owner_references :
  resourcemerge.MergeOwnerRefs false [] [ownerRef "n1" "a"]
    = Some (true, [ownerRef "n1" "a"]) /\
  resourcemerge.MergeOwnerRefs false [ownerRef "n2" "b"] [ownerRef "n1" "a"]
    = Some (true, [ownerRef "n2" "b"; ownerRef "n1" "a"]) /\
  resourcemerge.MergeOwnerRefs false [ownerRef "n2" "b"; ownerRef "n1" "a"]
    [ownerRef "n1" "a-"]
    = Some (true, [ownerRef "n2" "b"]) /\
  resourcemerge.MergeOwnerRefs false [ownerRef "n2" "b"; ownerRef "n1" "a"]
    [ownerRef "n3" "c-"]
    = Some (false, [ownerRef "n2" "b"; ownerRef "n1" "a"]) /\
  resourcemerge.MergeOwnerRefs false [ownerRef "n2" "b"; ownerRef "n1" "a"]
    [ownerRef "n1" "a"]
    = Some (false, [ownerRef "n2" "b"; ownerRef "n1" "a"]).
Proof. repeat split; vm_compute; reflexivity. Qed.

(** [TestDeleteAppliedResourcess], with a nil executor: the resources
    pending finalization of the rows "skip if resource have different
    uid", "delete resources", "skip without uid" and "skip with multiple
    owners". *)
Example delete_applied_resources :
  client.result
    (spoke_helper.DeleteAppliedResources
       (gcServer [newSecret "ns1" "n1" false "ns1-n1-xxx" [ownerRef "n1" "a"];
                  newSecret "ns2" "n2" true "ns2-n2-xxx" [ownerRef "n1" "a"]] None)
       [appliedSecret "ns1" "n1" "ns1-n1"; appliedSecret "ns2" "n2" "ns2-n2"]
       "testing" (ownerRef "n1" "a") None) tt
    = spoke_helper.Returned ([], []) /\
  client.result
    (spoke_helper.DeleteAppliedResources
       (gcServer [newSecret "ns1" "n1" false "ns1-n1" [ownerRef "n1" "a"];
                  newSecret "ns2" "n2" false "ns2-n2" [ownerRef "n2" "b"]] None)
       [appliedSecret "ns1" "n1" "ns1-n1"; appliedSecret "ns2" "n2" "ns2-n2"]
       "testing" (ownerRef "n1" "a") None) tt
    = spoke_helper.Returned ([appliedSecret "ns1" "n1" "ns1-n1"], []) /\
  client.result
    (spoke_helper.DeleteAppliedResources
       (gcServer [newSecret "ns1" "n1" false "ns1-n1" [ownerRef "n1" "a"];
                  newSecret "ns2" "n2" true "ns2-n2" [ownerRef "n1" "a"]] None)
       [appliedSecret "ns1" "n1" ""; appliedSecret "ns2" "n2" "ns2-n2"]
       "testing" (ownerRef "n1" "a") None) tt
    = spoke_helper.Returned ([appliedSecret "ns2" "n2" "ns2-n2"], []) /\
  client.result
    (spoke_helper.DeleteAppliedResources
       (gcServer [newSecret "ns1" "n1" false "ns1-n1"
                    [ownerRef "n1" "a"; ownerRef "n2" "b"]] None)
       [appliedSecret "ns1" "n1" "ns1-n1"; appliedSecret "ns2" "n2" "ns2-n2"]
       "testing" (ownerRef "n1" "a") None) tt
    = spoke_helper.Returned ([], []).
Proof. repeat split; vm_compute; reflexivity. Qed.

End test_tables.

(** ** More on [MergeManifestConditions] *)

Module manifest_merge_more.
Import metav1 workapiv1 helper merge_view merge_view_more.
Import merge_facts index_facts manifest_merge_facts.

Local Abbreviation key c := (resetOrdinal (ResourceMeta c)).

Lemma identity_step_other (ix : indices) (c : ManifestCondition)
    (k : ManifestResourceMeta) :
  key c <> k ->
  metaWithoutOridinalIndex (indexCondition ix c) !! k
    = metaWithoutOridinalIndex ix !! k /\
  (k ∈ duplicated (indexCondition ix c) -> k ∈ duplicated ix).
Proof.
  intros Hne. unfold indexCondition.
  destruct (decide (key c <> zeroMeta)); [|split; [reflexivity|auto]].
  destruct (metaWithoutOridinalIndex ix !! key c); simpl.
  - split; [reflexivity|]. intros Hin.
    apply elem_of_app in Hin as [Hin|Hin]; [exact Hin|].
    apply list_elem_of_singleton in Hin. congruence.
  - split; [apply lookup_insert_ne; exact Hne | auto].
Qed.

Lemma identity_fold_other (l : list ManifestCondition) (ix : indices)
    (k : ManifestResourceMeta) :
  (forall e, e ∈ l -> key e <> k) ->
  metaWithoutOridinalIndex (fold_left indexCondition l ix) !! k
    = metaWithoutOridinalIndex ix !! k /\
  (k ∈ duplicated (fold_left indexCondition l ix) -> k ∈ duplicated ix).
Proof.
  revert ix. induction l as [|a l IH]; intros ix Hother; simpl; [auto|].
  destruct (IH (indexCondition ix a)) as [Hwo Hdup];
    [intros e He; apply Hother; right; exact He|].
  destruct (identity_step_other ix a k) as [Hwo' Hdup']; [apply Hother; left|].
  split; [congruence | auto].
Qed.

Lemma removeDuplicated_other (dups : list ManifestResourceMeta)
    (m : gmap ManifestResourceMeta ManifestCondition) (k : ManifestResourceMeta) :
  k ∉ dups -> removeDuplicated m dups !! k = m !! k.
Proof.
  unfold removeDuplicated. revert m.
  induction dups as [|d dups IH]; intros m Hno; simpl; [reflexivity|].
  apply not_elem_of_cons in Hno as [Hne Hno].
  rewrite IH by exact Hno. apply lookup_delete_ne. congruence.
Qed.

(** An identity no existing record has is in neither index. *)
Lemma unknown_identity_unmatched (existing : list ManifestCondition)
    (f : ManifestCondition) :
  (forall e, e ∈ existing -> key e <> key f) ->
  matchCondition (metaIndex (buildIndices existing)) (identityIndex existing) f
  = None.
Proof.
  intros Hother. unfold matchCondition.
  rewrite exact_miss by (intros e He Heq; apply (Hother e He); congruence).
  unfold identityIndex. apply removeDuplicated_None.
  unfold buildIndices.
  destruct (identity_fold_other existing noIndices (key f) Hother) as [-> _].
  apply lookup_empty.
Qed.

(** An identity exactly one existing record has is indexed to it. *)
Lemma unique_identity_indexed (l1 l2 : list ManifestCondition)
    (r : ManifestCondition) :
  key r <> zeroMeta ->
  (forall e, e ∈ l1 ++ l2 -> key e <> key r) ->
  identityIndex (l1 ++ r :: l2) !! key r = Some r.
Proof.
  intros Hnz Hother. unfold identityIndex, buildIndices.
  rewrite fold_left_app. simpl.
  destruct (identity_fold_other l1 noIndices (key r)) as [Hwo1 Hdup1];
    [intros e He; apply Hother, elem_of_app; left; exact He|].
  set (ix1 := fold_left indexCondition l1 noIndices) in *.
  assert (metaWithoutOridinalIndex (indexCondition ix1 r) !! key r = Some r
          /\ (key r ∈ duplicated (indexCondition ix1 r) -> False)) as [Hwo Hdup].
  { unfold indexCondition.
    destruct (decide (key r <> zeroMeta)); [|contradiction].
    rewrite Hwo1. cbn [noIndices metaWithoutOridinalIndex].
    rewrite lookup_empty. simpl.
    split; [apply lookup_insert_eq|].
    intros Hin. apply Hdup1 in Hin. simpl in Hin. inversion Hin. }
  destruct (identity_fold_other l2 (indexCondition ix1 r) (key r)) as [Hwo2 Hdup2];
    [intros e He; apply Hother, elem_of_app; right; exact He|].
  rewrite removeDuplicated_other; [congruence|].
  intros Hin. apply Hdup, Hdup2, Hin.
Qed.

Section WithClock.
Variable wall : nat -> Time.

Lemma mergeConditions_metas
    (bm bi : gmap ManifestResourceMeta ManifestCondition)
    (news acc : list ManifestCondition) (k : nat) :
  map ResourceMeta (fst (mergeConditions wall bm bi acc news k))
  = map ResourceMeta acc ++ map ResourceMeta news.
Proof.
  revert acc k. induction news as [|c news IH]; intros acc k; simpl.
  - rewrite app_nil_r. reflexivity.
  - destruct (matchCondition bm bi c) as [old|]; unfold St.bind.
    + rewrite mergeManifestCondition_run, IH, map_app, <- app_assoc. reflexivity.
    + rewrite stampConditions_run, IH, map_app, <- app_assoc. reflexivity.
Qed.

(** X1. The output of the merge has one record per new record, in the
    order of the new records, each under the resource meta of its new
    record. *)
Theorem merged_metas_follow_fresh (existing fresh : list ManifestCondition)
    (k : nat) :
  map ResourceMeta (fst (MergeManifestConditions wall existing fresh k))
  = map ResourceMeta fresh.
Proof. unfold MergeManifestConditions. apply mergeConditions_metas. Qed.

(** The record the third loop puts out for the new record at a given
    place. *)
Lemma mergeConditions_at
    (bm bi : gmap ManifestResourceMeta ManifestCondition)
    (pre post : list ManifestCondition) (f : ManifestCondition) (k : nat) :
  exists k', k <= k' /\
    fst (mergeConditions wall bm bi [] (pre ++ f :: post) k) !! length pre
    = Some match matchCondition bm bi f with
           | Some r => fst (mergeManifestCondition wall r f k')
           | None => {| ResourceMeta := ResourceMeta f;
                        StatusFeedbacks := StatusFeedbacks f;
                        Conditions := stamped wall k' (Conditions f) |}
           end.
Proof.
  rewrite mergeConditions_app.
  destruct (mergeConditions_appends wall bm bi pre [] k) as (res & Hres & Hlen & Hk).
  simpl in Hres. rewrite Hres.
  set (k1 := snd (mergeConditions wall bm bi [] pre k)) in *.
  exists k1. split; [exact Hk|]. simpl.
  destruct (matchCondition bm bi f) as [r|]; unfold St.bind.
  - destruct (mergeManifestCondition wall r f k1) as [m k2] eqn:Hm.
    match goal with |- context [mergeConditions wall bm bi ?acc post ?k'] =>
      destruct (mergeConditions_appends wall bm bi post acc k')
        as (res' & Hres' & _ & _) end.
    rewrite Hres', <- app_assoc, <- Hlen. simpl.
    apply list_lookup_middle. reflexivity.
  - rewrite stampConditions_run.
    match goal with |- context [mergeConditions wall bm bi ?acc post ?k'] =>
      destruct (mergeConditions_appends wall bm bi post acc k')
        as (res' & Hres' & _ & _) end.
    rewrite Hres', <- app_assoc, <- Hlen. simpl.
    apply list_lookup_middle. reflexivity.
Qed.

(** X2. A new record whose full resource meta an existing record has is
    merged with that record: the output at its place has the meta of the
    new record, the feedbacks of the existing one and the merged
    conditions. (The metas of the existing list are all different.) *)
Theorem exact_match_is_merged (existing pre post : list ManifestCondition)
    (r f : ManifestCondition) (k : nat) :
  NoDup (map ResourceMeta existing) ->
  r ∈ existing ->
  ResourceMeta f = ResourceMeta r ->
  exists k', k <= k' /\
    fst (MergeManifestConditions wall existing (pre ++ f :: post) k) !! length pre
    = Some {| ResourceMeta := ResourceMeta f;
              StatusFeedbacks := StatusFeedbacks r;
              Conditions := fst (MergeStatusConditions wall (Conditions r)
                                   (Conditions f) k') |}.
Proof.
  intros Hnd Hr Hmeta. unfold MergeManifestConditions.
  destruct (mergeConditions_at (metaIndex (buildIndices existing))
              (removeDuplicated (metaWithoutOridinalIndex (buildIndices existing))
                 (duplicated (buildIndices existing))) pre post f k)
    as (k' & Hk & Hat).
  exists k'. split; [exact Hk|]. rewrite Hat. f_equal.
  assert (matchCondition (metaIndex (buildIndices existing))
            (removeDuplicated (metaWithoutOridinalIndex (buildIndices existing))
               (duplicated (buildIndices existing))) f = Some r) as ->.
  { unfold matchCondition. rewrite Hmeta. unfold buildIndices at 1.
    rewrite (metaIndex_fold_hit existing noIndices r Hnd Hr). reflexivity. }
  rewrite mergeManifestCondition_run. reflexivity.
Qed.

(** X3. A new record that moved to another ordinal is still merged with
    the one existing record of its identity: when no existing record has
    its full resource meta and exactly one existing record has its identity
    without ordinal (not the zero identity), the output at its place has
    the meta of the new record, the feedbacks of that existing record and
    the merged conditions. *)
Theorem moved_record_is_merged (l1 l2 pre post : list ManifestCondition)
    (r f : ManifestCondition) (k : nat) :
  resetOrdinal (ResourceMeta f) = resetOrdinal (ResourceMeta r) ->
  resetOrdinal (ResourceMeta r) <> zeroMeta ->
  (forall e, e ∈ l1 ++ l2 ->
     resetOrdinal (ResourceMeta e) <> resetOrdinal (ResourceMeta r)) ->
  ResourceMeta f <> ResourceMeta r ->
  exists k', k <= k' /\
    fst (MergeManifestConditions wall (l1 ++ r :: l2) (pre ++ f :: post) k)
      !! length pre
    = Some {| ResourceMeta := ResourceMeta f;
              StatusFeedbacks := StatusFeedbacks r;
              Conditions := fst (MergeStatusConditions wall (Conditions r)
                                   (Conditions f) k') |}.
Proof.
  intros Hkey Hnz Hother Hmoved. unfold MergeManifestConditions.
  fold (identityIndex (l1 ++ r :: l2)).
  destruct (mergeConditions_at (metaIndex (buildIndices (l1 ++ r :: l2)))
              (identityIndex (l1 ++ r :: l2)) pre post f k) as (k' & Hk & Hat).
  exists k'. split; [exact Hk|]. rewrite Hat. f_equal.
  assert (matchCondition (metaIndex (buildIndices (l1 ++ r :: l2)))
            (identityIndex (l1 ++ r :: l2)) f = Some r) as ->.
  { unfold matchCondition. rewrite exact_miss.
    - rewrite Hkey. apply (unique_identity_indexed l1 l2 r Hnz Hother).
    - intros e He Heq.
      apply elem_of_app in He as [He|He].
      + apply (Hother e); [apply elem_of_app; left; exact He | congruence].
      + apply elem_of_cons in He as [->|He]; [congruence|].
        apply (Hother e); [apply elem_of_app; right; exact He | congruence]. }
  rewrite mergeManifestCondition_run. reflexivity.
Qed.

(** X4. The zero identity is never matched without ordinal: a new record
    whose group, version, kind, resource, name and namespace are all empty,
    and whose full resource meta no existing record has, comes out as a
    brand-new record, even when a single existing record has the zero
    identity too. *)
Theorem zero_identity_is_never_matched (existing pre post : list ManifestCondition)
    (f : ManifestCondition) (k : nat) :
  resetOrdinal (ResourceMeta f) = zeroMeta ->
  (forall e, e ∈ existing -> ResourceMeta e <> ResourceMeta f) ->
  exists k', k <= k' /\
    fst (MergeManifestConditions wall existing (pre ++ f :: post) k) !! length pre
    = Some {| ResourceMeta := ResourceMeta f;
              StatusFeedbacks := StatusFeedbacks f;
              Conditions := stamped wall k' (Conditions f) |}.
Proof.
  intros Hzero Hmiss. unfold MergeManifestConditions.
  fold (identityIndex existing).
  destruct (mergeConditions_at (metaIndex (buildIndices existing))
              (identityIndex existing) pre post f k) as (k' & Hk & Hat).
  exists k'. split; [exact Hk|]. rewrite Hat. f_equal.
  assert (matchCondition (metaIndex (buildIndices existing))
            (identityIndex existing) f = None) as ->; [|reflexivity].
  unfold matchCondition. rewrite (exact_miss existing _ Hmiss), Hzero.
  unfold identityIndex. apply removeDuplicated_None.
  apply zero_never_indexed. apply lookup_empty.
Qed.

Lemma mergeConditions_unmatched
    (bm bi : gmap ManifestResourceMeta ManifestCondition)
    (fresh acc : list ManifestCondition) (k : nat) :
  (forall f, f ∈ fresh -> matchCondition bm bi f = None) ->
  mergeConditions wall bm bi acc fresh k
  = (acc ++ brandNew wall k fresh, k + conditionCount fresh).
Proof.
  revert acc k. induction fresh as [|f fresh IH]; intros acc k Hnone; simpl.
  - rewrite app_nil_r. unfold Clock.ret, St.ret, conditionCount. simpl.
    f_equal. lia.
  - rewrite Hnone by left. unfold St.bind. rewrite stampConditions_run.
    rewrite IH by (intros x Hx; apply Hnone; right; exact Hx).
    rewrite <- app_assoc. simpl. unfold conditionCount. simpl.
    f_equal. lia.
Qed.

(** X5. When no existing record has the identity of any new record (in
    particular when there is no existing record at all), the merge is the
    list of new records with every condition stamped by the next reading of
    the clock, one reading per condition. *)
Theorem unrelated_records_are_brand_new (existing fresh : list ManifestCondition)
    (k : nat) :
  (forall e f, e ∈ existing -> f ∈ fresh ->
     resetOrdinal (ResourceMeta e) <> resetOrdinal (ResourceMeta f)) ->
  MergeManifestConditions wall existing fresh k
  = (brandNew wall k fresh, k + conditionCount fresh).
Proof.
  intros Hunrelated. unfold MergeManifestConditions.
  fold (identityIndex existing).
  rewrite mergeConditions_unmatched; [reflexivity|].
  intros f Hf. apply unknown_identity_unmatched.
  intros e He. apply Hunrelated; assumption.
Qed.

(** *** [MergeStatusConditions] *)

Lemma upsert_types_eq (now : Time) (cs : list Condition) (c : Condition) :
  types (upsert now cs c)
  = if decide (Type_ c ∈ types cs) then types cs else types cs ++ [Type_ c].
Proof.
  unfold types. induction cs as [|e cs IH]; simpl.
  - destruct (decide (Type_ c ∈ [])) as [Hin|_]; [inversion Hin|reflexivity].
  - destruct (decide (Type_ e = Type_ c)) as [Heq|Hne]; simpl.
    + assert (Type_ (settle now e c) = Type_ e) as ->
        by (unfold settle; destruct (decide (Status e <> Status c)); reflexivity).
      destruct (decide (Type_ c ∈ Type_ e :: map Type_ cs)) as [_|Hno];
        [reflexivity|].
      exfalso. apply Hno. rewrite Heq. left.
    + rewrite IH.
      destruct (decide (Type_ c ∈ map Type_ cs)) as [Hin|Hno];
        destruct (decide (Type_ c ∈ Type_ e :: map Type_ cs)) as [Hin'|Hno'];
        try reflexivity.
      * exfalso. apply Hno'. right. exact Hin.
      * exfalso. apply elem_of_cons in Hin' as [Heq|Hin']; [congruence|auto].
Qed.

Lemma setStatusConditions_names (news merged : list Condition) (k : nat) :
  NoDup (types merged) ->
  NoDup (types (fst (setStatusConditions wall merged news k))) /\
  types merged `prefix_of` types (fst (setStatusConditions wall merged news k)).
Proof.
  revert merged k. induction news as [|c news IH]; intros merged k Hnd.
  - simpl. split; [exact Hnd | reflexivity].
  - rewrite setStatusConditions_cons.
    assert (NoDup (types (upsert (wall k) merged c)) /\
            types merged `prefix_of` types (upsert (wall k) merged c)) as [Hnd' Hpre].
    { rewrite upsert_types_eq.
      destruct (decide (Type_ c ∈ types merged)) as [Hin|Hno].
      - split; [exact Hnd | reflexivity].
      - split; [|apply prefix_app_r; reflexivity].
        apply NoDup_app. split; [exact Hnd|]. split; [|apply NoDup_singleton].
        intros x Hx Hx'. apply list_elem_of_singleton in Hx'. subst x. auto. }
    destruct (IH (upsert (wall k) merged c)
                 (snd (meta.SetStatusCondition wall merged c k)) Hnd')
      as [Hnd'' Hpre'].
    split; [exact Hnd''|]. etrans; eassumption.
Qed.

(** X6. [MergeStatusConditions] keeps the names of the existing conditions
    in their places and keeps names unique: when the existing names are all
    different, so are the names of the result, and the existing names are
    an initial part of them, whatever the new conditions are. *)
Theorem merged_names_stay_unique (conditions newConditions : list Condition)
    (k : nat) :
  NoDup (types conditions) ->
  NoDup (types (fst (MergeStatusConditions wall conditions newConditions k))) /\
  types conditions `prefix_of`
    types (fst (MergeStatusConditions wall conditions newConditions k)).
Proof. intros Hnd. apply setStatusConditions_names. exact Hnd. Qed.

Lemma setStatusConditions_untouched (news merged : list Condition) (k : nat)
    (n : string) :
  n ∉ types news ->
  meta.FindStatusCondition (fst (setStatusConditions wall merged news k)) n
  = meta.FindStatusCondition merged n.
Proof.
  revert merged k. induction news as [|c news IH]; intros merged k Hno;
    [reflexivity|].
  change (types (c :: news)) with (Type_ c :: types news) in Hno.
  apply not_elem_of_cons in Hno as [Hne Hno].
  rewrite setStatusConditions_cons, IH by exact Hno.
  apply upsert_find_other. congruence.
Qed.

Lemma setStatusConditions_settled (news merged : list Condition) (k : nat)
    (i : nat) (e cn : Condition) :
  NoDup (types news) -> cn ∈ news ->
  meta.FindStatusCondition merged (Type_ cn) = Some (i, e) ->
  exists j, k <= j /\
    meta.FindStatusCondition (fst (setStatusConditions wall merged news k)) (Type_ cn)
    = Some (i, settle (wall j) e cn).
Proof.
  revert merged k. induction news as [|c news IH]; intros merged k Hnd Hin Hfind;
    [inversion Hin|].
  change (types (c :: news)) with (Type_ c :: types news) in Hnd.
  apply NoDup_cons in Hnd as [Hfresh Hnd].
  rewrite setStatusConditions_cons.
  apply elem_of_cons in Hin as [->|Hin].
  - exists k. split; [lia|].
    rewrite setStatusConditions_untouched by exact Hfresh.
    apply upsert_find_same. exact Hfind.
  - assert (Type_ c <> Type_ cn) as Hne.
    { intros Heq. apply Hfresh. rewrite Heq.
      apply list_elem_of_fmap. exists cn. split; [reflexivity | exact Hin]. }
    destruct (IH (upsert (wall k) merged c)
                 (snd (meta.SetStatusCondition wall merged c k)) Hnd Hin)
      as (j & Hj & Hres).
    { rewrite upsert_find_other by exact Hne. exact Hfind. }
    exists j. split; [|exact Hres].
    pose proof (SetStatusCondition_clock wall merged c k). lia.
Qed.

(** X7. For a name both lists have (the new names all different), the
    merged condition stands where the existing one stood and always takes
    the reason, the message and the observed generation of the new one;
    when the status differs it takes the new status, and as transition time
    the one of the new condition, or a reading of the clock when that one
    is zero. *)
Theorem fresh_condition_is_taken (conditions newConditions : list Condition)
    (k i : nat) (co cn : Condition) :
  NoDup (types newConditions) -> cn ∈ newConditions ->
  meta.FindStatusCondition conditions (Type_ cn) = Some (i, co) ->
  exists c,
    meta.FindStatusCondition
      (fst (MergeStatusConditions wall conditions newConditions k)) (Type_ cn)
    = Some (i, c)
    /\ Reason c = Reason cn /\ Message c = Message cn
    /\ ObservedGeneration c = ObservedGeneration cn
    /\ (Status cn <> Status co ->
        Status c = Status cn /\
        (IsZero (LastTransitionTime cn) = false ->
           LastTransitionTime c = LastTransitionTime cn) /\
        (IsZero (LastTransitionTime cn) = true ->
           exists j, k <= j /\ LastTransitionTime c = wall j)).
Proof.
  intros Hnd Hin Hfind.
  destruct (setStatusConditions_settled newConditions conditions k i co cn
              Hnd Hin Hfind) as (j & Hj & Hres).
  exists (settle (wall j) co cn). split; [exact Hres|].
  unfold settle.
  destruct (decide (Status co <> Status cn)) as [Hflip|Hsame]; simpl.
  - split; [reflexivity|]. split; [reflexivity|]. split; [reflexivity|].
    intros _. split; [reflexivity|]. split.
    + intros ->. reflexivity.
    + intros ->. exists j. split; [exact Hj | reflexivity].
  - split; [reflexivity|]. split; [reflexivity|]. split; [reflexivity|].
    intros Hne. exfalso. apply Hsame. congruence.
Qed.

Lemma upsert_length (now : Time) (cs : list Condition) (c : Condition) :
  length cs <= length (upsert now cs c).
Proof.
  induction cs as [|e cs IH]; simpl; [lia|].
  destruct (decide (Type_ e = Type_ c)); simpl; lia.
Qed.

Lemma upsert_find_new (now : Time) (cs : list Condition) (c : Condition) :
  meta.FindStatusCondition cs (Type_ c) = None ->
  meta.FindStatusCondition (upsert now cs c) (Type_ c)
  = Some (length cs,
          withLastTransitionTime c
            (if IsZero (LastTransitionTime c) then now else LastTransitionTime c)).
Proof.
  induction cs as [|e cs IH]; simpl upsert.
  - intros _. rewrite FindStatusCondition_cons. simpl.
    destruct (decide (Type_ c = Type_ c)); [reflexivity|contradiction].
  - rewrite FindStatusCondition_cons.
    destruct (decide (Type_ e = Type_ c)) as [Heq|Hne]; [discriminate|].
    destruct (meta.FindStatusCondition cs (Type_ c)) as [[j y]|] eqn:Hf;
      [discriminate|].
    intros _. rewrite FindStatusCondition_cons.
    destruct (decide (Type_ e = Type_ c)); [contradiction|].
    rewrite IH by reflexivity. reflexivity.
Qed.

Lemma setStatusConditions_added (news merged : list Condition) (k : nat)
    (cn : Condition) :
  NoDup (types news) -> cn ∈ news ->
  meta.FindStatusCondition merged (Type_ cn) = None ->
  exists i j, length merged <= i /\ k <= j /\
    meta.FindStatusCondition (fst (setStatusConditions wall merged news k)) (Type_ cn)
    = Some (i, withLastTransitionTime cn
                 (if IsZero (LastTransitionTime cn) then wall j
                  else LastTransitionTime cn)).
Proof.
  revert merged k. induction news as [|c news IH]; intros merged k Hnd Hin Hfind;
    [inversion Hin|].
  change (types (c :: news)) with (Type_ c :: types news) in Hnd.
  apply NoDup_cons in Hnd as [Hfresh Hnd].
  rewrite setStatusConditions_cons.
  apply elem_of_cons in Hin as [->|Hin].
  - exists (length merged), k. split; [lia|]. split; [lia|].
    rewrite setStatusConditions_untouched by exact Hfresh.
    apply upsert_find_new. exact Hfind.
  - assert (Type_ c <> Type_ cn) as Hne.
    { intros Heq. apply Hfresh. rewrite Heq.
      apply list_elem_of_fmap. exists cn. split; [reflexivity | exact Hin]. }
    destruct (IH (upsert (wall k) merged c)
                 (snd (meta.SetStatusCondition wall merged c k)) Hnd Hin)
      as (i & j & Hi & Hj & Hres).
    { rewrite upsert_find_other by exact Hne. exact Hfind. }
    exists i, j.
    pose proof (upsert_length (wall k) merged c).
    pose proof (SetStatusCondition_clock wall merged c k).
    split; [lia|]. split; [lia | exact Hres].
Qed.

(** X8. A new condition under a name the existing list does not have (the
    new names all different) is appended after the existing conditions,
    with all its fields; its transition time is kept when it is not zero
    and is a reading of the clock otherwise. *)
Theorem new_condition_is_appended (conditions newConditions : list Condition)
    (k : nat) (cn : Condition) :
  NoDup (types newConditions) -> cn ∈ newConditions ->
  Type_ cn ∉ types conditions ->
  exists i j, length conditions <= i /\ k <= j /\
    meta.FindStatusCondition
      (fst (MergeStatusConditions wall conditions newConditions k)) (Type_ cn)
    = Some (i, withLastTransitionTime cn
                 (if IsZero (LastTransitionTime cn) then wall j
                  else LastTransitionTime cn)).
Proof.
  intros Hnd Hin Hnew.
  apply setStatusConditions_added; try assumption.
  apply list_find_None. apply Forall_forall. intros x Hx Heq.
  apply Hnew. rewrite <- Heq. apply list_elem_of_fmap.
  exists x. split; [reflexivity | exact Hx].
Qed.

End WithClock.

(** X2, on the matched pair of the test "remove old status condition". *)
Lemma exact_match_is_merged_witness :
  exists k', 0 <= k' /\
    fst (MergeManifestConditions fixtures.wall [fixtures.existing_one_two]
           ([] ++ fixtures.fresh_one :: []) 0) !! 0
    = Some {| ResourceMeta := ResourceMeta fixtures.fresh_one;
              StatusFeedbacks := StatusFeedbacks fixtures.existing_one_two;
              Conditions :=
                fst (MergeStatusConditions fixtures.wall
                       (Conditions fixtures.existing_one_two)
                       (Conditions fixtures.fresh_one) k') |}.
Proof.
  apply (exact_match_is_merged fixtures.wall [fixtures.existing_one_two] [] []
           fixtures.existing_one_two fixtures.fresh_one 0).
  - apply NoDup_singleton.
  - left.
  - reflexivity.
Defined.

(** X3, on the rows of the test "remove useless": resource2 moved from the
    ordinal 1 to the ordinal 0. *)
Lemma moved_record_is_merged_witness :
  exists k', 0 <= k' /\
    fst (MergeManifestConditions fixtures.wall
           ([fixtures.newManifestCondition 0 "resource1" [fixtures.one_true]]
            ++ fixtures.newManifestCondition 1 "resource2" [fixtures.two_true] :: [])
           ([] ++ fixtures.newManifestCondition 0 "resource2" [fixtures.two_true]
               :: []) 0) !! 0
    = Some {| ResourceMeta :=
                ResourceMeta (fixtures.newManifestCondition 0 "resource2"
                                [fixtures.two_true]);
              StatusFeedbacks :=
                StatusFeedbacks (fixtures.newManifestCondition 1 "resource2"
                                   [fixtures.two_true]);
              Conditions :=
                fst (MergeStatusConditions fixtures.wall
                       [fixtures.two_true] [fixtures.two_true] k') |}.
Proof.
  apply (moved_record_is_merged fixtures.wall
           [fixtures.newManifestCondition 0 "resource1" [fixtures.one_true]] []
           [] []
           (fixtures.newManifestCondition 1 "resource2" [fixtures.two_true])
           (fixtures.newManifestCondition 0 "resource2" [fixtures.two_true]) 0).
  - reflexivity.
  - discriminate.
  - intros e He. apply list_elem_of_singleton in He. subst e. discriminate.
  - discriminate.
Defined.

(** X4, on an instance: one existing record and one new record, both
    without any identity, at the ordinals 1 and 2. *)
Lemma zero_identity_is_never_matched_witness :
  exists k', 0 <= k' /\
    fst (MergeManifestConditions fixtures.wall
           [fixtures.newManifestCondition 1 "" [fixtures.one_true]]
           ([] ++ fixtures.newManifestCondition 2 "" [fixtures.one_false] :: [])
           0) !! 0
    = Some {| ResourceMeta :=
                ResourceMeta (fixtures.newManifestCondition 2 "" [fixtures.one_false]);
              StatusFeedbacks := [];
              Conditions := stamped fixtures.wall k' [fixtures.one_false] |}.
Proof.
  apply (zero_identity_is_never_matched fixtures.wall
           [fixtures.newManifestCondition 1 "" [fixtures.one_true]] [] []
           (fixtures.newManifestCondition 2 "" [fixtures.one_false]) 0).
  - reflexivity.
  - intros e He. apply list_elem_of_singleton in He. subst e. discriminate.
Defined.

(** X5, on the row "add to empty" of the tests. *)
Lemma unrelated_records_are_brand_new_witness :
  MergeManifestConditions fixtures.wall []
    [fixtures.newManifestCondition 0 "resource1" [fixtures.one_true]] 0
  = (brandNew fixtures.wall 0
       [fixtures.newManifestCondition 0 "resource1" [fixtures.one_true]],
     0 + conditionCount
           [fixtures.newManifestCondition 0 "resource1" [fixtures.one_true]]).
Proof.
  apply (unrelated_records_are_brand_new fixtures.wall).
  intros e f He. inversion He.
Defined.

(** X6, on an instance. *)
Lemma merged_names_stay_unique_witness :
  NoDup (types (fst (MergeStatusConditions fixtures.wall
                       [fixtures.one_true; fixtures.two_true]
                       [fixtures.one_false; fixtures.one_true] 0))) /\
  types [fixtures.one_true; fixtures.two_true] `prefix_of`
    types (fst (MergeStatusConditions fixtures.wall
                  [fixtures.one_true; fixtures.two_true]
                  [fixtures.one_false; fixtures.one_true] 0)).
Proof.
  apply (merged_names_stay_unique fixtures.wall).
  apply (bool_decide_unpack (NoDup _)). vm_compute. reflexivity.
Defined.

(** X7, on the row "merge status condition" of the tests: "one" flips from
    True to False with a zero time. *)
Lemma fresh_condition_is_taken_witness :
  exists c,
    meta.FindStatusCondition
      (fst (MergeStatusConditions fixtures.wall [fixtures.one_true]
              [fixtures.one_false; fixtures.two_true] 0)) "one"
    = Some (0, c)
    /\ Status c = "False"
    /\ exists j, 0 <= j /\ LastTransitionTime c = fixtures.wall j.
Proof.
  destruct (fresh_condition_is_taken fixtures.wall [fixtures.one_true]
              [fixtures.one_false; fixtures.two_true] 0 0
              fixtures.one_true fixtures.one_false)
    as (c & Hf & _ & _ & _ & Hflip).
  - apply (bool_decide_unpack (NoDup _)). vm_compute. reflexivity.
  - left.
  - reflexivity.
  - exists c. split; [exact Hf|].
    destruct Hflip as (Hs & _ & Hnow); [discriminate|].
    split; [exact Hs|]. apply Hnow. reflexivity.
Defined.

(** X8, on the same row: "two" is new. *)
Lemma new_condition_is_appended_witness :
  exists i j, 1 <= i /\ 0 <= j /\
    meta.FindStatusCondition
      (fst (MergeStatusConditions fixtures.wall [fixtures.one_true]
              [fixtures.one_false; fixtures.two_true] 0)) "two"
    = Some (i, withLastTransitionTime fixtures.two_true
                 (if IsZero (LastTransitionTime fixtures.two_true)
                  then fixtures.wall j
                  else LastTransitionTime fixtures.two_true)).
Proof.
  apply (new_condition_is_appended fixtures.wall [fixtures.one_true]
           [fixtures.one_false; fixtures.two_true] 0 fixtures.two_true).
  - apply (bool_decide_unpack (NoDup _)). vm_compute. reflexivity.
  - right. left.
  - intros Hin. apply list_elem_of_singleton in Hin. discriminate.
Defined.

End manifest_merge_more.

(** ** More on the executor validator *)

Module auth_more.
Import apierrors workapiv1_executor auth call_view.
Import auth_facts.

Section WithServer.
Context {W : Type}.
Variable srv : client.Server W.

Lemma reviewed_some_call (review : authorizationv1.SubjectAccessReview)
    (rest : list authorizationv1.SubjectAccessReview)
    (calls : list client.Call) (res : bool * option error) :
  reviewed (review :: rest) calls res -> calls <> [].
Proof. intros Hrun. inversion Hrun; discriminate. Qed.

Lemma bind_calls_nonempty {A B} (m : client.M W A) (f : A -> client.M W B) (w : W) :
  snd (m w) <> [] -> snd (client.bind m f w) <> [].
Proof.
  intros Hm. unfold client.bind.
  destruct (m w) as [[a w1] calls1]. destruct (f a w1) as [[b w2] calls2].
  simpl in *. destruct calls1; [contradiction|discriminate].
Qed.

Lemma reviews_make_calls (saNamespace saName : string)
    (resource : authorizationv1.ResourceAttributes)
    (verb : string) (more : list string) (w : W) :
  snd (validateBySubjectAccessReviews srv
         (buildSubjectAccessReviews saNamespace saName resource (verb :: more)) w)
  <> [].
Proof.
  pose proof (validate_reviewed srv
    (buildSubjectAccessReviews saNamespace saName resource (verb :: more)) w)
    as Hrun.
  unfold client.calls, client.result in Hrun.
  apply reviewed_some_call in Hrun. exact Hrun.
Qed.

(** Without any request, a set executor gets a plain error. *)
Lemma validate_without_requests_lemma (v : sarValidator) (e : ManifestWorkExecutor)
    (gvr : schema.GroupVersionResource) (namespace name : string)
    (obj : option unstructured.Unstructured) (action : string) (w : W) :
  client.calls (Validate srv v (Some e) gvr namespace name obj action) w = [] ->
  exists message,
    client.result (Validate srv v (Some e) gvr namespace name obj action) w
    = Some (errorString message).
Proof.
  unfold client.calls, client.result, Validate.
  destruct (decide (Type_ (Subject e) <> ExecutorSubjectTypeServiceAccount));
    [intros _; eexists; reflexivity|].
  destruct (ServiceAccount (Subject e)) as [sa|];
    [|intros _; eexists; reflexivity].
  destruct (decide (action = ApplyAction)).
  - intros Hnil. exfalso. revert Hnil.
    apply bind_calls_nonempty, reviews_make_calls.
  - destruct (decide (action = DeleteAction)).
    + intros Hnil. exfalso. revert Hnil.
      apply bind_calls_nonempty, reviews_make_calls.
    + intros _. eexists. reflexivity.
Qed.

(** X9. [Validate] makes no request at all exactly when there is nothing
    to review: the executor is unset, or its subject is not a service
    account, or the service account is nil, or the action is neither Apply
    nor Delete. An unset executor is allowed; the three other cases are
    reported as plain errors. *)
Theorem validate_without_requests (v : sarValidator)
    (executor : option ManifestWorkExecutor)
    (gvr : schema.GroupVersionResource) (namespace name : string)
    (obj : option unstructured.Unstructured) (action : string) (w : W) :
  let run := Validate srv v executor gvr namespace name obj action in
  (client.calls run w = [] <->
   executor = None \/
   exists e, executor = Some e /\
     (Type_ (Subject e) <> ExecutorSubjectTypeServiceAccount \/
      ServiceAccount (Subject e) = None \/
      (action <> ApplyAction /\ action <> DeleteAction)))
  /\ (executor = None -> client.result run w = None)
  /\ (forall e, executor = Some e /\ client.calls run w = [] ->
        exists message, client.result run w = Some (errorString message)).
Proof.
  intros run. subst run. unfold client.calls, client.result, Validate.
  destruct executor as [e|]; simpl.
  2:{ split; [split; [left; reflexivity | reflexivity]|].
      split; [reflexivity|]. intros e [He _]. discriminate. }
  destruct (decide (Type_ (Subject e) <> ExecutorSubjectTypeServiceAccount))
    as [Htype|Htype]; simpl.
  { split; [split; [|reflexivity]|].
    - intros _. right. exists e. split; [reflexivity|]. left. exact Htype.
    - split; [discriminate|]. intros e' _. eexists. reflexivity. }
  destruct (ServiceAccount (Subject e)) as [sa|] eqn:Hsa; simpl.
  2:{ split; [split; [|reflexivity]|].
      - intros _. right. exists e. split; [reflexivity|]. right. left. exact Hsa.
      - split; [discriminate|]. intros e' _. eexists. reflexivity. }
  destruct (decide (action = ApplyAction)) as [Happly|Hnot].
  - split; [split|].
    + intros Hnil. exfalso. revert Hnil.
      apply bind_calls_nonempty, reviews_make_calls.
    + intros [Hnone|(e' & He' & Hcase)]; [discriminate Hnone|].
      injection He' as <-.
      destruct Hcase as [Ht|[Hs|[Ha _]]]; [contradiction|congruence|contradiction].
    + split; [discriminate|]. intros e' [_ Hnil]. exfalso. revert Hnil.
      apply bind_calls_nonempty, reviews_make_calls.
  - destruct (decide (action = DeleteAction)) as [Hdel|Hnodel].
    + split; [split|].
      * intros Hnil. exfalso. revert Hnil.
        apply bind_calls_nonempty, reviews_make_calls.
      * intros [Hnone|(e' & He' & Hcase)]; [discriminate Hnone|].
        injection He' as <-.
        destruct Hcase as [Ht|[Hs|[_ Hd]]]; [contradiction|congruence|contradiction].
      * split; [discriminate|]. intros e' [_ Hnil]. exfalso. revert Hnil.
        apply bind_calls_nonempty, reviews_make_calls.
    + split; [split; [|reflexivity]|].
      * intros _. right. exists e. split; [reflexivity|]. right. right. done.
      * split; [discriminate|]. intros e' _. eexists. reflexivity.
Qed.

Lemma reviewed_error (reviews : list authorizationv1.SubjectAccessReview)
    (calls : list client.Call) (res : bool * option error)
    (pre post : list client.Call)
    (review : authorizationv1.SubjectAccessReview) (err : error) :
  reviewed reviews calls res ->
  calls = pre ++ client.CallAccessReview review (inl err) :: post ->
  post = [] /\ res = (false, Some err).
Proof.
  intros Hrun. revert pre.
  induction Hrun as [|r rest err0|r rest sar0 Hno|r rest sar0 calls res Hyes Hrun IH];
    intros pre Hcalls.
  - destruct pre; discriminate.
  - destruct pre as [|c pre].
    + injection Hcalls as _ <- <-. split; reflexivity.
    + destruct pre; discriminate.
  - destruct pre as [|c pre]; [discriminate|]. destruct pre; discriminate.
  - destruct pre as [|c pre]; [discriminate|].
    injection Hcalls as _ Hcalls. exact (IH pre Hcalls).
Qed.

(** X10. When the server fails an access review, no request follows it and
    [Validate] returns that very error, not a denial. *)
Theorem review_error_is_returned (v : sarValidator)
    (executor : option ManifestWorkExecutor)
    (gvr : schema.GroupVersionResource) (namespace name : string)
    (obj : option unstructured.Unstructured) (action : string) (w : W)
    (pre post : list client.Call)
    (review : authorizationv1.SubjectAccessReview) (err : error) :
  let run := Validate srv v executor gvr namespace name obj action in
  client.calls run w = pre ++ client.CallAccessReview review (inl err) :: post ->
  post = [] /\ client.result run w = Some err.
Proof.
  intros run Hcalls. subst run.
  destruct (Validate_run srv v executor gvr namespace name obj action w)
    as [Hnone|(e & sa & verbs & rcalls & checked & He & Hsa & Hverbs & Hrev & Hcases)].
  { rewrite Hnone in Hcalls. destruct pre; discriminate. }
  destruct Hcases as [(Hfail & Hrc & Hres)|[(Hok & _ & Hrc & _)
                     |[(Hok & _ & err' & _ & Hrc & _)
                      |(Hok & _ & cfg & err' & _ & Hrc)]]].
  - rewrite Hrc in Hcalls.
    destruct (reviewed_error _ _ _ _ _ _ _ Hrev Hcalls) as [-> ->].
    split; [reflexivity | exact Hres].
  - rewrite Hrc in Hcalls.
    destruct (reviewed_error _ _ _ _ _ _ _ Hrev Hcalls) as [_ ->]. discriminate.
  - rewrite Hrc in Hcalls.
    destruct (reviewed_error _ _ _ _ _ _ _ Hrev Hcalls) as [_ ->]. discriminate.
  - exfalso. rewrite Hrc in Hcalls.
    destruct post as [|y post _] using rev_ind.
    + apply app_inj_tail in Hcalls as [_ Hlast]. discriminate.
    + change (rcalls ++ [client.CallCreate cfg gvr namespace obj ["All"] err']
              = pre ++ (client.CallAccessReview review (inl err) :: post) ++ [y])
        in Hcalls.
      rewrite app_assoc in Hcalls.
      apply app_inj_tail in Hcalls as [Hcalls _].
      destruct (reviewed_error _ _ _ _ _ _ _ Hrev Hcalls) as [_ ->].
      discriminate.
Qed.

Lemma built_review (saNamespace saName : string)
    (resource : authorizationv1.ResourceAttributes) (verbs : list string)
    (review : authorizationv1.SubjectAccessReview) :
  review ∈ buildSubjectAccessReviews saNamespace saName resource verbs ->
  exists verb, verb ∈ verbs /\
    authorizationv1.Spec review =
      {| authorizationv1.ResourceAttributes_ :=
           Some {| authorizationv1.Namespace := authorizationv1.Namespace resource;
                   authorizationv1.Verb := verb;
                   authorizationv1.Group := authorizationv1.Group resource;
                   authorizationv1.Version := authorizationv1.Version resource;
                   authorizationv1.Resource := authorizationv1.Resource resource;
                   authorizationv1.Subresource := authorizationv1.Subresource resource;
                   authorizationv1.Name := authorizationv1.Name resource |};
         authorizationv1.User := username saNamespace saName;
         authorizationv1.Groups := groups saNamespace |}.
Proof.
  induction verbs as [|verb verbs IH]; simpl; intros Hin; [inversion Hin|].
  apply elem_of_cons in Hin as [->|Hin].
  - exists verb. split; [left | reflexivity].
  - destruct (IH Hin) as (verb' & Hv & Hspec).
    exists verb'. split; [right; exact Hv | exact Hspec].
Qed.

Lemma reviewRequests_app (calls more : list client.Call) :
  reviewRequests (calls ++ more) = reviewRequests calls ++ reviewRequests more.
Proof. unfold reviewRequests. apply omap_app. Qed.

(** X11. Every access review [Validate] requests is made as the service
    account of the executor, [system:serviceaccount:<namespace>:<name>]
    with the three service-account groups, for a verb of the action, and
    on the group, version, resource, namespace and name it was given. *)
Theorem reviews_are_made_as_the_executor (v : sarValidator)
    (executor : option ManifestWorkExecutor)
    (gvr : schema.GroupVersionResource) (namespace name : string)
    (obj : option unstructured.Unstructured) (action : string) (w : W)
    (review : authorizationv1.SubjectAccessReview) :
  review ∈ reviewRequests
             (client.calls
                (Validate srv v executor gvr namespace name obj action) w) ->
  exists e sa verb,
    executor = Some e /\ ServiceAccount (Subject e) = Some sa /\
    (action = ApplyAction /\ verb ∈ ["create"; "update"; "patch"; "get"] \/
     action = DeleteAction /\ verb = "delete") /\
    authorizationv1.Spec review =
      {| authorizationv1.ResourceAttributes_ :=
           Some {| authorizationv1.Namespace := namespace;
                   authorizationv1.Verb := verb;
                   authorizationv1.Group := schema.Group gvr;
                   authorizationv1.Version := schema.Version gvr;
                   authorizationv1.Resource := schema.Resource gvr;
                   authorizationv1.Subresource := "";
                   authorizationv1.Name := name |};
         authorizationv1.User :=
           "system:serviceaccount:" +:+ Namespace sa +:+ ":" +:+ Name sa;
         authorizationv1.Groups :=
           ["system:serviceaccounts"; "system:authenticated";
            "system:serviceaccounts:" +:+ Namespace sa] |}.
Proof.
  intros Hin.
  destruct (Validate_run srv v executor gvr namespace name obj action w)
    as [Hnone|(e & sa & verbs & rcalls & checked & He & Hsa & Hverbs & Hrev & Hcases)].
  { rewrite Hnone in Hin. inversion Hin. }
  assert (NoDup verbs) as Hnd.
  { destruct Hverbs as [[_ ->]|[_ ->]];
      [exact applyVerbs_NoDup | apply NoDup_singleton]. }
  destruct (reviewed_summary _ _ _ verbs rcalls checked Hnd Hrev)
    as (_ & _ & _ & _ & Hprefix).
  assert (review ∈ reviewRequests rcalls) as Hin'.
  { destruct Hcases as [(_ & Hrc & _)|[(_ & _ & Hrc & _)
                       |[(_ & _ & err' & _ & Hrc & _)
                        |(_ & _ & cfg & err' & _ & Hrc)]]];
      rewrite Hrc in Hin; try exact Hin.
    rewrite reviewRequests_app in Hin. simpl in Hin.
    rewrite app_nil_r in Hin. exact Hin. }
  destruct Hprefix as [more Hmore].
  assert (review ∈ buildSubjectAccessReviews (Namespace sa) (Name sa)
                     (reviewedResource gvr namespace name) verbs) as Hbuilt
    by (rewrite Hmore; apply elem_of_app; left; exact Hin').
  apply built_review in Hbuilt as (verb & Hverb & Hspec).
  exists e, sa, verb. split; [exact He|]. split; [exact Hsa|]. split.
  - destruct Hverbs as [[Ha ->]|[Hd ->]].
    + left. split; [exact Ha | exact Hverb].
    + right. split; [exact Hd|]. apply list_elem_of_singleton in Hverb. exact Hverb.
  - exact Hspec.
Qed.

(** X12. [Validate] never allows a set executor without reviews: when it
    returns nil for an executor that is set, every verb of the action was
    reviewed and the server allowed each of them. *)
Theorem allowed_means_reviewed (v : sarValidator) (e : ManifestWorkExecutor)
    (gvr : schema.GroupVersionResource) (namespace name : string)
    (obj : option unstructured.Unstructured) (action : string) (w : W) :
  let run := Validate srv v (Some e) gvr namespace name obj action in
  client.result run w = None ->
  exists verbs,
    (action = ApplyAction /\ verbs = ["create"; "update"; "patch"; "get"] \/
     action = DeleteAction /\ verbs = ["delete"]) /\
    allVerbsPassed (client.calls run w) verbs = true.
Proof.
  intros run Hnil. subst run.
  destruct (Validate_run srv v (Some e) gvr namespace name obj action w)
    as [Hnone|(e' & sa & verbs & rcalls & checked & He & Hsa & Hverbs & Hrev & Hcases)].
  { exfalso.
    destruct (validate_without_requests_lemma v e gvr namespace name obj action w Hnone)
      as (message & Hmsg).
    rewrite Hmsg in Hnil. discriminate. }
  assert (NoDup verbs) as Hnd.
  { destruct Hverbs as [[_ ->]|[_ ->]];
      [exact applyVerbs_NoDup | apply NoDup_singleton]. }
  destruct (reviewed_summary _ _ _ verbs rcalls checked Hnd Hrev)
    as (Hall & _ & _ & Herr & _).
  exists verbs. split; [exact Hverbs|].
  destruct Hcases as [(Hfail & Hrc & Hres)|[(Hok & _ & Hrc & _)
                     |[(Hok & _ & err' & _ & Hrc & Hres)
                      |(Hok & _ & cfg & err' & _ & Hrc)]]].
  - rewrite Hres in Hnil. destruct (snd checked); discriminate.
  - rewrite Hrc, Hall, Hok. reflexivity.
  - rewrite Hres in Hnil. discriminate.
  - rewrite Hrc, allVerbsPassed_app, Hall, Hok; [reflexivity|].
    intros c Hc. apply list_elem_of_singleton in Hc. subst c. reflexivity.
Qed.

(** [Validate] for an executor that is a service account and an action
    that has verbs: the reviews, then what follows them. *)
Lemma Validate_unfold (v : sarValidator) (e : ManifestWorkExecutor)
    (sa : ManifestWorkSubjectServiceAccount)
    (gvr : schema.GroupVersionResource) (namespace name : string)
    (obj : option unstructured.Unstructured) (action : string)
    (verbs : list string) (w : W) :
  Type_ (Subject e) = ExecutorSubjectTypeServiceAccount ->
  ServiceAccount (Subject e) = Some sa ->
  (action = ApplyAction /\ verbs = applyVerbs \/
   action = DeleteAction /\ verbs = ["delete"]) ->
  Validate srv v (Some e) gvr namespace name obj action w =
  let '(checked, w1, rcalls) :=
    validateBySubjectAccessReviews srv
      (buildSubjectAccessReviews (Namespace sa) (Name sa)
         (reviewedResource gvr namespace name) verbs) w in
  let '(r, w2, ccalls) :=
    match snd checked with
    | Some err => client.ret (Some err)
    | None =>
        if negb (fst checked) then
          client.ret (Some (notAllowed action gvr namespace name))
        else if decide (action <> ApplyAction) then client.ret None
        else if decide (schema.Group gvr <> "rbac.authorization.k8s.io")
        then client.ret None
        else if decide (schema.Resource gvr = "roles"
                        \/ schema.Resource gvr = "rolebindings"
                        \/ schema.Resource gvr = "clusterroles"
                        \/ schema.Resource gvr = "clusterrolebindings")
        then checkEscalation srv v sa gvr namespace name obj
        else client.ret None
    end w1 in
  (r, w2, rcalls ++ ccalls).
Proof.
  intros Htype Hsa Hverbs. unfold Validate.
  destruct (decide (Type_ (Subject e) <> ExecutorSubjectTypeServiceAccount));
    [contradiction|].
  rewrite Hsa.
  destruct Hverbs as [[-> ->]|[-> ->]].
  - destruct (decide (ApplyAction = ApplyAction)); [|contradiction]. reflexivity.
  - destruct (decide (DeleteAction = ApplyAction)); [discriminate|].
    destruct (decide (DeleteAction = DeleteAction)); [|contradiction]. reflexivity.
Qed.

(** X13. When [Validate] has issued the dry-run create, the answer to it
    decides the result, whatever the reviews allowed before: a forbidden
    answer gives a [NotAllowedError] with a requeue after 60 seconds, an
    already-exists answer gives nil, and any other answer is returned as it
    is. *)
Theorem dry_run_answer_decides (v : sarValidator)
    (executor : option ManifestWorkExecutor)
    (gvr : schema.GroupVersionResource) (namespace name : string)
    (obj : option unstructured.Unstructured) (action : string) (w : W)
    (cfg : rest.Config) (gvr' : schema.GroupVersionResource)
    (namespace' : string) (obj' : option unstructured.Unstructured)
    (dryRun : list string) (err : option error) :
  let run := Validate srv v executor gvr namespace name obj action in
  client.CallCreate cfg gvr' namespace' obj' dryRun err ∈ client.calls run w ->
  (IsForbidden err = true ->
     exists message,
       client.result run w
       = Some (NotAllowedError (errorString message) (60 * 1000000000))) /\
  (IsAlreadyExists err = true -> client.result run w = None) /\
  (IsForbidden err = false -> IsAlreadyExists err = false ->
     client.result run w = err).
Proof.
  intros run Hin. subst run.
  destruct (Validate_run srv v executor gvr namespace name obj action w)
    as [Hnone|(e & sa & verbs & rcalls & checked & He & Hsa & Hverbs & Hrev & Hcases)].
  { rewrite Hnone in Hin. inversion Hin. }
  assert (NoDup verbs) as Hnd.
  { destruct Hverbs as [[_ ->]|[_ ->]];
      [exact applyVerbs_NoDup | apply NoDup_singleton]. }
  destruct (reviewed_summary _ _ _ verbs rcalls checked Hnd Hrev)
    as (_ & _ & Hnocreate & _ & _).
  assert (client.CallCreate cfg gvr' namespace' obj' dryRun err ∈ rcalls -> False)
    as Hnot by (intros Hc; apply Hnocreate in Hc; discriminate).
  destruct Hcases as [(_ & Hrc & _)|[(_ & _ & Hrc & _)
                     |[(_ & _ & err' & _ & Hrc & _)
                      |(Hok & Hguard & cfg' & err' & Hfac & Hrc)]]];
    try (rewrite Hrc in Hin; contradiction).
  subst executor.
  assert (Type_ (Subject e) = ExecutorSubjectTypeServiceAccount) as Htype.
  { destruct (decide (Type_ (Subject e) = ExecutorSubjectTypeServiceAccount))
      as [Ht|Ht]; [exact Ht|]. exfalso.
    assert (client.calls (Validate srv v (Some e) gvr namespace name obj action) w
            = []) as Hnil.
    { unfold client.calls, Validate.
      destruct (decide (Type_ (Subject e) <> ExecutorSubjectTypeServiceAccount));
        [reflexivity|contradiction]. }
    rewrite Hnil in Hrc. destruct rcalls; discriminate. }
  unfold client.calls, client.result in *.
  rewrite (Validate_unfold v e sa gvr namespace name obj action verbs w
             Htype Hsa Hverbs) in Hrc, Hin |- *.
  pose proof (validate_reviewed srv
    (buildSubjectAccessReviews (Namespace sa) (Name sa)
       (reviewedResource gvr namespace name) verbs) w) as Hrun.
  unfold client.calls, client.result in Hrun.
  destruct (validateBySubjectAccessReviews srv _ w) as [[checked' w1] rcalls'].
  simpl in Hrun.
  destruct (reviewed_summary _ _ _ verbs rcalls' checked' Hnd Hrun)
    as (_ & _ & Hnocreate' & Herr' & _).
  destruct checked' as [ok [e'|]]; simpl in *.
  { rewrite app_nil_r in Hin. apply Hnocreate' in Hin. discriminate. }
  destruct ok; simpl in *.
  2:{ rewrite app_nil_r in Hin. apply Hnocreate' in Hin. discriminate. }
  destruct Hguard as (Happly & Hgroup & Hres).
  destruct (decide (action <> ApplyAction)); [contradiction|].
  destruct (decide (schema.Group gvr <> "rbac.authorization.k8s.io"));
    [contradiction|].
  match goal with |- context [decide ?P] => destruct (decide P) as [Hr|Hr] end.
  2:{ exfalso. apply Hr, guarded_resources, Hres. }
  destruct (checkEscalation_run srv v sa gvr namespace name obj w1)
    as [(err0 & Hfac0 & Hesc)|(cfg0 & Hfac0 & Hesc)]; rewrite Hesc in Hin, Hrc |- *.
  { congruence. }
  destruct (client.create srv cfg0 gvr namespace obj ["All"] w1) as [err1 w2].
  simpl in *.
  apply elem_of_app in Hin as [Hin|Hin]; [apply Hnocreate' in Hin; discriminate|].
  apply list_elem_of_singleton in Hin. injection Hin as -> -> -> -> -> ->.
  split; [|split].
  - intros ->. eexists. reflexivity.
  - intros Hexists. rewrite (one_reason err1 Hexists), Hexists. reflexivity.
  - intros -> ->. reflexivity.
Qed.

(** X14. For the action Delete and an executor that is a service account,
    [Validate] makes exactly one request, the review of the verb "delete",
    and its result follows the answer: the error when the review fails, nil
    when it is allowed, and a [NotAllowedError] otherwise. *)
Theorem delete_is_one_review (v : sarValidator) (e : ManifestWorkExecutor)
    (sa : ManifestWorkSubjectServiceAccount)
    (gvr : schema.GroupVersionResource) (namespace name : string)
    (obj : option unstructured.Unstructured) (w : W) :
  let run := Validate srv v (Some e) gvr namespace name obj DeleteAction in
  Type_ (Subject e) = ExecutorSubjectTypeServiceAccount ->
  ServiceAccount (Subject e) = Some sa ->
  exists review answer,
    buildSubjectAccessReviews (Namespace sa) (Name sa)
      (reviewedResource gvr namespace name) ["delete"] = [review] /\
    client.calls run w = [client.CallAccessReview review answer] /\
    client.result run w =
      match answer with
      | inl err => Some err
      | inr sar =>
          if authorizationv1.Allowed (authorizationv1.Status sar) then None
          else Some (notAllowed DeleteAction gvr namespace name)
      end.
Proof.
  intros run Htype Hsa. subst run. unfold client.calls, client.result.
  rewrite (Validate_unfold v e sa gvr namespace name obj DeleteAction ["delete"] w
             Htype Hsa) by (right; done).
  eexists. simpl.
  unfold client.bind, client.SubjectAccessReviewsCreate, client.request.
  match goal with |- context [client.accessReview srv ?r w] =>
    destruct (client.accessReview srv r w) as [[err|sar] w1] end.
  - exists (inl err). simpl. repeat split.
  - exists (inr sar).
    destruct (authorizationv1.Allowed (authorizationv1.Status sar)); simpl;
      repeat split.
Qed.

Lemma reviews_all_allowed (reviews : list authorizationv1.SubjectAccessReview)
    (w : W) :
  (forall review w0, review ∈ reviews -> exists sar w1,
     client.accessReview srv review w0 = (inr sar, w1) /\
     authorizationv1.Allowed (authorizationv1.Status sar) = true) ->
  client.result (validateBySubjectAccessReviews srv reviews) w = (true, None) /\
  reviewRequests (client.calls (validateBySubjectAccessReviews srv reviews) w)
    = reviews.
Proof.
  intros Hallow. unfold client.calls, client.result.
  revert w. induction reviews as [|review rest IH]; intros w; simpl;
    [split; reflexivity|].
  unfold client.bind, client.SubjectAccessReviewsCreate, client.request.
  destruct (Hallow review w) as (sar & w1 & -> & Hok); [left|].
  simpl. rewrite Hok. simpl.
  destruct (IH (fun r w0 Hin => Hallow r w0 (list_elem_of_further _ _ _ Hin)) w1)
    as [Hres Hreq].
  destruct (validateBySubjectAccessReviews srv rest w1) as [[res w2] calls].
  simpl in *. split; [exact Hres|]. f_equal. exact Hreq.
Qed.

(** X15. When the server allows every review of the verbs of the action
    and the escalation guard does not apply (the action is Delete, or the
    resource is not one of the four RBAC resources of the RBAC group),
    [Validate] allows: it returns nil after requesting the reviews of all
    the verbs of the action, in their order, and nothing else. *)
Theorem all_allowed_is_allowed (v : sarValidator) (e : ManifestWorkExecutor)
    (sa : ManifestWorkSubjectServiceAccount)
    (gvr : schema.GroupVersionResource) (namespace name : string)
    (obj : option unstructured.Unstructured) (action : string)
    (verbs : list string) (w : W) :
  let run := Validate srv v (Some e) gvr namespace name obj action in
  Type_ (Subject e) = ExecutorSubjectTypeServiceAccount ->
  ServiceAccount (Subject e) = Some sa ->
  (action = ApplyAction /\ verbs = ["create"; "update"; "patch"; "get"] \/
   action = DeleteAction /\ verbs = ["delete"]) ->
  ~ escalationGuarded action gvr ->
  (forall review w0,
     review ∈ buildSubjectAccessReviews (Namespace sa) (Name sa)
                (reviewedResource gvr namespace name) verbs ->
     exists sar w1,
       client.accessReview srv review w0 = (inr sar, w1) /\
       authorizationv1.Allowed (authorizationv1.Status sar) = true) ->
  client.result run w = None /\
  reviewRequests (client.calls run w)
    = buildSubjectAccessReviews (Namespace sa) (Name sa)
        (reviewedResource gvr namespace name) verbs /\
  length (client.calls run w) = length verbs.
Proof.
  intros run Htype Hsa Hverbs Hng Hallow. subst run.
  unfold client.calls, client.result.
  rewrite (Validate_unfold v e sa gvr namespace name obj action verbs w
             Htype Hsa Hverbs).
  destruct (reviews_all_allowed
              (buildSubjectAccessReviews (Namespace sa) (Name sa)
                 (reviewedResource gvr namespace name) verbs) w Hallow)
    as [Hres Hreq].
  pose proof (validate_reviewed srv
    (buildSubjectAccessReviews (Namespace sa) (Name sa)
       (reviewedResource gvr namespace name) verbs) w) as Hrun.
  unfold client.calls, client.result in Hres, Hreq, Hrun.
  destruct (validateBySubjectAccessReviews srv _ w) as [[checked w1] rcalls].
  simpl in Hres, Hreq, Hrun. subst checked. simpl.
  assert (length rcalls = length verbs) as Hlen.
  { clear Hreq. revert Hrun. generalize rcalls. clear.
    induction verbs as [|verb verbs IH]; intros calls Hrun.
    - inversion Hrun. reflexivity.
    - simpl in Hrun. inversion Hrun; subst. simpl. f_equal. apply IH. assumption. }
  assert (forall P (d : Decision P) (x : client.M W (option error)),
            (P -> False) ->
            (if d then x else client.ret None) = client.ret None) as Hskip.
  { intros P d x Hno. destruct d; [contradiction|reflexivity]. }
  destruct (decide (action <> ApplyAction)) as [_|Happly].
  { simpl. rewrite app_nil_r. repeat split; assumption. }
  destruct (decide (schema.Group gvr <> "rbac.authorization.k8s.io")) as [_|Hg].
  { simpl. rewrite app_nil_r. repeat split; assumption. }
  rewrite Hskip.
  { simpl. rewrite app_nil_r. repeat split; assumption. }
  intros Hr. apply Hng. split; [apply dec_stable; exact Happly|].
  split; [apply dec_stable; exact Hg | apply guarded_resources, Hr].
Qed.

End WithServer.

(** X9, on an instance: no executor is set. *)
Lemma validate_without_requests_witness :
  client.result
    (Validate (fixtures.fixedServer [] None [] None None None)
       fixtures.validator None fixtures.configmaps
       "cluster1" "cm1" None ApplyAction) tt = None.
Proof.
  destruct (validate_without_requests
              (fixtures.fixedServer [] None [] None None None)
              fixtures.validator None fixtures.configmaps
              "cluster1" "cm1" None ApplyAction tt) as (_ & Hunset & _).
  apply Hunset. reflexivity.
Defined.

(** X10, on an instance: a server whose access reviews time out. *)
Lemma review_error_is_returned_witness :
  (@nil client.Call) = [] /\
  client.result
    (Validate
       {| client.accessReview := fun _ w => (inl fixtures.timeout, w);
          client.create := fun _ _ _ _ _ w => (None, w);
          client.get := fun _ _ _ w => (inl fixtures.timeout, w);
          client.validateDelete := fun _ _ _ _ w => (None, w);
          client.patch := fun _ _ _ _ _ w => (None, w);
          client.delete := fun _ _ _ _ w => (None, w) |}
       fixtures.validator (Some fixtures.executor) fixtures.configmaps
       "cluster1" "cm1" None ApplyAction) tt
  = Some fixtures.timeout.
Proof.
  eapply (review_error_is_returned _ fixtures.validator (Some fixtures.executor)
            fixtures.configmaps "cluster1" "cm1" None ApplyAction tt []).
  vm_compute. reflexivity.
Defined.

(** X11, on an instance: the review of "create" for the executor of the
    tests. *)
Lemma reviews_are_made_as_the_executor_witness :
  exists review,
    reviewRequests
      (client.calls
         (Validate (fixtures.fixedServer [] None [] None None None)
            fixtures.validator (Some fixtures.executor) fixtures.configmaps
            "cluster1" "cm1" None ApplyAction) tt) = [review]
    /\ authorizationv1.User (authorizationv1.Spec review)
       = "system:serviceaccount:cluster1:test-executor".
Proof.
  eexists. split; [vm_compute; reflexivity|].
  destruct (reviews_are_made_as_the_executor
              (fixtures.fixedServer [] None [] None None None)
              fixtures.validator (Some fixtures.executor) fixtures.configmaps
              "cluster1" "cm1" None ApplyAction tt
              (hd (authorizationv1.Build_SubjectAccessReview
                     (authorizationv1.Build_SubjectAccessReviewSpec None "" [])
                     (authorizationv1.Build_SubjectAccessReviewStatus false ""))
                  (buildSubjectAccessReviews "cluster1" "test-executor"
                     (reviewedResource fixtures.configmaps "cluster1" "cm1")
                     ["create"])))
    as (e & sa & verb & He & Hsa & _ & Hspec).
  - vm_compute. left.
  - injection He as <-. injection Hsa as <-. reflexivity.
Defined.

(** X12, on an instance: the executor with all verbs allowed applies a
    configmap. *)
Lemma allowed_means_reviewed_witness :
  exists verbs,
    (ApplyAction = ApplyAction /\ verbs = ["create"; "update"; "patch"; "get"] \/
     ApplyAction = DeleteAction /\ verbs = ["delete"]) /\
    allVerbsPassed
      (client.calls
         (Validate (fixtures.fixedServer applyVerbs None [] None None None)
            fixtures.validator (Some fixtures.executor) fixtures.configmaps
            "cluster1" "cm1" None ApplyAction) tt) verbs = true.
Proof.
  apply (allowed_means_reviewed
           (fixtures.fixedServer applyVerbs None [] None None None)
           fixtures.validator fixtures.executor fixtures.configmaps
           "cluster1" "cm1" None ApplyAction tt).
  vm_compute. reflexivity.
Defined.

(** X13, on an instance: all reviews pass and the dry run of the role is
    forbidden. *)
Lemma dry_run_answer_decides_witness :
  exists message,
    client.result
      (Validate (fixtures.fixedServer applyVerbs (Some fixtures.forbidden)
                   [] None None None)
         fixtures.validator (Some fixtures.executor) fixtures.roles
         "cluster1" "role1" None ApplyAction) tt
    = Some (NotAllowedError (errorString message) (60 * 1000000000)).
Proof.
  eapply (dry_run_answer_decides
            (fixtures.fixedServer applyVerbs (Some fixtures.forbidden)
               [] None None None)
            fixtures.validator (Some fixtures.executor) fixtures.roles
            "cluster1" "role1" None ApplyAction tt).
  - vm_compute. do 4 right. left.
  - reflexivity.
Defined.

(** X14, on an instance: the executor of the tests, denied. *)
Lemma delete_is_one_review_witness :
  exists review answer,
    buildSubjectAccessReviews "cluster1" "test-executor"
      (reviewedResource fixtures.secrets "ns1" "n1") ["delete"] = [review] /\
    client.calls
      (Validate (fixtures.fixedServer [] None [] None None None)
         fixtures.validator (Some fixtures.executor) fixtures.secrets
         "ns1" "n1" None DeleteAction) tt
    = [client.CallAccessReview review answer] /\
    client.result
      (Validate (fixtures.fixedServer [] None [] None None None)
         fixtures.validator (Some fixtures.executor) fixtures.secrets
         "ns1" "n1" None DeleteAction) tt
    = match answer with
      | inl err => Some err
      | inr sar =>
          if authorizationv1.Allowed (authorizationv1.Status sar) then None
          else Some (notAllowed DeleteAction fixtures.secrets "ns1" "n1")
      end.
Proof.
  apply (delete_is_one_review
           (fixtures.fixedServer [] None [] None None None)
           fixtures.validator fixtures.executor
           {| Namespace := "cluster1"; Name := "test-executor" |}
           fixtures.secrets "ns1" "n1" None tt).
  - reflexivity.
  - reflexivity.
Defined.

(** X15, on an instance: all verbs allowed on a configmap. *)
Lemma all_allowed_is_allowed_witness :
  client.result
    (Validate (fixtures.fixedServer applyVerbs None [] None None None)
       fixtures.validator (Some fixtures.executor) fixtures.configmaps
       "cluster1" "cm1" None ApplyAction) tt = None.
Proof.
  eapply (all_allowed_is_allowed
            (fixtures.fixedServer applyVerbs None [] None None None)
            fixtures.validator fixtures.executor
            {| Namespace := "cluster1"; Name := "test-executor" |}
            fixtures.configmaps "cluster1" "cm1" None ApplyAction).
  - reflexivity.
  - reflexivity.
  - left. split; reflexivity.
  - intros (_ & Hgroup & _). discriminate Hgroup.
  - intros review w0 Hin. revert w0. revert review Hin.
    apply (proj1 (Forall_forall
      (fun review => forall w0 : unit, exists sar w1,
         client.accessReview
           (fixtures.fixedServer applyVerbs None [] None None None) review w0
         = (inr sar, w1) /\
         authorizationv1.Allowed (authorizationv1.Status sar) = true) _)).
    repeat (constructor;
            [intros w0; eexists; exists w0; split; vm_compute; reflexivity|]).
    constructor.
Defined.

End auth_more.

Module gc_more.
Import apierrors workapiv1_applied spoke_helper call_view gc_view.

Section WithServer.
Context {W : Type}.
Variable srv : client.Server W.

Lemma getRequests_get (gvr : schema.GroupVersionResource) (namespace name : string)
    (answer : error + unstructured.Unstructured) (calls : list client.Call) :
  getRequests (client.CallGet gvr namespace name answer :: calls)
  = (gvr, namespace, name) :: getRequests calls.
Proof. reflexivity. Qed.

Lemma getRequests_validate
    (executor : option workapiv1_executor.ManifestWorkExecutor)
    (gvr : schema.GroupVersionResource) (namespace name : string)
    (err : option error) (calls : list client.Call) :
  getRequests (client.CallValidateDelete executor gvr namespace name err :: calls)
  = getRequests calls.
Proof. reflexivity. Qed.

Lemma getRequests_app (calls1 calls2 : list client.Call) :
  getRequests (calls1 ++ calls2) = getRequests calls1 ++ getRequests calls2.
Proof. apply omap_app. Qed.

(** What the end of the loop body does for a live object [u]. *)
Lemma removeOwnerOrDelete_summary (reason : string) (owner : metav1.OwnerReference)
    (acc : progress) (resource : AppliedManifestResourceMeta)
    (gvr : schema.GroupVersionResource) (u : unstructured.Unstructured) (w : W) :
  let run := removeOwnerOrDelete srv reason (ownerToRemove owner) acc resource gvr u in
  exists p e,
    client.result run w = Returned (fst acc ++ p, snd acc ++ e) /\
    length p + length e <= 1 /\
    (p = [] \/ p = [resource]) /\
    getRequests (client.calls run w) = [] /\
    (forall g ns n opts err,
       client.CallDelete g ns n opts err ∈ client.calls run w ->
       length (unstructured.OwnerReferences u) <= 1 /\
       UID resource = unstructured.UID u /\ terminating u = false /\
       g = gvr /\ ns = Namespace resource /\ n = Name resource /\
       opts = deleteOptions resource) /\
    (p = [resource] ->
       length (unstructured.OwnerReferences u) <= 1 /\
       UID resource = unstructured.UID u /\
       (terminating u = true \/
        client.CallDelete gvr (Namespace resource) (Name resource)
          (deleteOptions resource) None ∈ client.calls run w)).
Proof.
  intros run. subst run.
  unfold client.calls, client.result, removeOwnerOrDelete.
  destruct acc as [pending errs]. cbn [fst snd].
  destruct (decide (1 < length (unstructured.OwnerReferences u))) as [Hshared|Hsingle].
  { unfold client.bind, ApplyOwnerReferences.
    destruct (gc_facts.MergeOwnerRefs_returns owner (unstructured.OwnerReferences u))
      as (modified & patched & ->).
    destruct modified.
    - change (negb true) with false. cbv beta iota.
      unfold client.bind, client.Patch, client.request.
      match goal with |- context [client.patch srv ?g ?ns ?n ?t ?p w] =>
        destruct (client.patch srv g ns n t p w) as [answer w'] end.
      destruct answer as [err|]; simpl.
      + exists [], [wrapError (failedTo "remove owner from resource" gvr
                               (Namespace resource) (Name resource)) err].
        rewrite app_nil_r. simpl.
        split; [reflexivity|]. split; [lia|]. split; [left; reflexivity|].
        split; [reflexivity|]. split; [|discriminate].
        intros g ns n opts err' Hin.
        apply list_elem_of_singleton in Hin. discriminate.
      + exists [], []. rewrite !app_nil_r. simpl.
        split; [reflexivity|]. split; [lia|]. split; [left; reflexivity|].
        split; [reflexivity|]. split; [|discriminate].
        intros g ns n opts err' Hin.
        apply list_elem_of_singleton in Hin. discriminate.
    - simpl. exists [], []. rewrite !app_nil_r. simpl.
      split; [reflexivity|]. split; [lia|]. split; [left; reflexivity|].
      split; [reflexivity|]. split; [|discriminate].
      intros g ns n opts err' Hin. inversion Hin. }
  assert (length (unstructured.OwnerReferences u) <= 1) as Hone by lia.
  destruct (decide (UID resource <> unstructured.UID u)) as [Hne|Heq].
  { simpl. exists [], []. rewrite !app_nil_r. simpl.
    split; [reflexivity|]. split; [lia|]. split; [left; reflexivity|].
    split; [reflexivity|]. split; [|discriminate].
    intros g ns n opts err' Hin. inversion Hin. }
  apply dec_stable in Heq.
  fold (terminating u).
  destruct (terminating u) eqn:Hterm.
  { simpl. exists [resource], []. rewrite !app_nil_r. simpl.
    split; [reflexivity|]. split; [lia|]. split; [right; reflexivity|].
    split; [reflexivity|]. split.
    - intros g ns n opts err' Hin. inversion Hin.
    - intros _. split; [exact Hone|]. split; [exact Heq|]. left. reflexivity. }
  unfold client.bind, client.Delete, client.request.
  fold (deleteOptions resource).
  destruct (client.delete srv gvr (Namespace resource) (Name resource)
              (deleteOptions resource) w) as [answer w'].
  assert (forall g ns n opts err' (rest : list client.Call),
            client.CallDelete g ns n opts err'
              ∈ client.CallDelete gvr (Namespace resource) (Name resource)
                  (deleteOptions resource) answer :: rest ->
            (forall c, c ∈ rest -> isDelete c = false) ->
            length (unstructured.OwnerReferences u) <= 1 /\
            UID resource = unstructured.UID u /\ false = false /\
            g = gvr /\ ns = Namespace resource /\ n = Name resource /\
            opts = deleteOptions resource) as Hsafe.
  { intros g ns n opts err' rest Hin Hrest.
    apply elem_of_cons in Hin as [Hin|Hin].
    - injection Hin as -> -> -> -> _. repeat split; assumption.
    - apply Hrest in Hin. discriminate. }
  destruct (IsNotFound answer) eqn:Hnf.
  { simpl. exists [], []. rewrite !app_nil_r. simpl.
    split; [reflexivity|]. split; [lia|]. split; [left; reflexivity|].
    split; [reflexivity|]. split; [|discriminate].
    intros g ns n opts err' Hin. apply (Hsafe g ns n opts err' [] Hin).
    intros c Hc. inversion Hc. }
  destruct (IsConflict answer) eqn:Hcf.
  { simpl. exists [], []. rewrite !app_nil_r. simpl.
    split; [reflexivity|]. split; [lia|]. split; [left; reflexivity|].
    split; [reflexivity|]. split; [|discriminate].
    intros g ns n opts err' Hin. apply (Hsafe g ns n opts err' [] Hin).
    intros c Hc. inversion Hc. }
  destruct answer as [err|].
  { simpl. exists [], [wrapError (failedTo "delete resource" gvr
                                  (Namespace resource) (Name resource)) err].
    rewrite !app_nil_r. simpl.
    split; [reflexivity|]. split; [lia|]. split; [left; reflexivity|].
    split; [reflexivity|]. split; [|discriminate].
    intros g ns n opts err' Hin. apply (Hsafe g ns n opts err' [] Hin).
    intros c Hc. inversion Hc. }
  simpl. exists [resource], []. rewrite !app_nil_r. simpl.
  split; [reflexivity|]. split; [lia|]. split; [right; reflexivity|].
  split; [reflexivity|]. split.
  - intros g ns n opts err' Hin. apply (Hsafe g ns n opts err' _ Hin).
    intros c Hc. apply list_elem_of_singleton in Hc. subst c. reflexivity.
  - intros _. split; [exact Hone|]. split; [exact Heq|]. right. left.
Qed.

(** What one iteration of the loop does. *)
Lemma deleteAppliedResource_summary (reason : string) (owner : metav1.OwnerReference)
    (executor : option workapiv1_executor.ManifestWorkExecutor)
    (acc : progress) (resource : AppliedManifestResourceMeta) (w : W) :
  let run := deleteAppliedResource srv reason owner executor acc resource in
  exists p e,
    client.result run w = Returned (fst acc ++ p, snd acc ++ e) /\
    length p + length e <= 1 /\
    (p = [] \/ p = [resource]) /\
    getRequests (client.calls run w) = [getRequest resource] /\
    (forall g ns n opts err,
       client.CallDelete g ns n opts err ∈ client.calls run w ->
       exists u,
         client.CallGet (gvrOf resource) (Namespace resource) (Name resource)
           (inr u) ∈ client.calls run w /\
         helper.IsOwnedBy owner (unstructured.OwnerReferences u) = true /\
         length (unstructured.OwnerReferences u) <= 1 /\
         UID resource = unstructured.UID u /\ terminating u = false /\
         g = gvrOf resource /\ ns = Namespace resource /\ n = Name resource /\
         opts = deleteOptions resource) /\
    (p = [resource] ->
       exists u,
         client.CallGet (gvrOf resource) (Namespace resource) (Name resource)
           (inr u) ∈ client.calls run w /\
         helper.IsOwnedBy owner (unstructured.OwnerReferences u) = true /\
         length (unstructured.OwnerReferences u) <= 1 /\
         UID resource = unstructured.UID u /\
         (terminating u = true \/
          client.CallDelete (gvrOf resource) (Namespace resource) (Name resource)
            (deleteOptions resource) None ∈ client.calls run w)).
Proof.
  intros run. subst run. unfold client.calls, client.result.
  destruct (client.get srv (gvrOf resource) (Namespace resource) (Name resource) w)
    as [[err|u] w1] eqn:Hget.
  { unfold deleteAppliedResource, client.bind, client.Get, client.request.
    fold (gvrOf resource). rewrite Hget.
    destruct (IsNotFound (Some err)); simpl.
    - exists [], []. rewrite !app_nil_r.
      split; [destruct acc; reflexivity|]. split; [simpl; lia|].
      split; [left; reflexivity|]. split; [reflexivity|]. split; [|discriminate].
      intros g ns n opts err' Hin.
      apply list_elem_of_singleton in Hin. discriminate.
    - eexists [], [_]. rewrite !app_nil_r.
      split; [reflexivity|]. split; [simpl; lia|].
      split; [left; reflexivity|]. split; [reflexivity|]. split; [|discriminate].
      intros g ns n opts err' Hin.
      apply list_elem_of_singleton in Hin. discriminate. }
  rewrite (gc_facts.deleteAppliedResource_live srv reason owner executor acc
             resource u w w1 Hget).
  fold (gvrOf resource).
  destruct (helper.IsOwnedBy owner (unstructured.OwnerReferences u)) eqn:Howned.
  2:{ simpl. exists [], []. rewrite !app_nil_r.
      split; [destruct acc; reflexivity|]. split; [simpl; lia|].
      split; [left; reflexivity|]. split; [reflexivity|]. split; [|discriminate].
      intros g ns n opts err' Hin.
      apply list_elem_of_singleton in Hin. discriminate. }
  change (negb true) with false. cbv beta iota.
  destruct (client.validateDelete srv executor (gvrOf resource)
              (Namespace resource) (Name resource) w1) as [verdict w2].
  assert (forall e, verdict = Some e -> IsForbidden verdict = false ->
    exists p e0,
      Returned (fst acc,
        snd acc ++ [wrapError (failedTo "check delete permission for resource"
                      (gvrOf resource) (Namespace resource) (Name resource)) e])
      = Returned (fst acc ++ p, snd acc ++ e0) /\
      length p + length e0 <= 1 /\ (p = [] \/ p = [resource]) /\
      p <> [resource]) as Hrefused.
  { intros e _ _. eexists [], [_]. rewrite app_nil_r.
    split; [reflexivity|]. split; [simpl; lia|].
    split; [left; reflexivity | discriminate]. }
  pose proof (removeOwnerOrDelete_summary reason owner acc resource
                (gvrOf resource) u w2) as Hrest.
  cbv zeta in Hrest. unfold client.calls, client.result in Hrest.
  assert (forall (out : outcome progress) (w3 : W) (calls : list client.Call),
    removeOwnerOrDelete srv reason (ownerToRemove owner) acc resource
      (gvrOf resource) u w2 = (out, w3, calls) ->
    exists p e,
      out = Returned (fst acc ++ p, snd acc ++ e) /\
      length p + length e <= 1 /\
      (p = [] \/ p = [resource]) /\
      getRequests
        (client.CallGet (gvrOf resource) (Namespace resource) (Name resource) (inr u)
         :: client.CallValidateDelete executor (gvrOf resource)
              (Namespace resource) (Name resource) verdict :: calls)
      = [getRequest resource] /\
      (forall g ns n opts err,
         client.CallDelete g ns n opts err
           ∈ client.CallGet (gvrOf resource) (Namespace resource) (Name resource) (inr u)
             :: client.CallValidateDelete executor (gvrOf resource)
                  (Namespace resource) (Name resource) verdict :: calls ->
         exists u0,
           client.CallGet (gvrOf resource) (Namespace resource) (Name resource)
             (inr u0)
             ∈ client.CallGet (gvrOf resource) (Namespace resource) (Name resource)
                 (inr u)
               :: client.CallValidateDelete executor (gvrOf resource)
                    (Namespace resource) (Name resource) verdict :: calls /\
           helper.IsOwnedBy owner (unstructured.OwnerReferences u0) = true /\
           length (unstructured.OwnerReferences u0) <= 1 /\
           UID resource = unstructured.UID u0 /\ terminating u0 = false /\
           g = gvrOf resource /\ ns = Namespace resource /\ n = Name resource /\
           opts = deleteOptions resource) /\
      (p = [resource] ->
         exists u0,
           client.CallGet (gvrOf resource) (Namespace resource) (Name resource)
             (inr u0)
             ∈ client.CallGet (gvrOf resource) (Namespace resource) (Name resource)
                 (inr u)
               :: client.CallValidateDelete executor (gvrOf resource)
                    (Namespace resource) (Name resource) verdict :: calls /\
           helper.IsOwnedBy owner (unstructured.OwnerReferences u0) = true /\
           length (unstructured.OwnerReferences u0) <= 1 /\
           UID resource = unstructured.UID u0 /\
           (terminating u0 = true \/
            client.CallDelete (gvrOf resource) (Namespace resource) (Name resource)
              (deleteOptions resource) None
              ∈ client.CallGet (gvrOf resource) (Namespace resource) (Name resource)
                  (inr u)
                :: client.CallValidateDelete executor (gvrOf resource)
                     (Namespace resource) (Name resource) verdict :: calls)))
    as Hgo.
  { intros out w3 calls Hrun. rewrite Hrun in Hrest. simpl in Hrest.
    destruct Hrest as (p & e & Hout & Hlen & Hp & Hgets & Hdel & Hpend).
    exists p, e. split; [exact Hout|]. split; [exact Hlen|]. split; [exact Hp|].
    split; [rewrite getRequests_get, getRequests_validate, Hgets; reflexivity|].
    split.
    - intros g ns n opts err Hin.
      apply elem_of_cons in Hin as [Hin|Hin]; [discriminate|].
      apply elem_of_cons in Hin as [Hin|Hin]; [discriminate|].
      destruct (Hdel g ns n opts err Hin) as (H1 & H2 & H3 & H4 & H5 & H6 & H7).
      exists u. split; [left|]. repeat split; assumption.
    - intros Hpr. destruct (Hpend Hpr) as (H1 & H2 & H3).
      exists u. split; [left|]. split; [exact Howned|]. split; [exact H1|].
      split; [exact H2|]. destruct H3 as [H3|H3]; [left; exact H3|].
      right. right. right. exact H3. }
  destruct verdict as [e|].
  - destruct (IsForbidden (Some e)) eqn:Hforb.
    + change (negb true) with false. cbv beta iota.
      destruct (removeOwnerOrDelete srv reason (ownerToRemove owner) acc resource
                  (gvrOf resource) u w2) as [[out w3] calls] eqn:Hrun.
      simpl. apply (Hgo out w3 calls eq_refl).
    + change (negb false) with true. cbv beta iota.
      destruct (Hrefused e eq_refl eq_refl) as (p & e0 & Hout & Hlen & Hp & Hnp).
      exists p, e0. simpl. split; [exact Hout|]. split; [exact Hlen|].
      split; [exact Hp|]. split; [reflexivity|]. split; [|intros; contradiction].
      intros g ns n opts err Hin.
      apply elem_of_cons in Hin as [Hin|Hin]; [discriminate|].
      apply list_elem_of_singleton in Hin. discriminate.
  - destruct (removeOwnerOrDelete srv reason (ownerToRemove owner) acc resource
                (gvrOf resource) u w2) as [[out w3] calls] eqn:Hrun.
    simpl. apply (Hgo out w3 calls eq_refl).
Qed.

(** What the whole loop does, from any progress made so far. *)
Lemma deleteEach_summary (reason : string) (owner : metav1.OwnerReference)
    (executor : option workapiv1_executor.ManifestWorkExecutor)
    (resources : list AppliedManifestResourceMeta) (acc : progress) (w : W) :
  let run := deleteEach srv reason owner executor acc resources in
  exists p e,
    client.result run w = Returned (fst acc ++ p, snd acc ++ e) /\
    p `sublist_of` resources /\
    length p + length e <= length resources /\
    getRequests (client.calls run w) = map getRequest resources /\
    (forall g ns n opts err,
       client.CallDelete g ns n opts err ∈ client.calls run w ->
       exists resource u,
         resource ∈ resources /\
         client.CallGet (gvrOf resource) (Namespace resource) (Name resource)
           (inr u) ∈ client.calls run w /\
         helper.IsOwnedBy owner (unstructured.OwnerReferences u) = true /\
         length (unstructured.OwnerReferences u) <= 1 /\
         UID resource = unstructured.UID u /\ terminating u = false /\
         g = gvrOf resource /\ ns = Namespace resource /\ n = Name resource /\
         opts = deleteOptions resource) /\
    (forall resource, resource ∈ p ->
       exists u,
         client.CallGet (gvrOf resource) (Namespace resource) (Name resource)
           (inr u) ∈ client.calls run w /\
         helper.IsOwnedBy owner (unstructured.OwnerReferences u) = true /\
         length (unstructured.OwnerReferences u) <= 1 /\
         UID resource = unstructured.UID u /\
         (terminating u = true \/
          client.CallDelete (gvrOf resource) (Namespace resource) (Name resource)
            (deleteOptions resource) None ∈ client.calls run w)).
Proof.
  intros run. subst run. revert acc w.
  induction resources as [|resource rest IH]; intros acc w.
  { exists [], []. unfold client.calls, client.result. simpl.
    rewrite !app_nil_r.
    split; [destruct acc; reflexivity|]. split; [constructor|].
    split; [lia|]. split; [reflexivity|].
    split; [intros g ns n opts err Hin; inversion Hin
           | intros r Hin; inversion Hin]. }
  pose proof (deleteAppliedResource_summary reason owner executor acc resource w)
    as Hstep.
  cbv zeta in Hstep. unfold client.calls, client.result in Hstep |- *.
  cbn [deleteEach]. unfold client.bind.
  destruct (deleteAppliedResource srv reason owner executor acc resource w)
    as [[out w1] calls1].
  cbn [fst snd] in Hstep.
  destruct Hstep as (p1 & e1 & -> & Hlen1 & Hp1 & Hgets1 & Hdel1 & Hpend1).
  specialize (IH (fst acc ++ p1, snd acc ++ e1) w1).
  unfold client.calls, client.result in IH.
  destruct (deleteEach srv reason owner executor
              (fst acc ++ p1, snd acc ++ e1) rest w1) as [[out2 w2] calls2].
  cbn [fst snd] in IH |- *.
  destruct IH as (p2 & e2 & -> & Hsub2 & Hlen2 & Hgets2 & Hdel2 & Hpend2).
  exists (p1 ++ p2), (e1 ++ e2). rewrite !app_assoc.
  split; [reflexivity|].
  split.
  { destruct Hp1 as [->| ->]; simpl;
      [apply sublist_cons | apply sublist_skip]; exact Hsub2. }
  split; [rewrite !length_app; simpl; lia|].
  split; [rewrite getRequests_app, Hgets1, Hgets2; reflexivity|].
  split.
  - intros g ns n opts err Hin. apply elem_of_app in Hin as [Hin|Hin].
    + destruct (Hdel1 g ns n opts err Hin) as (u & Hget & Hrest).
      exists resource, u. split; [left|].
      split; [apply elem_of_app; left; exact Hget | exact Hrest].
    + destruct (Hdel2 g ns n opts err Hin) as (r & u & Hr & Hget & Hrest).
      exists r, u. split; [right; exact Hr|].
      split; [apply elem_of_app; right; exact Hget | exact Hrest].
  - intros r Hin. apply elem_of_app in Hin as [Hin|Hin].
    + destruct Hp1 as [->| ->]; [inversion Hin|].
      apply list_elem_of_singleton in Hin. subst r.
      destruct (Hpend1 eq_refl) as (u & Hget & Ho & Hl & Hu & Hend).
      exists u. split; [apply elem_of_app; left; exact Hget|].
      split; [exact Ho|]. split; [exact Hl|]. split; [exact Hu|].
      destruct Hend as [Hend|Hend]; [left; exact Hend|].
      right. apply elem_of_app. left. exact Hend.
    + destruct (Hpend2 r Hin) as (u & Hget & Ho & Hl & Hu & Hend).
      exists u. split; [apply elem_of_app; right; exact Hget|].
      split; [exact Ho|]. split; [exact Hl|]. split; [exact Hu|].
      destruct Hend as [Hend|Hend]; [left; exact Hend|].
      right. apply elem_of_app. right. exact Hend.
Qed.

(** An object that counts as owned and has at most one owner reference has
    exactly one, with the UID of the agent. *)
Lemma sole_owner (owner : metav1.OwnerReference)
    (owners : list metav1.OwnerReference) :
  helper.IsOwnedBy owner owners = true -> length owners <= 1 ->
  exists o, owners = [o] /\ metav1.UID o = metav1.UID owner.
Proof.
  intros Howned Hlen. destruct owners as [|o [|o' rest]]; simpl in *.
  - discriminate.
  - exists o. split; [reflexivity|].
    destruct (decide (metav1.UID owner = metav1.UID o)); [congruence|discriminate].
  - lia.
Qed.

(** X16. [DeleteAppliedResources] never panics and never stops early: it
    returns, it has asked for every resource of its input exactly once and
    in the order of the input, whatever the answers were, the pending
    resources are resources of the input in their order, and each resource
    adds at most one entry, to the pending resources or to the errors. *)
Theorem every_resource_is_looked_up
    (resources : list AppliedManifestResourceMeta) (reason : string)
    (owner : metav1.OwnerReference)
    (executor : option workapiv1_executor.ManifestWorkExecutor) (w : W) :
  let run := DeleteAppliedResources srv resources reason owner executor in
  exists pending errs,
    client.result run w = Returned (pending, errs) /\
    getRequests (client.calls run w) = map getRequest resources /\
    pending `sublist_of` resources /\
    length pending + length errs <= length resources.
Proof.
  intros run. subst run. unfold DeleteAppliedResources.
  destruct (deleteEach_summary reason owner executor resources ([], []) w)
    as (p & e & Hres & Hsub & Hlen & Hgets & _).
  exists p, e. simpl in Hres. repeat split; assumption.
Qed.

(** X17. [DeleteAppliedResources] deletes only what the agent alone owns:
    every delete it issues is for a resource of its input whose live object,
    as the get returned it, has a single owner reference, with the UID of the
    agent, has the UID recorded for the resource, and is not being deleted
    already; the delete carries the recorded UID as precondition and the
    background propagation policy. *)
Theorem deletes_are_guarded
    (resources : list AppliedManifestResourceMeta) (reason : string)
    (owner : metav1.OwnerReference)
    (executor : option workapiv1_executor.ManifestWorkExecutor) (w : W)
    (gvr : schema.GroupVersionResource) (namespace name : string)
    (opts : client.DeleteOptions) (err : option error) :
  let run := DeleteAppliedResources srv resources reason owner executor in
  client.CallDelete gvr namespace name opts err ∈ client.calls run w ->
  exists resource u o,
    resource ∈ resources /\
    client.CallGet (gvrOf resource) (Namespace resource) (Name resource) (inr u)
      ∈ client.calls run w /\
    unstructured.OwnerReferences u = [o] /\
    metav1.UID o = metav1.UID owner /\
    unstructured.UID u = UID resource /\
    terminating u = false /\
    gvr = gvrOf resource /\ namespace = Namespace resource /\
    name = Name resource /\
    opts = {| client.PreconditionUID := Some (UID resource);
              client.PropagationPolicy := Some "Background" |}.
Proof.
  intros run Hin. subst run. unfold DeleteAppliedResources in *.
  destruct (deleteEach_summary reason owner executor resources ([], []) w)
    as (_ & _ & _ & _ & _ & _ & Hdel & _).
  destruct (Hdel gvr namespace name opts err Hin)
    as (r & u & Hr & Hget & Howned & Hlen & Huid & Hterm & Hg & Hns & Hn & Hopts).
  destruct (sole_owner owner _ Howned Hlen) as (o & Ho & Huo).
  exists r, u, o. repeat split; try assumption. symmetry. exact Huid.
Qed.

(** X18. A resource is reported as pending finalization only when its live
    object was found, counts as owned by the agent, has at most one owner
    reference and the recorded UID, and either was being deleted already or
    a delete of it has just succeeded. *)
Theorem pending_is_being_deleted
    (resources : list AppliedManifestResourceMeta) (reason : string)
    (owner : metav1.OwnerReference)
    (executor : option workapiv1_executor.ManifestWorkExecutor) (w : W)
    (pending : list AppliedManifestResourceMeta) (errs : list error)
    (resource : AppliedManifestResourceMeta) :
  let run := DeleteAppliedResources srv resources reason owner executor in
  client.result run w = Returned (pending, errs) ->
  resource ∈ pending ->
  resource ∈ resources /\
  exists u o,
    client.CallGet (gvrOf resource) (Namespace resource) (Name resource) (inr u)
      ∈ client.calls run w /\
    unstructured.OwnerReferences u = [o] /\
    metav1.UID o = metav1.UID owner /\
    unstructured.UID u = UID resource /\
    (terminating u = true \/
     client.CallDelete (gvrOf resource) (Namespace resource) (Name resource)
       (deleteOptions resource) None ∈ client.calls run w).
Proof.
  intros run Hres Hin. subst run. unfold DeleteAppliedResources in *.
  destruct (deleteEach_summary reason owner executor resources ([], []) w)
    as (p & e & Hres' & Hsub & _ & _ & _ & Hpend).
  rewrite Hres' in Hres. simpl in Hres. injection Hres as <- <-.
  split; [eapply elem_of_sublist; eassumption|].
  destruct (Hpend resource Hin) as (u & Hget & Howned & Hlen & Huid & Hend).
  destruct (sole_owner owner _ Howned Hlen) as (o & Ho & Huo).
  exists u, o. repeat split; try assumption. symmetry. exact Huid.
Qed.

(** X19. When the delete validation of an owned live object fails with an
    error that is not a forbidden error, the object is left alone: the calls
    for the resource are the get and the validation, neither a patch nor a
    delete follows, the resource is not pending, and the error is reported,
    wrapped. *)
Theorem failed_validation_is_reported (reason : string)
    (owner : metav1.OwnerReference)
    (executor : option workapiv1_executor.ManifestWorkExecutor)
    (acc : progress) (resource : AppliedManifestResourceMeta)
    (u : unstructured.Unstructured) (e : error) (w w1 w2 : W) :
  let run := deleteAppliedResource srv reason owner executor acc resource in
  client.get srv (gvrOf resource) (Namespace resource) (Name resource) w
    = (inr u, w1) ->
  helper.IsOwnedBy owner (unstructured.OwnerReferences u) = true ->
  client.validateDelete srv executor (gvrOf resource)
    (Namespace resource) (Name resource) w1 = (Some e, w2) ->
  IsForbidden (Some e) = false ->
  client.calls run w
    = [client.CallGet (gvrOf resource) (Namespace resource) (Name resource) (inr u);
       client.CallValidateDelete executor (gvrOf resource)
         (Namespace resource) (Name resource) (Some e)] /\
  client.result run w
    = Returned (fst acc,
        snd acc ++ [wrapError (failedTo "check delete permission for resource"
                      (gvrOf resource) (Namespace resource) (Name resource)) e]).
Proof.
  intros run Hget Howned Hverdict Hforb. subst run.
  unfold client.calls, client.result.
  rewrite (gc_facts.deleteAppliedResource_live srv reason owner executor acc
             resource u w w1 Hget).
  fold (gvrOf resource). rewrite Howned.
  change (negb true) with false. cbv beta iota.
  rewrite Hverdict, Hforb. split; reflexivity.
Qed.

(** X20. When the server finds none of the resources, nothing is pending,
    nothing is reported, and the calls are the gets alone. *)
Theorem missing_resources_are_skipped
    (resources : list AppliedManifestResourceMeta) (reason : string)
    (owner : metav1.OwnerReference)
    (executor : option workapiv1_executor.ManifestWorkExecutor) (w : W) :
  let run := DeleteAppliedResources srv resources reason owner executor in
  (forall gvr namespace name w0, exists err w1,
     client.get srv gvr namespace name w0 = (inl err, w1) /\
     IsNotFound (Some err) = true) ->
  client.result run w = Returned ([], []) /\
  getRequests (client.calls run w) = map getRequest resources /\
  length (client.calls run w) = length resources.
Proof.
  intros run Hmissing. subst run. unfold DeleteAppliedResources.
  generalize (@nil AppliedManifestResourceMeta, @nil error). revert w.
  unfold client.calls, client.result.
  induction resources as [|resource rest IH]; intros w acc.
  { simpl. repeat split. }
  cbn [deleteEach]. unfold client.bind at 1.
  unfold deleteAppliedResource, client.bind, client.Get, client.request.
  destruct (Hmissing (gvrOf resource) (Namespace resource) (Name resource) w)
    as (err & w1 & Hget & Hnf).
  fold (gvrOf resource). rewrite Hget, Hnf. cbn [client.ret].
  specialize (IH w1 acc).
  destruct (deleteEach srv reason owner executor acc rest w1) as [[out w2] calls].
  simpl in IH |- *. destruct IH as (-> & Hgets & Hlen).
  split; [reflexivity|]. fold (getRequests calls).
  rewrite Hgets, Hlen. split; reflexivity.
Qed.

End WithServer.

Lemma ownerRefMatched_UID (o y : metav1.OwnerReference) :
  resourcemerge.ownerRefMatched (ownerToRemove o) y
  = resourcemerge.ownerRefMatched o y.
Proof. reflexivity. Qed.

Lemma ownerRefMatched_refl (o : metav1.OwnerReference) :
  schema.ParseGroupVersion (metav1.APIVersion o) <> None ->
  resourcemerge.ownerRefMatched o o = true.
Proof.
  intros Hparse. unfold resourcemerge.ownerRefMatched.
  destruct (decide (metav1.Name o <> metav1.Name o)); [contradiction|].
  destruct (decide (metav1.Kind o <> metav1.Kind o)); [contradiction|].
  destruct (schema.ParseGroupVersion (metav1.APIVersion o)); [|contradiction].
  apply bool_decide_eq_true. reflexivity.
Qed.

Lemma existedIndex_bound (o : metav1.OwnerReference)
    (existing : list metav1.OwnerReference) :
  resourcemerge.existedIndex o existing <= length existing.
Proof.
  induction existing as [|e rest IH]; simpl; [lia|].
  destruct (resourcemerge.ownerRefMatched o e); lia.
Qed.

Lemma existedIndex_none (o : metav1.OwnerReference)
    (existing : list metav1.OwnerReference) :
  resourcemerge.existedIndex o existing = length existing <->
  (forall y, y ∈ existing -> resourcemerge.ownerRefMatched o y = false).
Proof.
  induction existing as [|e rest IH]; simpl.
  - split; [intros _ y Hy; inversion Hy | reflexivity].
  - destruct (resourcemerge.ownerRefMatched o e) eqn:He.
    + split; [discriminate|]. intros Hall. rewrite Hall in He by left. discriminate.
    + split.
      * intros Hlen y Hy. apply elem_of_cons in Hy as [->|Hy]; [exact He|].
        apply IH; [lia | exact Hy].
      * intros Hall. f_equal. apply IH. intros y Hy. apply Hall. right. exact Hy.
Qed.

Lemma existedIndex_found (o : metav1.OwnerReference)
    (existing : list metav1.OwnerReference) :
  resourcemerge.existedIndex o existing <> length existing ->
  exists pre x post,
    existing = pre ++ x :: post /\
    length pre = resourcemerge.existedIndex o existing /\
    (forall y, y ∈ pre -> resourcemerge.ownerRefMatched o y = false) /\
    resourcemerge.ownerRefMatched o x = true.
Proof.
  induction existing as [|e rest IH]; simpl; [contradiction|].
  destruct (resourcemerge.ownerRefMatched o e) eqn:He.
  - intros _. exists [], e, rest. repeat split; try assumption.
    intros y Hy. inversion Hy.
  - intros Hne. destruct IH as (pre & x & post & -> & Hlen & Hpre & Hx); [lia|].
    exists (e :: pre), x, post. simpl. repeat split; try assumption; [lia|].
    intros y Hy. apply elem_of_cons in Hy as [->|Hy]; [exact He | apply Hpre, Hy].
Qed.

Lemma MergeOwnerRefs_one (modified : bool)
    (existing : list metav1.OwnerReference) (o : metav1.OwnerReference) :
  resourcemerge.MergeOwnerRefs modified existing [o]
  = resourcemerge.mergeOwnerRef (modified, existing) o.
Proof.
  cbn [resourcemerge.MergeOwnerRefs].
  destruct (resourcemerge.mergeOwnerRef (modified, existing) o)
    as [[modified' existing']|]; reflexivity.
Qed.

(** One step of the merge fails exactly on an empty UID. *)
Lemma mergeOwnerRef_panics (modified : bool)
    (existing : list metav1.OwnerReference) (o : metav1.OwnerReference) :
  resourcemerge.mergeOwnerRef (modified, existing) o = None
  <-> metav1.UID o = "".
Proof.
  unfold resourcemerge.mergeOwnerRef.
  assert (resourcemerge.lastByte (metav1.UID o) = None <-> metav1.UID o = "")
    as Hempty.
  { generalize (metav1.UID o). intros s. split; [|intros ->; reflexivity].
    induction s as [|c s IH]; [reflexivity|]. simpl.
    destruct s; [discriminate|]. intros Hs. apply IH in Hs. discriminate. }
  destruct (resourcemerge.lastByte (metav1.UID o)) as [last|].
  2:{ split; [intros _; apply Hempty; reflexivity | reflexivity]. }
  assert (forall r : bool * list metav1.OwnerReference,
            Some r = None <-> metav1.UID o = "") as Hsome.
  { intros r. split; [discriminate|]. intros Hu. apply Hempty in Hu. discriminate. }
  destruct (decide (resourcemerge.existedIndex o existing = length existing)).
  - destruct (negb (Ascii.eqb last "-")); apply Hsome.
  - destruct (Ascii.eqb last "-"); [apply Hsome|].
    destruct (existing !! resourcemerge.existedIndex o existing) as [e|];
      [|apply Hsome].
    destruct (decide (o <> e)); apply Hsome.
Qed.

(** Adding an owner that matches none of the references appends it. *)
Lemma MergeOwnerRefs_appends (o : metav1.OwnerReference) (c : ascii)
    (existing : list metav1.OwnerReference) :
  resourcemerge.lastByte (metav1.UID o) = Some c -> c <> "-"%char ->
  (forall y, y ∈ existing -> resourcemerge.ownerRefMatched o y = false) ->
  resourcemerge.MergeOwnerRefs false existing [o] = Some (true, existing ++ [o]).
Proof.
  intros Hlast Hc Hnone. rewrite MergeOwnerRefs_one.
  unfold resourcemerge.mergeOwnerRef.
  rewrite Hlast. apply Ascii.eqb_neq in Hc. rewrite Hc.
  rewrite (proj2 (existedIndex_none o existing) Hnone).
  destruct (decide (length existing = length existing)); [|contradiction].
  reflexivity.
Qed.

(** Adding an owner to the references that adding it has produced changes
    nothing. *)
Lemma MergeOwnerRefs_add_stable (o : metav1.OwnerReference) (c : ascii)
    (existing patched : list metav1.OwnerReference) (modified : bool) :
  resourcemerge.lastByte (metav1.UID o) = Some c -> c <> "-"%char ->
  resourcemerge.ownerRefMatched o o = true ->
  resourcemerge.MergeOwnerRefs false existing [o] = Some (modified, patched) ->
  resourcemerge.MergeOwnerRefs false patched [o] = Some (false, patched).
Proof.
  intros Hlast Hc Hself. rewrite !MergeOwnerRefs_one.
  unfold resourcemerge.mergeOwnerRef.
  rewrite Hlast. apply Ascii.eqb_neq in Hc. rewrite Hc.
  change (negb false) with true. cbv beta iota zeta.
  assert (forall pre post,
            (forall y, y ∈ pre -> resourcemerge.ownerRefMatched o y = false) ->
            (if decide (resourcemerge.existedIndex o (pre ++ o :: post)
                        = length (pre ++ o :: post))
             then Some (true, (pre ++ o :: post) ++ [o])
             else match (pre ++ o :: post)
                        !! resourcemerge.existedIndex o (pre ++ o :: post) with
                  | Some e => if decide (o <> e)
                              then Some (true,
                                     <[resourcemerge.existedIndex o (pre ++ o :: post)
                                       := o]> (pre ++ o :: post))
                              else Some (false, pre ++ o :: post)
                  | None => Some (false, pre ++ o :: post)
                  end) = Some (false, pre ++ o :: post)) as Hstable.
  { intros pre post Hpre.
    rewrite (gc_facts.existedIndex_first o o pre post Hpre Hself).
    destruct (decide (length pre = length (pre ++ o :: post))) as [Hlen|_].
    { rewrite length_app in Hlen. simpl in Hlen. lia. }
    rewrite list_lookup_middle by reflexivity.
    destruct (decide (o <> o)); [contradiction|reflexivity]. }
  destruct (decide (resourcemerge.existedIndex o existing = length existing))
    as [Hnone|Hfound].
  - intros Hmerge. injection Hmerge as <- <-.
    apply (Hstable existing []). apply existedIndex_none, Hnone.
  - destruct (existedIndex_found o existing Hfound)
      as (pre & x & post & -> & Hlen & Hpre & Hx).
    rewrite <- Hlen. rewrite list_lookup_middle by reflexivity.
    destruct (decide (o <> x)) as [Hne|Heq].
    + intros Hmerge. injection Hmerge as <- <-.
      rewrite insert_app_r_alt by lia. rewrite Nat.sub_diag. simpl.
      apply (Hstable pre post Hpre).
    + apply dec_stable in Heq. subst x.
      intros Hmerge. injection Hmerge as <- <-. apply (Hstable pre post Hpre).
Qed.

Section WithServer.
Context {W : Type}.
Variable srv : client.Server W.

(** X21. [ApplyOwnerReferences] panics exactly when the UID of the required
    owner is empty. Otherwise it makes at most one call, a merge patch
    addressed to the object that carries the UID and the resource version of
    the object, and it returns the answer to the patch, or nil when there was
    nothing to patch. *)
Theorem owner_patch_outcomes (gvr : schema.GroupVersionResource)
    (existing : unstructured.Unstructured) (requiredOwner : metav1.OwnerReference)
    (w : W) :
  let run := ApplyOwnerReferences srv gvr existing requiredOwner in
  (client.result run w = Panicked <-> metav1.UID requiredOwner = "") /\
  (client.calls run w = [] /\
     (client.result run w = Panicked \/ client.result run w = Returned None)
   \/ exists owners answer,
        client.calls run w
        = [client.CallPatch gvr (unstructured.Namespace existing)
             (unstructured.Name existing) "application/merge-patch+json"
             {| client.PatchUID := unstructured.UID existing;
                client.PatchResourceVersion := unstructured.ResourceVersion existing;
                client.PatchOwnerReferences := owners |} answer] /\
        client.result run w = Returned answer).
Proof.
  intros run. subst run. unfold client.calls, client.result, ApplyOwnerReferences.
  rewrite MergeOwnerRefs_one.
  pose proof (mergeOwnerRef_panics false (unstructured.OwnerReferences existing)
                requiredOwner) as Hempty.
  destruct (resourcemerge.mergeOwnerRef
              (false, unstructured.OwnerReferences existing) requiredOwner)
    as [[modified owners]|].
  2:{ simpl. split; [split; [intros _; apply Hempty; reflexivity | reflexivity]|].
      left. split; [reflexivity | left; reflexivity]. }
  destruct modified.
  - change (negb true) with false. cbv beta iota zeta.
    unfold client.bind, client.Patch, client.request.
    destruct (client.patch srv gvr (unstructured.Namespace existing)
                (unstructured.Name existing) client.MergePatchType
                {| client.PatchUID := unstructured.UID existing;
                   client.PatchResourceVersion :=
                     unstructured.ResourceVersion existing;
                   client.PatchOwnerReferences := owners |} w) as [answer w1].
    simpl. split.
    + split; [discriminate|]. intros Hu. apply Hempty in Hu. discriminate.
    + right. exists owners, answer. split; reflexivity.
  - simpl. split.
    + split; [discriminate|]. intros Hu. apply Hempty in Hu. discriminate.
    + left. split; [reflexivity | right; reflexivity].
Qed.

(** X22. Adding an owner and then asking for its removal gives back the
    owner references one started from. Let the owner have a UID that is not
    empty and does not end in a dash and an API version that parses, and
    let it match none of the references of the object. Then
    [ApplyOwnerReferences] patches the object with its references followed
    by the owner, and on an object with these references, asking for the
    removal of the owner patches it with the first references again. *)
Theorem owner_added_then_removed (gvr : schema.GroupVersionResource)
    (existing updated : unstructured.Unstructured)
    (owner : metav1.OwnerReference) (last : ascii) (w w' : W) :
  resourcemerge.lastByte (metav1.UID owner) = Some last -> last <> "-"%char ->
  schema.ParseGroupVersion (metav1.APIVersion owner) <> None ->
  (forall y, y ∈ unstructured.OwnerReferences existing ->
             resourcemerge.ownerRefMatched owner y = false) ->
  unstructured.OwnerReferences updated
    = unstructured.OwnerReferences existing ++ [owner] ->
  (exists answer,
     client.calls (ApplyOwnerReferences srv gvr existing owner) w
     = [client.CallPatch gvr (unstructured.Namespace existing)
          (unstructured.Name existing) client.MergePatchType
          {| client.PatchUID := unstructured.UID existing;
             client.PatchResourceVersion := unstructured.ResourceVersion existing;
             client.PatchOwnerReferences :=
               unstructured.OwnerReferences existing ++ [owner] |} answer]) /\
  (exists answer,
     client.calls (ApplyOwnerReferences srv gvr updated (ownerToRemove owner)) w'
     = [client.CallPatch gvr (unstructured.Namespace updated)
          (unstructured.Name updated) client.MergePatchType
          {| client.PatchUID := unstructured.UID updated;
             client.PatchResourceVersion := unstructured.ResourceVersion updated;
             client.PatchOwnerReferences :=
               unstructured.OwnerReferences existing |} answer]).
Proof.
  intros Hlast Hc Hparse Hnone Hupdated.
  unfold client.calls, ApplyOwnerReferences. split.
  - rewrite (MergeOwnerRefs_appends owner last _ Hlast Hc Hnone).
    change (negb true) with false. cbv beta iota.
    unfold client.bind, client.Patch, client.request.
    match goal with |- context [client.patch srv ?g ?ns ?n ?t ?p w] =>
      destruct (client.patch srv g ns n t p w) as [answer w1] end.
    exists answer. reflexivity.
  - rewrite Hupdated.
    rewrite (gc_facts.MergeOwnerRefs_removes owner owner
               (unstructured.OwnerReferences existing) []).
    + rewrite app_nil_r. change (negb true) with false. cbv beta iota.
      unfold client.bind, client.Patch, client.request.
      match goal with |- context [client.patch srv ?g ?ns ?n ?t ?p w'] =>
        destruct (client.patch srv g ns n t p w') as [answer w1] end.
      exists answer. reflexivity.
    + intros y Hy. rewrite ownerRefMatched_UID. apply Hnone, Hy.
    + rewrite ownerRefMatched_UID. apply ownerRefMatched_refl, Hparse.
Qed.

(** X23. Adding an owner twice patches once. Let the owner have a UID that
    is not empty and does not end in a dash and an API version that parses.
    When [ApplyOwnerReferences] has patched the owner references of an
    object, applying the same owner to an object that has the patched
    references makes no call and returns nil. *)
Theorem owner_is_added_once (gvr : schema.GroupVersionResource)
    (existing updated : unstructured.Unstructured)
    (owner : metav1.OwnerReference) (last : ascii) (w w' : W)
    (namespace name patchType : string) (patch : client.OwnerPatch)
    (answer : option error) :
  resourcemerge.lastByte (metav1.UID owner) = Some last -> last <> "-"%char ->
  schema.ParseGroupVersion (metav1.APIVersion owner) <> None ->
  client.CallPatch gvr namespace name patchType patch answer
    ∈ client.calls (ApplyOwnerReferences srv gvr existing owner) w ->
  unstructured.OwnerReferences updated = client.PatchOwnerReferences patch ->
  client.calls (ApplyOwnerReferences srv gvr updated owner) w' = [] /\
  client.result (ApplyOwnerReferences srv gvr updated owner) w' = Returned None.
Proof.
  intros Hlast Hc Hparse Hin Hupdated.
  unfold client.calls, client.result, ApplyOwnerReferences in *.
  destruct (resourcemerge.MergeOwnerRefs false
              (unstructured.OwnerReferences existing) [owner])
    as [[modified patched]|] eqn:Hmerge.
  2:{ inversion Hin. }
  destruct modified.
  2:{ inversion Hin. }
  change (negb true) with false in Hin. cbv beta iota in Hin.
  unfold client.bind, client.Patch, client.request in Hin.
  match type of Hin with context [client.patch srv ?g ?ns ?n ?t ?p w] =>
    destruct (client.patch srv g ns n t p w) as [answer0 w1] end.
  simpl in Hin. apply list_elem_of_singleton in Hin.
  injection Hin as _ _ _ -> _. simpl in Hupdated. rewrite Hupdated.
  rewrite (MergeOwnerRefs_add_stable owner last _ patched true Hlast Hc
             (ownerRefMatched_refl owner Hparse) Hmerge).
  split; reflexivity.
Qed.

End WithServer.

(** X17, on the instance of the test "delete resources": the secret that
    only the agent owns is deleted. *)
Lemma deletes_are_guarded_witness :
  exists resource u o,
    resource ∈ [fixtures.appliedSecret "ns1" "n1" "ns1-n1"] /\
    client.CallGet (gvrOf resource) (Namespace resource) (Name resource) (inr u)
      ∈ client.calls
          (DeleteAppliedResources
             (fixtures.gcServer
                [fixtures.newSecret "ns1" "n1" false "ns1-n1"
                   [fixtures.ownerRef "n1" "a"]] None)
             [fixtures.appliedSecret "ns1" "n1" "ns1-n1"] "testing"
             (fixtures.ownerRef "n1" "a") None) tt /\
    unstructured.OwnerReferences u = [o] /\
    metav1.UID o = metav1.UID (fixtures.ownerRef "n1" "a") /\
    unstructured.UID u = UID resource /\
    terminating u = false /\
    fixtures.secrets = gvrOf resource /\ "ns1" = Namespace resource /\
    "n1" = Name resource /\
    {| client.PreconditionUID := Some "ns1-n1";
       client.PropagationPolicy := Some "Background" |}
    = {| client.PreconditionUID := Some (UID resource);
         client.PropagationPolicy := Some "Background" |}.
Proof.
  apply (deletes_are_guarded
           (fixtures.gcServer
              [fixtures.newSecret "ns1" "n1" false "ns1-n1"
                 [fixtures.ownerRef "n1" "a"]] None)
           [fixtures.appliedSecret "ns1" "n1" "ns1-n1"] "testing"
           (fixtures.ownerRef "n1" "a") None tt fixtures.secrets "ns1" "n1"
           {| client.PreconditionUID := Some "ns1-n1";
              client.PropagationPolicy := Some "Background" |} None).
  vm_compute. do 2 right. left.
Defined.

(** X18, on the instance of the test "skip without uid": the second secret
    is being deleted already. *)
Lemma pending_is_being_deleted_witness :
  fixtures.appliedSecret "ns2" "n2" "ns2-n2"
    ∈ [fixtures.appliedSecret "ns1" "n1" "";
       fixtures.appliedSecret "ns2" "n2" "ns2-n2"] /\
  exists u o,
    client.CallGet fixtures.secrets "ns2" "n2" (inr u)
      ∈ client.calls
          (DeleteAppliedResources
             (fixtures.gcServer
                [fixtures.newSecret "ns1" "n1" false "ns1-n1"
                   [fixtures.ownerRef "n1" "a"];
                 fixtures.newSecret "ns2" "n2" true "ns2-n2"
                   [fixtures.ownerRef "n1" "a"]] None)
             [fixtures.appliedSecret "ns1" "n1" "";
              fixtures.appliedSecret "ns2" "n2" "ns2-n2"] "testing"
             (fixtures.ownerRef "n1" "a") None) tt /\
    unstructured.OwnerReferences u = [o] /\
    metav1.UID o = "a" /\
    unstructured.UID u = "ns2-n2" /\
    (terminating u = true \/
     client.CallDelete fixtures.secrets "ns2" "n2"
       (deleteOptions (fixtures.appliedSecret "ns2" "n2" "ns2-n2")) None
       ∈ client.calls
           (DeleteAppliedResources
              (fixtures.gcServer
                 [fixtures.newSecret "ns1" "n1" false "ns1-n1"
                    [fixtures.ownerRef "n1" "a"];
                  fixtures.newSecret "ns2" "n2" true "ns2-n2"
                    [fixtures.ownerRef "n1" "a"]] None)
              [fixtures.appliedSecret "ns1" "n1" "";
               fixtures.appliedSecret "ns2" "n2" "ns2-n2"] "testing"
              (fixtures.ownerRef "n1" "a") None) tt).
Proof.
  apply (pending_is_being_deleted
           (fixtures.gcServer
              [fixtures.newSecret "ns1" "n1" false "ns1-n1"
                 [fixtures.ownerRef "n1" "a"];
               fixtures.newSecret "ns2" "n2" true "ns2-n2"
                 [fixtures.ownerRef "n1" "a"]] None)
           [fixtures.appliedSecret "ns1" "n1" "";
            fixtures.appliedSecret "ns2" "n2" "ns2-n2"] "testing"
           (fixtures.ownerRef "n1" "a") None tt
           [fixtures.appliedSecret "ns2" "n2" "ns2-n2"] []
           (fixtures.appliedSecret "ns2" "n2" "ns2-n2")).
  - vm_compute. reflexivity.
  - left.
Defined.

(** X19, on an instance: the validation of the delete times out. *)
Lemma failed_validation_is_reported_witness :
  client.result
    (deleteAppliedResource
       (fixtures.gcServer
          [fixtures.newSecret "ns1" "n1" false "ns1-n1"
             [fixtures.ownerRef "n1" "a"]] (Some fixtures.timeout))
       "testing" (fixtures.ownerRef "n1" "a") (Some fixtures.executor) ([], [])
       (fixtures.appliedSecret "ns1" "n1" "ns1-n1")) tt
  = Returned ([],
      [] ++ [wrapError (failedTo "check delete permission for resource"
                          fixtures.secrets "ns1" "n1") fixtures.timeout]).
Proof.
  apply (failed_validation_is_reported
           (fixtures.gcServer
              [fixtures.newSecret "ns1" "n1" false "ns1-n1"
                 [fixtures.ownerRef "n1" "a"]] (Some fixtures.timeout))
           "testing" (fixtures.ownerRef "n1" "a") (Some fixtures.executor)
           ([], []) (fixtures.appliedSecret "ns1" "n1" "ns1-n1")
           (fixtures.newSecret "ns1" "n1" false "ns1-n1"
              [fixtures.ownerRef "n1" "a"])
           fixtures.timeout tt tt tt).
  - vm_compute. reflexivity.
  - reflexivity.
  - reflexivity.
  - reflexivity.
Defined.

(** X20, on the instance of the test "skip if resource does not exist". *)
Lemma missing_resources_are_skipped_witness :
  client.result
    (DeleteAppliedResources (fixtures.gcServer [] None)
       [fixtures.appliedSecret "ns1" "n1" ""] "testing"
       (fixtures.ownerRef "n1" "a") None) tt
  = Returned ([], []).
Proof.
  apply (missing_resources_are_skipped (fixtures.gcServer [] None)
           [fixtures.appliedSecret "ns1" "n1" ""] "testing"
           (fixtures.ownerRef "n1" "a") None tt).
  intros gvr namespace name w0. eexists. exists w0. split; reflexivity.
Defined.

(** X21, on an instance: a required owner without UID. *)
Lemma owner_patch_outcomes_witness :
  client.result
    (ApplyOwnerReferences (fixtures.gcServer [] None) fixtures.secrets
       (fixtures.newSecret "ns1" "n1" false "ns1-n1" [])
       (fixtures.ownerRef "n1" "")) tt = Panicked.
Proof.
  destruct (owner_patch_outcomes (fixtures.gcServer [] None) fixtures.secrets
              (fixtures.newSecret "ns1" "n1" false "ns1-n1" [])
              (fixtures.ownerRef "n1" "") tt) as ([_ Hempty] & _).
  apply Hempty. reflexivity.
Defined.

(** X22, on the instances of the tests "append a owner" and "remove a
    owner". *)
Lemma owner_added_then_removed_witness :
  exists answer,
    client.calls
      (ApplyOwnerReferences (fixtures.gcServer [] None) fixtures.secrets
         (fixtures.newSecret "ns1" "n1" false "ns1-n1"
            [fixtures.ownerRef "n2" "b"; fixtures.ownerRef "n1" "a"])
         (ownerToRemove (fixtures.ownerRef "n1" "a"))) tt
    = [client.CallPatch fixtures.secrets "ns1" "n1" client.MergePatchType
         {| client.PatchUID := "ns1-n1";
            client.PatchResourceVersion := "";
            client.PatchOwnerReferences := [fixtures.ownerRef "n2" "b"] |}
         answer].
Proof.
  apply (owner_added_then_removed (fixtures.gcServer [] None) fixtures.secrets
           (fixtures.newSecret "ns1" "n1" false "ns1-n1"
              [fixtures.ownerRef "n2" "b"])
           (fixtures.newSecret "ns1" "n1" false "ns1-n1"
              [fixtures.ownerRef "n2" "b"; fixtures.ownerRef "n1" "a"])
           (fixtures.ownerRef "n1" "a") "a"%char tt tt).
  - reflexivity.
  - discriminate.
  - discriminate.
  - intros y Hy. apply list_elem_of_singleton in Hy. subst y. reflexivity.
  - reflexivity.
Defined.

(** X23, on the instance of the test "append an existing owner". *)
Lemma owner_is_added_once_witness :
  client.calls
    (ApplyOwnerReferences (fixtures.gcServer [] None) fixtures.secrets
       (fixtures.newSecret "ns1" "n1" false "ns1-n1"
          [fixtures.ownerRef "n2" "b"; fixtures.ownerRef "n1" "a"])
       (fixtures.ownerRef "n1" "a")) tt = [] /\
  client.result
    (ApplyOwnerReferences (fixtures.gcServer [] None) fixtures.secrets
       (fixtures.newSecret "ns1" "n1" false "ns1-n1"
          [fixtures.ownerRef "n2" "b"; fixtures.ownerRef "n1" "a"])
       (fixtures.ownerRef "n1" "a")) tt = Returned None.
Proof.
  apply (owner_is_added_once (fixtures.gcServer [] None) fixtures.secrets
           (fixtures.newSecret "ns1" "n1" false "ns1-n1"
              [fixtures.ownerRef "n2" "b"])
           (fixtures.newSecret "ns1" "n1" false "ns1-n1"
              [fixtures.ownerRef "n2" "b"; fixtures.ownerRef "n1" "a"])
           (fixtures.ownerRef "n1" "a") "a"%char tt tt
           "ns1" "n1" client.MergePatchType
           {| client.PatchUID := "ns1-n1";
              client.PatchResourceVersion := "";
              client.PatchOwnerReferences :=
                [fixtures.ownerRef "n2" "b"; fixtures.ownerRef "n1" "a"] |}
           None).
  - reflexivity.
  - discriminate.
  - discriminate.
  - vm_compute. left.
  - reflexivity.
Defined.

End gc_more.

Module helper_objects_facts.
Import workapiv1_options helper_objects.

Lemma length_append (p t : string) :
  String.length (p +:+ t) = String.length p + String.length t.
Proof. induction p as [|c p IH]; simpl; [reflexivity | rewrite IH; reflexivity]. Qed.

Lemma substring_whole (s : string) : String.substring 0 (String.length s) s = s.
Proof. induction s as [|c s IH]; simpl; [reflexivity | rewrite IH; reflexivity]. Qed.

Lemma substring_prefix (p t : string) :
  String.substring 0 (String.length p) (p +:+ t) = p.
Proof.
  induction p as [|c p IH]; simpl; [destruct t; reflexivity|].
  rewrite IH. reflexivity.
Qed.

Lemma substring_suffix (p t : string) (m : nat) :
  String.substring (String.length p) m (p +:+ t) = String.substring 0 m t.
Proof.
  induction p as [|c p IH]; simpl; [reflexivity | exact IH].
Qed.

Lemma HasPrefix_append (p t : string) : gostrings.HasPrefix (p +:+ t) p = true.
Proof.
  unfold gostrings.HasPrefix, gostrings.sliceTo.
  rewrite substring_prefix, String.eqb_refl, length_append.
  rewrite andb_true_r. apply Nat.leb_le. lia.
Qed.

Lemma append_assoc (a b c : string) : (a +:+ b) +:+ c = a +:+ (b +:+ c).
Proof.
  induction a as [|x a IH]; [reflexivity|].
  change (String x ((a +:+ b) +:+ c) = String x (a +:+ (b +:+ c))).
  rewrite IH. reflexivity.
Qed.

Lemma TrimPrefix_append (p t : string) : gostrings.TrimPrefix (p +:+ t) p = t.
Proof.
  unfold gostrings.TrimPrefix. rewrite HasPrefix_append.
  unfold gostrings.sliceFrom. rewrite substring_suffix, length_append.
  replace (String.length p + String.length t - String.length p)
    with (String.length t) by lia.
  apply substring_whole.
Qed.

Lemma HasPrefix_inv (s p : string) :
  gostrings.HasPrefix s p = true ->
  s = p +:+ gostrings.sliceFrom s (String.length p).
Proof.
  unfold gostrings.HasPrefix, gostrings.sliceTo, gostrings.sliceFrom.
  intros Hp. apply andb_true_iff in Hp as [_ Heq].
  apply String.eqb_eq in Heq. revert s Heq.
  induction p as [|c p IH]; intros s Heq.
  - simpl. rewrite Nat.sub_0_r. symmetry. apply substring_whole.
  - destruct s as [|d s]; [discriminate|]. simpl in Heq.
    injection Heq as -> Heq.
    change (String c s
            = String c (p +:+ substring (String.length p)
                                (String.length s - String.length p) s)).
    f_equal. apply IH, Heq.
Qed.

Lemma keepOthers_filter (finalizers : list string) (finalizerName : string)
    (newFinalizers : list string) :
  keepOthers finalizers finalizerName newFinalizers
  = newFinalizers ++ filter (fun f => f <> finalizerName) finalizers.
Proof.
  revert newFinalizers.
  induction finalizers as [|f rest IH]; intros newFinalizers; simpl.
  - rewrite app_nil_r. reflexivity.
  - destruct (decide (f = finalizerName)) as [->|Hne].
    + rewrite IH. rewrite filter_cons_False by (intros H; apply H; reflexivity).
      reflexivity.
    + rewrite IH, filter_cons_True by exact Hne.
      rewrite <- app_assoc. reflexivity.
Qed.

(** X24. [RemoveFinalizer] takes every occurrence of the finalizer out and
    nothing else: the finalizers left are the other ones, with their
    repetitions and in their order, the name and the UID of the object are
    untouched, an object without the finalizer is unchanged, and removing
    the finalizer a second time changes nothing. *)
Theorem finalizer_is_removed (object : runtime.Object) (finalizerName : string) :
  let removed := RemoveFinalizer object finalizerName in
  (finalizerName ∉ runtime.Finalizers removed) /\
  runtime.Finalizers removed
    = filter (fun f => f <> finalizerName) (runtime.Finalizers object) /\
  runtime.Name removed = runtime.Name object /\
  runtime.UID removed = runtime.UID object /\
  (finalizerName ∉ runtime.Finalizers object -> removed = object) /\
  RemoveFinalizer removed finalizerName = removed.
Proof.
  intros removed. subst removed. unfold RemoveFinalizer. simpl.
  rewrite !keepOthers_filter. simpl.
  split; [|split; [reflexivity|split; [reflexivity|split; [reflexivity|split]]]].
  - intros Hin. apply list_elem_of_filter in Hin as [Hne _]. apply Hne. reflexivity.
  - intros Hnot. destruct object as [name uid finalizers]. simpl in *. f_equal.
    induction finalizers as [|f rest IH]; [reflexivity|].
    apply not_elem_of_cons in Hnot as [Hne Hrest].
    rewrite filter_cons_True by (intros ->; apply Hne; reflexivity).
    f_equal. apply IH, Hrest.
  - f_equal. rewrite list_filter_filter. apply list_filter_iff.
    intros f. tauto.
Qed.

(** X25. The queue key inverts the naming of applied manifest works: an
    object named with the hub hash, a dash and the name of a work passes
    the filter of the hub and has the name of the work as its key. An
    object whose name does not start with the hub hash does not pass the
    filter and has the empty key. *)
Theorem queue_key_of_applied_work (hubhash workName : string)
    (obj : runtime.Object) :
  (runtime.Name obj = hubhash +:+ "-" +:+ workName ->
     AppliedManifestworkHubHashFilter hubhash obj = true /\
     AppliedManifestworkQueueKeyFunc hubhash obj = workName) /\
  ((forall rest, runtime.Name obj <> hubhash +:+ rest) ->
     AppliedManifestworkHubHashFilter hubhash obj = false /\
     AppliedManifestworkQueueKeyFunc hubhash obj = "").
Proof.
  unfold AppliedManifestworkHubHashFilter, AppliedManifestworkQueueKeyFunc.
  split.
  - intros ->. rewrite HasPrefix_append. split; [reflexivity|].
    change (negb true) with false. cbv beta iota.
    rewrite <- append_assoc. apply TrimPrefix_append.
  - intros Hforeign.
    assert (gostrings.HasPrefix (runtime.Name obj) hubhash = false) as ->.
    { destruct (gostrings.HasPrefix (runtime.Name obj) hubhash) eqn:Hp;
        [|reflexivity].
      exfalso. apply (Hforeign _ (HasPrefix_inv _ _ Hp)). }
    split; reflexivity.
Qed.

Lemma findConfig_Some (identifier : ResourceIdentifier)
    (manifestOptions : list ManifestConfigOption) (config : ManifestConfigOption) :
  findConfig identifier manifestOptions = Some config <->
  exists before after,
    manifestOptions = before ++ config :: after /\
    ResourceIdentifier_ config = identifier /\
    (forall other, other ∈ before -> ResourceIdentifier_ other <> identifier).
Proof.
  induction manifestOptions as [|c rest IH]; simpl.
  - split; [discriminate|]. intros (before & after & Heq & _).
    destruct before; discriminate.
  - destruct (decide (ResourceIdentifier_ c = identifier)) as [Hc|Hc].
    + split.
      * intros [= <-]. exists [], rest. repeat split; [exact Hc|].
        intros other Hin. inversion Hin.
      * intros (before & after & Heq & Hid & Hbefore).
        destruct before as [|b before]; simpl in Heq.
        -- injection Heq as -> _. reflexivity.
        -- injection Heq as -> _. exfalso. apply (Hbefore b); [left | exact Hc].
    + rewrite IH. split.
      * intros (before & after & -> & Hid & Hbefore).
        exists (c :: before), after. repeat split; [exact Hid|].
        intros other Hin. apply elem_of_cons in Hin as [->|Hin];
          [exact Hc | apply Hbefore, Hin].
      * intros (before & after & Heq & Hid & Hbefore).
        destruct before as [|b before]; simpl in Heq.
        -- injection Heq as -> _. contradiction.
        -- injection Heq as -> ->. exists before, after. repeat split; [exact Hid|].
           intros other Hin. apply Hbefore. right. exact Hin.
Qed.

Lemma findConfig_None (identifier : ResourceIdentifier)
    (manifestOptions : list ManifestConfigOption) :
  findConfig identifier manifestOptions = None <->
  (forall other, other ∈ manifestOptions -> ResourceIdentifier_ other <> identifier).
Proof.
  induction manifestOptions as [|c rest IH]; simpl.
  - split; [|reflexivity]. intros _ other Hin. inversion Hin.
  - destruct (decide (ResourceIdentifier_ c = identifier)) as [Hc|Hc].
    + split; [discriminate|]. intros Hall. exfalso. apply (Hall c); [left | exact Hc].
    + rewrite IH. split.
      * intros Hall other Hin. apply elem_of_cons in Hin as [->|Hin];
          [exact Hc | apply Hall, Hin].
      * intros Hall other Hin. apply Hall. right. exact Hin.
Qed.

(** X26. [FindManifestConiguration] returns the first option of the list
    whose identifier has the group, resource, namespace and name of the
    manifest, and nil exactly when no option has them. The version, the
    kind and the ordinal of the manifest play no part. *)
Theorem configuration_is_the_first_match
    (resourceMeta : workapiv1.ManifestResourceMeta)
    (manifestOptions : list ManifestConfigOption) :
  (forall config,
     FindManifestConiguration resourceMeta manifestOptions = Some config <->
     exists before after,
       manifestOptions = before ++ config :: after /\
       ResourceIdentifier_ config
       = {| Group := workapiv1.Group resourceMeta;
            Resource := workapiv1.Resource resourceMeta;
            Name := workapiv1.Name resourceMeta;
            Namespace := workapiv1.Namespace resourceMeta |} /\
       (forall other, other ∈ before ->
          ResourceIdentifier_ other
          <> {| Group := workapiv1.Group resourceMeta;
                Resource := workapiv1.Resource resourceMeta;
                Name := workapiv1.Name resourceMeta;
                Namespace := workapiv1.Namespace resourceMeta |})) /\
  (FindManifestConiguration resourceMeta manifestOptions = None <->
   forall other, other ∈ manifestOptions ->
     ResourceIdentifier_ other
     <> {| Group := workapiv1.Group resourceMeta;
           Resource := workapiv1.Resource resourceMeta;
           Name := workapiv1.Name resourceMeta;
           Namespace := workapiv1.Namespace resourceMeta |}) /\
  (forall ordinal version kind,
     FindManifestConiguration
       {| workapiv1.Ordinal := ordinal;
          workapiv1.Group := workapiv1.Group resourceMeta;
          workapiv1.Version := version;
          workapiv1.Kind := kind;
          workapiv1.Resource := workapiv1.Resource resourceMeta;
          workapiv1.Name := workapiv1.Name resourceMeta;
          workapiv1.Namespace := workapiv1.Namespace resourceMeta |}
       manifestOptions
     = FindManifestConiguration resourceMeta manifestOptions).
Proof.
  unfold FindManifestConiguration.
  split; [|split].
  - intros config. apply findConfig_Some.
  - apply findConfig_None.
  - reflexivity.
Qed.

(** The reference of the agent matches itself, with or without the dash
    that asks for its removal: its API version parses. *)
Lemma new_owner_matches_itself (appliedWork : runtime.Object) :
  resourcemerge.ownerRefMatched
    (spoke_helper.ownerToRemove (NewAppliedManifestWorkOwner appliedWork))
    (NewAppliedManifestWorkOwner appliedWork) = true.
Proof.
  unfold resourcemerge.ownerRefMatched.
  cbn [spoke_helper.ownerToRemove NewAppliedManifestWorkOwner
       metav1.Name metav1.Kind metav1.APIVersion].
  destruct (decide (runtime.Name appliedWork <> runtime.Name appliedWork));
    [contradiction|].
  destruct (decide ("AppliedManifestWork" <> "AppliedManifestWork"));
    [contradiction|].
  vm_compute. reflexivity.
Qed.

Section WithServer.
Context {W : Type}.
Variable srv : client.Server W.

(** X27. The owner reference the agent makes for an applied manifest work
    can always be released again. An object that carries it counts as owned
    by the applied work, and asking for its removal patches the object with
    the references without it, the others unchanged and in their order,
    provided no earlier reference has the name of the applied work, the kind
    AppliedManifestWork and the group of the work API. *)
Theorem agent_owner_can_be_released (appliedWork : runtime.Object)
    (gvr : schema.GroupVersionResource) (u : unstructured.Unstructured)
    (before after : list metav1.OwnerReference) (w : W) :
  let owner := NewAppliedManifestWorkOwner appliedWork in
  unstructured.OwnerReferences u = before ++ owner :: after ->
  (forall other, other ∈ before ->
     resourcemerge.ownerRefMatched owner other = false) ->
  helper.IsOwnedBy owner (unstructured.OwnerReferences u) = true /\
  exists answer,
    client.calls
      (spoke_helper.ApplyOwnerReferences srv gvr u
         (spoke_helper.ownerToRemove owner)) w
    = [client.CallPatch gvr (unstructured.Namespace u) (unstructured.Name u)
         client.MergePatchType
         {| client.PatchUID := unstructured.UID u;
            client.PatchResourceVersion := unstructured.ResourceVersion u;
            client.PatchOwnerReferences := before ++ after |} answer] /\
    client.result
      (spoke_helper.ApplyOwnerReferences srv gvr u
         (spoke_helper.ownerToRemove owner)) w
    = spoke_helper.Returned answer.
Proof.
  intros owner Howners Hbefore. split.
  - apply gc_facts.IsOwnedBy_UID. exists owner.
    split; [rewrite Howners; apply elem_of_app; right; left | reflexivity].
  - unfold client.calls, client.result, spoke_helper.ApplyOwnerReferences.
    rewrite Howners.
    rewrite (gc_facts.MergeOwnerRefs_removes owner owner before after Hbefore
               (new_owner_matches_itself appliedWork)).
    change (negb true) with false. cbv beta iota.
    unfold client.bind, client.Patch, client.request.
    match goal with |- context [client.patch srv ?g ?ns ?n ?t ?p w] =>
      destruct (client.patch srv g ns n t p w) as [answer w1] end.
    exists answer. split; reflexivity.
Qed.

End WithServer.

(** X24, on an instance: a finalizer that occurs twice. *)
Lemma finalizer_is_removed_witness :
  RemoveFinalizer
    {| runtime.Name := "work1"; runtime.UID := "a";
       runtime.Finalizers := ["cleanup"; "other"; "cleanup"] |} "cleanup"
  = {| runtime.Name := "work1"; runtime.UID := "a";
       runtime.Finalizers := ["other"] |}.
Proof.
  destruct (finalizer_is_removed
              {| runtime.Name := "work1"; runtime.UID := "a";
                 runtime.Finalizers := ["cleanup"; "other"; "cleanup"] |}
              "cleanup") as (_ & Hleft & Hname & Huid & _).
  destruct (RemoveFinalizer _ _) as [name uid finalizers].
  simpl in Hleft, Hname, Huid. subst name uid finalizers. reflexivity.
Defined.

(** X26, on an instance: two options for the same deployment. *)
Lemma configuration_is_the_first_match_witness :
  FindManifestConiguration
    {| workapiv1.Ordinal := 3%Z; workapiv1.Group := "apps";
       workapiv1.Version := "v1"; workapiv1.Kind := "Deployment";
       workapiv1.Resource := "deployments"; workapiv1.Name := "d1";
       workapiv1.Namespace := "ns1" |}
    [{| ResourceIdentifier_ :=
          {| Group := ""; Resource := "secrets"; Name := "s1";
             Namespace := "ns1" |};
        Rules := "none" |};
     {| ResourceIdentifier_ :=
          {| Group := "apps"; Resource := "deployments"; Name := "d1";
             Namespace := "ns1" |};
        Rules := "first" |};
     {| ResourceIdentifier_ :=
          {| Group := "apps"; Resource := "deployments"; Name := "d1";
             Namespace := "ns1" |};
        Rules := "second" |}]
  = Some {| ResourceIdentifier_ :=
              {| Group := "apps"; Resource := "deployments"; Name := "d1";
                 Namespace := "ns1" |};
            Rules := "first" |}.
Proof.
  destruct (configuration_is_the_first_match
              {| workapiv1.Ordinal := 3%Z; workapiv1.Group := "apps";
                 workapiv1.Version := "v1"; workapiv1.Kind := "Deployment";
                 workapiv1.Resource := "deployments"; workapiv1.Name := "d1";
                 workapiv1.Namespace := "ns1" |}
              [{| ResourceIdentifier_ :=
                    {| Group := ""; Resource := "secrets"; Name := "s1";
                       Namespace := "ns1" |};
                  Rules := "none" |};
               {| ResourceIdentifier_ :=
                    {| Group := "apps"; Resource := "deployments"; Name := "d1";
                       Namespace := "ns1" |};
                  Rules := "first" |};
               {| ResourceIdentifier_ :=
                    {| Group := "apps"; Resource := "deployments"; Name := "d1";
                       Namespace := "ns1" |};
                  Rules := "second" |}]) as (Hsome & _).
  apply Hsome.
  exists [{| ResourceIdentifier_ :=
               {| Group := ""; Resource := "secrets"; Name := "s1";
                  Namespace := "ns1" |};
             Rules := "none" |}],
         [{| ResourceIdentifier_ :=
               {| Group := "apps"; Resource := "deployments"; Name := "d1";
                  Namespace := "ns1" |};
             Rules := "second" |}].
  split; [reflexivity|]. split; [reflexivity|].
  intros other Hin. apply list_elem_of_singleton in Hin. subst other. discriminate.
Defined.

(** X25, on an instance. *)
Lemma queue_key_of_applied_work_witness :
  AppliedManifestworkHubHashFilter "hub1"
    {| runtime.Name := "hub1-work1"; runtime.UID := "";
       runtime.Finalizers := [] |} = true /\
  AppliedManifestworkQueueKeyFunc "hub1"
    {| runtime.Name := "hub1-work1"; runtime.UID := "";
       runtime.Finalizers := [] |} = "work1".
Proof.
  apply (queue_key_of_applied_work "hub1" "work1"
           {| runtime.Name := "hub1-work1"; runtime.UID := "";
              runtime.Finalizers := [] |}).
  reflexivity.
Defined.

(** X27, on an instance: a secret owned by the applied work and by
    another owner. *)
Lemma agent_owner_can_be_released_witness :
  helper.IsOwnedBy
    (NewAppliedManifestWorkOwner
       {| runtime.Name := "hub1-work1"; runtime.UID := "a";
          runtime.Finalizers := [] |})
    [fixtures.ownerRef "n2" "b";
     NewAppliedManifestWorkOwner
       {| runtime.Name := "hub1-work1"; runtime.UID := "a";
          runtime.Finalizers := [] |}] = true.
Proof.
  apply (agent_owner_can_be_released (fixtures.gcServer [] None)
           {| runtime.Name := "hub1-work1"; runtime.UID := "a";
              runtime.Finalizers := [] |}
           fixtures.secrets
           (fixtures.newSecret "ns1" "n1" false "ns1-n1"
              [fixtures.ownerRef "n2" "b";
               NewAppliedManifestWorkOwner
                 {| runtime.Name := "hub1-work1"; runtime.UID := "a";
                    runtime.Finalizers := [] |}])
           [fixtures.ownerRef "n2" "b"] [] tt).
  - reflexivity.
  - intros other Hin. apply list_elem_of_singleton in Hin. subst other. reflexivity.
Defined.

End helper_objects_facts.

Module status_update_facts.
Import apierrors hub helper_status hub_view.

Lemma count_app (kind : Call -> bool) (calls1 calls2 : list Call) :
  count kind (calls1 ++ calls2) = count kind calls1 + count kind calls2.
Proof. unfold count. rewrite List.filter_app, length_app. reflexivity. Qed.

Lemma summary_weaken (name : string) (gets gets' updates updates' : nat)
    (r : outcome) (calls : list Call) :
  gets <= gets' -> updates <= updates' ->
  summary name gets updates r calls -> summary name gets' updates' r calls.
Proof.
  intros Hg Hu (H1 & H2 & H3 & H4 & H5 & H6).
  split; [lia|]. split; [lia|]. split; [exact H3|]. split; [exact H4|].
  split; [exact H5 | exact H6].
Qed.

(** Calls made before a run, none of them an accepted update. *)
Lemma summary_prepend (name : string) (gets updates : nat)
    (r : outcome) (before calls : list Call) :
  (forall c, c ∈ before -> isAccepted c = false) ->
  (forall n answer, CallGet n answer ∈ before -> n = name) ->
  summary name gets updates r calls ->
  summary name (count isGet before + gets) (count isUpdateStatus before + updates)
    r (before ++ calls).
Proof.
  intros Hnone Hnames (H1 & H2 & H3 & H4 & H5 & H6).
  split; [rewrite count_app; lia|]. split; [rewrite count_app; lia|].
  split.
  { intros nm answer Hin. apply elem_of_app in Hin as [Hin|Hin];
      [eapply Hnames | eapply H3]; eassumption. }
  split; [exact H4|]. split.
  - intros Hupdated. destruct (H5 Hupdated) as (Herr & earlier & sent & accepted & -> & Hst).
    split; [exact Herr|]. exists (before ++ earlier), sent, accepted.
    rewrite app_assoc. split; [reflexivity | exact Hst].
  - intros c Hin Hacc. apply elem_of_app in Hin as [Hin|Hin].
    + rewrite (Hnone c Hin) in Hacc. discriminate.
    + destruct (H6 c Hin Hacc) as (Hupdated & earlier & ->).
      split; [exact Hupdated|]. exists (before ++ earlier).
      rewrite app_assoc. reflexivity.
Qed.

Section WithServer.
Context {W : Type}.
Variable srv : Server W.

(** One try: at most one status update and no get. *)
Lemma updateManifestWorkStatus_summary (name : string)
    (manifestWork : ManifestWork)
    (updateFuncs : list UpdateManifestWorkStatusFunc) (w : W) :
  let run := updateManifestWorkStatus srv manifestWork updateFuncs in
  summary name 0 1 (result run w) (calls run w).
Proof.
  intros run. subst run. unfold result, calls, updateManifestWorkStatus.
  destruct (applyUpdates updateFuncs (Status manifestWork)) as [err|newStatus].
  { simpl. split; [unfold count; simpl; lia|]. split; [unfold count; simpl; lia|].
    split; [intros nm answer Hin; inversion Hin|].
    split; [right; reflexivity|]. split; [discriminate|].
    intros c Hin. inversion Hin. }
  destruct (decide (Status manifestWork = newStatus)).
  { simpl. split; [unfold count; simpl; lia|]. split; [unfold count; simpl; lia|].
    split; [intros nm answer Hin; inversion Hin|].
    split; [left; reflexivity|]. split; [discriminate|].
    intros c Hin. inversion Hin. }
  unfold bind, UpdateStatus.
  destruct (updateStatus srv _ w) as [[err|accepted] w1]; simpl.
  - split; [unfold count; simpl; lia|]. split; [unfold count; simpl; lia|].
    split; [intros nm answer Hin; apply list_elem_of_singleton in Hin; discriminate|].
    split; [right; reflexivity|]. split; [discriminate|].
    intros c Hin Hacc. apply list_elem_of_singleton in Hin. subst c. discriminate.
  - split; [unfold count; simpl; lia|]. split; [unfold count; simpl; lia|].
    split; [intros nm answer Hin; apply list_elem_of_singleton in Hin; discriminate|].
    split; [left; reflexivity|]. split.
    + intros _. split; [reflexivity|]. eexists [], _, accepted.
      split; reflexivity.
    + intros c Hin Hacc. apply list_elem_of_singleton in Hin. subst c.
      split; [reflexivity|]. exists []. reflexivity.
Qed.

(** A try that ends in an error has set neither the status nor the flag,
    and no update of it was accepted. *)
Lemma failed_try (name : string) (gets updates : nat) (r : outcome)
    (calls : list Call) (e : error) :
  summary name gets updates r calls -> snd r = Some e ->
  fst r = (None, false) /\ (forall c, c ∈ calls -> isAccepted c = false).
Proof.
  intros (_ & _ & _ & H4 & H5 & H6) Herr.
  split; [destruct H4 as [H4|H4]; [congruence | exact H4]|].
  intros c Hin. destruct (isAccepted c) eqn:Hacc; [|reflexivity].
  destruct (H6 c Hin Hacc) as (Hupdated & _).
  destruct (H5 Hupdated) as (Hnone & _). congruence.
Qed.

(** The retries, from variables that hold no status and no flag. *)
Lemma onConflict_summary (name : string)
    (updateFuncs : list UpdateManifestWorkStatusFunc)
    (steps : nat) (lastErr : option error) (w : W) :
  let run := retry.onConflict steps (retried srv name updateFuncs)
               (None, false) lastErr in
  summary name steps steps (result run w) (calls run w).
Proof.
  intros run. subst run. revert lastErr w.
  induction steps as [|steps IH]; intros lastErr w.
  { unfold result, calls. simpl.
    split; [unfold count; simpl; lia|]. split; [unfold count; simpl; lia|].
    split; [intros nm answer Hin; inversion Hin|].
    split; [right; reflexivity|]. split; [discriminate|].
    intros c Hin. inversion Hin. }
  unfold result, calls.
  destruct (retry.onConflict (S steps) (retried srv name updateFuncs)
              (None, false) lastErr w) as [[out wout] cs] eqn:Hrun.
  cbn [fst snd]. cbn [retry.onConflict] in Hrun.
  unfold bind at 1 in Hrun. unfold retried at 1 in Hrun.
  unfold bind at 1 in Hrun. unfold Get at 1 in Hrun.
  destruct (get srv name w) as [[err|manifestWork] w1].
  - cbn [ret fst snd] in Hrun.
    destruct (IsConflict (Some err)).
    + specialize (IH (Some err) w1). unfold result, calls in IH.
      destruct (retry.onConflict steps (retried srv name updateFuncs)
                  (None, false) (Some err) w1) as [[r w2] calls2].
      cbn [fst snd] in IH. injection Hrun as <- <- <-.
      apply (summary_prepend name steps steps r [CallGet name (inl err)] calls2) in IH.
      * eapply summary_weaken; [| |exact IH]; unfold count; simpl; lia.
      * intros c Hin. apply list_elem_of_singleton in Hin. subst c. reflexivity.
      * intros nm answer Hin. apply list_elem_of_singleton in Hin. congruence.
    + injection Hrun as <- <- <-.
      simpl. split; [unfold count; simpl; lia|]. split; [unfold count; simpl; lia|].
      split; [intros nm answer Hin; apply list_elem_of_singleton in Hin; congruence|].
      split; [right; reflexivity|]. split; [discriminate|].
      intros c Hin Hacc. apply list_elem_of_singleton in Hin. subst c. discriminate.
  - pose proof (updateManifestWorkStatus_summary name manifestWork updateFuncs w1)
      as Htry.
    cbv zeta in Htry. unfold result, calls in Htry.
    unfold bind at 1 in Hrun.
    destruct (updateManifestWorkStatus srv manifestWork updateFuncs w1)
      as [[r w2] calls1].
    cbn [fst snd ret] in Htry, Hrun.
    destruct r as [vars [e|]]; cbn [fst snd] in Hrun.
    + destruct (failed_try name 0 1 (vars, Some e) calls1 e Htry eq_refl)
        as [Hvars Hrefused].
      cbn [fst] in Hvars. subst vars.
      destruct (IsConflict (Some e)).
      * specialize (IH (Some e) w2). unfold result, calls in IH.
        destruct (retry.onConflict steps (retried srv name updateFuncs)
                    (None, false) (Some e) w2) as [[r w3] calls2].
        cbn [fst snd] in IH. injection Hrun as <- <- <-.
        apply (summary_prepend name steps steps r
                 (CallGet name (inr manifestWork) :: calls1 ++ []) calls2) in IH.
        -- destruct Htry as (Hg & Hu & _). rewrite app_nil_r in IH |- *.
           eapply summary_weaken; [| |exact IH]; unfold count in *; simpl; lia.
        -- intros c Hin. rewrite app_nil_r in Hin.
           apply elem_of_cons in Hin as [->|Hin]; [reflexivity | apply Hrefused, Hin].
        -- intros nm answer Hin. rewrite app_nil_r in Hin.
           apply elem_of_cons in Hin as [Hin|Hin]; [congruence|].
           destruct Htry as (_ & _ & Hnames & _). eapply Hnames, Hin.
      * injection Hrun as <- <- <-. rewrite !app_nil_r.
        apply (summary_prepend name 0 1 (None, false, Some e)
                 [CallGet name (inr manifestWork)] calls1) in Htry.
        -- eapply summary_weaken; [| |exact Htry]; unfold count; simpl; lia.
        -- intros c Hin. apply list_elem_of_singleton in Hin. subst c. reflexivity.
        -- intros nm answer Hin. apply list_elem_of_singleton in Hin. congruence.
    + injection Hrun as <- <- <-. rewrite !app_nil_r.
      apply (summary_prepend name 0 1 (vars, None)
               [CallGet name (inr manifestWork)] calls1) in Htry.
      * eapply summary_weaken; [| |exact Htry]; unfold count; simpl; lia.
      * intros c Hin. apply list_elem_of_singleton in Hin. subst c. reflexivity.
      * intros nm answer Hin. apply list_elem_of_singleton in Hin. congruence.
Qed.

(** The whole of [UpdateManifestWorkStatus]. *)
Lemma UpdateManifestWorkStatus_summary (manifestWork : ManifestWork)
    (updateFuncs : list UpdateManifestWorkStatusFunc) (w : W) :
  let run := UpdateManifestWorkStatus srv manifestWork updateFuncs in
  summary (Name manifestWork) 4 5 (result run w) (calls run w).
Proof.
  intros run. subst run. unfold result, calls.
  destruct (UpdateManifestWorkStatus srv manifestWork updateFuncs w)
    as [[out wout] cs] eqn:Hrun.
  cbn [fst snd]. unfold UpdateManifestWorkStatus in Hrun.
  pose proof (updateManifestWorkStatus_summary (Name manifestWork) manifestWork
                updateFuncs w) as Htry.
  cbv zeta in Htry. unfold result, calls in Htry.
  unfold bind at 1 in Hrun.
  destruct (updateManifestWorkStatus srv manifestWork updateFuncs w)
    as [[r w1] calls1].
  cbn [fst snd] in Htry.
  destruct r as [vars [e|]]; cbn [fst snd] in Hrun.
  - destruct (failed_try _ 0 1 (vars, Some e) calls1 e Htry eq_refl)
      as [Hvars Hrefused].
    cbn [fst] in Hvars. subst vars.
    pose proof (onConflict_summary (Name manifestWork) updateFuncs
                  retry.DefaultBackoffSteps None w1) as Hloop.
    cbv zeta in Hloop. unfold result, calls in Hloop.
    unfold bind, retry.RetryOnConflict in Hrun.
    destruct (retry.onConflict retry.DefaultBackoffSteps
                (retried srv (Name manifestWork) updateFuncs) (None, false) None w1)
      as [[r w2] calls2].
    cbn [fst snd ret] in Hloop, Hrun. injection Hrun as <- <- <-.
    rewrite app_nil_r.
    replace (fst r, snd r) with r by (destruct r; reflexivity).
    apply (summary_prepend _ _ _ r calls1 calls2) in Hloop.
    + destruct Htry as (Hg & Hu & _).
      eapply summary_weaken; [| |exact Hloop];
        unfold retry.DefaultBackoffSteps; lia.
    + exact Hrefused.
    + destruct Htry as (_ & _ & Hnames & _). exact Hnames.
  - cbn [ret] in Hrun. injection Hrun as <- <- <-. rewrite app_nil_r.
    eapply summary_weaken; [| |exact Htry]; lia.
Qed.

(** X28. [UpdateManifestWorkStatus] asks the hub for the manifest work at
    most four times, always by the name of the work it was given, and sends
    at most five status updates. *)
Theorem status_update_is_bounded (manifestWork : ManifestWork)
    (updateFuncs : list UpdateManifestWorkStatusFunc) (w : W) :
  let run := UpdateManifestWorkStatus srv manifestWork updateFuncs in
  count isGet (calls run w) <= 4 /\
  count isUpdateStatus (calls run w) <= 5 /\
  length (calls run w) <= 9 /\
  (forall name answer,
     CallGet name answer ∈ calls run w -> name = Name manifestWork).
Proof.
  intros run. subst run.
  destruct (UpdateManifestWorkStatus_summary manifestWork updateFuncs w)
    as (Hg & Hu & Hnames & _).
  split; [exact Hg|]. split; [exact Hu|]. split; [|exact Hnames].
  assert (forall cs : list Call,
            length cs = count isGet cs + count isUpdateStatus cs) as Hsum.
  { clear. induction cs as [|c cs IH]; [reflexivity|].
    unfold count in *. destruct c; simpl; lia. }
  rewrite Hsum. lia.
Qed.

(** X29. The flag [UpdateManifestWorkStatus] returns is true exactly when
    the hub accepted a status update. That update is then the last call, no
    error is returned, and the status returned is the one of the hub's
    answer. An error comes with no status and with the flag false. *)
Theorem updated_means_accepted (manifestWork : ManifestWork)
    (updateFuncs : list UpdateManifestWorkStatusFunc) (w : W)
    (status : option ManifestWorkStatus) (updated : bool) (err : option error) :
  let run := UpdateManifestWorkStatus srv manifestWork updateFuncs in
  result run w = (status, updated, err) ->
  (updated = true <-> exists c, c ∈ calls run w /\ isAccepted c = true) /\
  (updated = true ->
     err = None /\
     exists earlier sent accepted,
       calls run w = earlier ++ [CallUpdateStatus sent (inr accepted)] /\
       status = Some (Status accepted)) /\
  (err <> None -> status = None /\ updated = false).
Proof.
  intros run Hres. subst run.
  destruct (UpdateManifestWorkStatus_summary manifestWork updateFuncs w)
    as (_ & _ & _ & H4 & H5 & H6).
  rewrite Hres in H4, H5, H6. cbn [fst snd] in H4, H5, H6.
  split; [split|split].
  - intros Hupdated. destruct (H5 Hupdated) as (_ & earlier & sent & accepted & Hc & _).
    exists (CallUpdateStatus sent (inr accepted)).
    split; [rewrite Hc; apply elem_of_app; right; left | reflexivity].
  - intros (c & Hin & Hacc). apply (H6 c Hin Hacc).
  - exact H5.
  - intros Herr. destruct H4 as [H4|H4]; [contradiction|].
    injection H4 as -> ->. split; reflexivity.
Qed.

(** A try that the hub answers with a conflict. *)
Lemma refused_try (manifestWork : ManifestWork)
    (updateFuncs : list UpdateManifestWorkStatusFunc) (w : W) :
  (forall sent w0, exists e w1,
     updateStatus srv sent w0 = (inl e, w1) /\ IsConflict (Some e) = true) ->
  (exists newStatus,
     applyUpdates updateFuncs (Status manifestWork) = inr newStatus /\
     newStatus <> Status manifestWork) ->
  exists e w1 sent,
    updateManifestWorkStatus srv manifestWork updateFuncs w
    = ((None, false, Some e), w1, [CallUpdateStatus sent (inl e)]) /\
    IsConflict (Some e) = true.
Proof.
  intros Hrefuse (newStatus & Happly & Hchanged).
  unfold updateManifestWorkStatus. rewrite Happly.
  destruct (decide (Status manifestWork = newStatus)) as [Heq|_];
    [congruence|].
  unfold bind, UpdateStatus.
  destruct (Hrefuse {| Name := Name manifestWork; Body := Body manifestWork;
                       Status := newStatus |} w) as (e & w1 & -> & Hconflict).
  exists e, w1. eexists. split; [reflexivity | exact Hconflict].
Qed.

Lemma refused_retries (name : string)
    (updateFuncs : list UpdateManifestWorkStatusFunc)
    (steps : nat) (lastErr : option error) (w : W) :
  (forall sent w0, exists e w1,
     updateStatus srv sent w0 = (inl e, w1) /\ IsConflict (Some e) = true) ->
  (forall w0, exists got w1,
     get srv name w0 = (inr got, w1) /\
     exists newStatus,
       applyUpdates updateFuncs (Status got) = inr newStatus /\
       newStatus <> Status got) ->
  (lastErr = None -> steps <> 0) ->
  (forall e0, lastErr = Some e0 -> IsConflict (Some e0) = true) ->
  let run := retry.onConflict steps (retried srv name updateFuncs)
               (None, false) lastErr in
  exists e,
    result run w = (None, false, Some e) /\ IsConflict (Some e) = true /\
    count isGet (calls run w) = steps /\
    count isUpdateStatus (calls run w) = steps.
Proof.
  intros Hrefuse Hget Hsteps He0 run. subst run. revert lastErr Hsteps He0 w.
  induction steps as [|steps IH]; intros lastErr Hsteps He0 w.
  { destruct lastErr as [e0|]; [|exfalso; apply Hsteps; reflexivity].
    exists e0. unfold result, calls. simpl. repeat split. apply He0. reflexivity. }
  unfold result, calls.
  destruct (retry.onConflict (S steps) (retried srv name updateFuncs)
              (None, false) lastErr w) as [[out wout] cs] eqn:Hrun.
  cbn [fst snd]. cbn [retry.onConflict] in Hrun.
  unfold bind at 1 in Hrun. unfold retried at 1 in Hrun.
  unfold bind at 1 in Hrun. unfold Get at 1 in Hrun.
  destruct (Hget w) as (got & w1 & Hgot & Hchanges). rewrite Hgot in Hrun.
  unfold bind at 1 in Hrun.
  destruct (refused_try got updateFuncs w1 Hrefuse Hchanges)
    as (e & w2 & sent & Htry & Hconflict).
  rewrite Htry in Hrun. cbn [fst snd ret] in Hrun. rewrite Hconflict in Hrun.
  destruct (IH (Some e)) with (w := w2) as (e' & Hres & He' & Hgets & Hupdates);
    [discriminate | intros e1 [= <-]; exact Hconflict |].
  unfold result, calls in Hres, Hgets, Hupdates.
  destruct (retry.onConflict steps (retried srv name updateFuncs)
              (None, false) (Some e) w2) as [[r w3] calls2].
  cbn [fst snd] in Hres, Hgets, Hupdates. injection Hrun as <- <- <-.
  exists e'. split; [exact Hres|]. split; [exact He'|].
  unfold count in *. simpl.
  rewrite ?List.filter_app, ?length_app, ?Hgets, ?Hupdates. simpl. split; lia.
Qed.

(** X30. When the status has to change and the hub answers every status
    update with a conflict, [UpdateManifestWorkStatus] gives up after five
    status updates, the first on the work it was given and four on works it
    got from the hub, and returns a conflict with no status and the flag
    false. *)
Theorem conflicts_use_up_the_retries (manifestWork : ManifestWork)
    (updateFuncs : list UpdateManifestWorkStatusFunc) (w : W) :
  let run := UpdateManifestWorkStatus srv manifestWork updateFuncs in
  (forall sent w0, exists e w1,
     updateStatus srv sent w0 = (inl e, w1) /\ IsConflict (Some e) = true) ->
  (forall w0, exists got w1,
     get srv (Name manifestWork) w0 = (inr got, w1) /\
     exists newStatus,
       applyUpdates updateFuncs (Status got) = inr newStatus /\
       newStatus <> Status got) ->
  (exists newStatus,
     applyUpdates updateFuncs (Status manifestWork) = inr newStatus /\
     newStatus <> Status manifestWork) ->
  exists e,
    result run w = (None, false, Some e) /\ IsConflict (Some e) = true /\
    count isGet (calls run w) = 4 /\
    count isUpdateStatus (calls run w) = 5.
Proof.
  intros run Hrefuse Hget Hchanges. subst run. unfold result, calls.
  destruct (UpdateManifestWorkStatus srv manifestWork updateFuncs w)
    as [[out wout] cs] eqn:Hrun.
  cbn [fst snd]. unfold UpdateManifestWorkStatus in Hrun.
  unfold bind at 1 in Hrun.
  destruct (refused_try manifestWork updateFuncs w Hrefuse Hchanges)
    as (e & w1 & sent & Htry & Hconflict).
  rewrite Htry in Hrun. cbn [fst snd] in Hrun.
  unfold bind at 1 in Hrun. unfold retry.RetryOnConflict in Hrun.
  destruct (refused_retries (Name manifestWork) updateFuncs
              retry.DefaultBackoffSteps None w1 Hrefuse Hget)
    as (e'' & Hres & He'' & Hgets & Hupdates); [discriminate|discriminate|].
  unfold result, calls in Hres, Hgets, Hupdates.
  destruct (retry.onConflict retry.DefaultBackoffSteps
              (retried srv (Name manifestWork) updateFuncs)
              (None, false) None w1) as [[r w4] calls2].
  cbn [fst snd] in Hres, Hgets, Hupdates. cbn [fst snd ret] in Hrun.
  injection Hrun as <- <- <-. subst r.
  exists e''. split; [reflexivity|]. split; [exact He''|].
  unfold count in *. simpl.
  rewrite ?List.filter_app, ?length_app, ?Hgets, ?Hupdates. simpl. split; lia.
Qed.

End WithServer.

(** X28, on an instance: the hub refuses every update with a conflict. *)
Lemma status_update_is_bounded_witness :
  count isGet
    (calls (UpdateManifestWorkStatus (fixedHub emptyWork (Some conflict))
              emptyWork [setApplied]) tt) <= 4.
Proof.
  destruct (status_update_is_bounded (fixedHub emptyWork (Some conflict))
              emptyWork [setApplied] tt) as (Hgets & _).
  exact Hgets.
Defined.

(** X29, on an instance: the hub accepts the update that sets the
    condition. *)
Lemma updated_means_accepted_witness :
  exists earlier sent accepted,
    calls (UpdateManifestWorkStatus (fixedHub emptyWork None) emptyWork
             [setApplied]) tt
    = earlier ++ [CallUpdateStatus sent (inr accepted)] /\
    fst (setApplied (Status emptyWork)) = None /\
    Some (snd (setApplied (Status emptyWork))) = Some (Status accepted).
Proof.
  destruct (updated_means_accepted (fixedHub emptyWork None) emptyWork
              [setApplied] tt (Some (snd (setApplied (Status emptyWork))))
              true None) as (_ & Hlast & _).
  - vm_compute. reflexivity.
  - destruct (Hlast eq_refl) as (_ & earlier & sent & accepted & Hcalls & Hst).
    exists earlier, sent, accepted. split; [exact Hcalls|].
    split; [reflexivity | exact Hst].
Defined.

(** X30, on an instance: the hub refuses every update with a conflict. *)
Lemma conflicts_use_up_the_retries_witness :
  exists e,
    result (UpdateManifestWorkStatus (fixedHub emptyWork (Some conflict))
              emptyWork [setApplied]) tt = (None, false, Some e) /\
    IsConflict (Some e) = true /\
    count isGet
      (calls (UpdateManifestWorkStatus (fixedHub emptyWork (Some conflict))
                emptyWork [setApplied]) tt) = 4 /\
    count isUpdateStatus
      (calls (UpdateManifestWorkStatus (fixedHub emptyWork (Some conflict))
                emptyWork [setApplied]) tt) = 5.
Proof.
  apply (conflicts_use_up_the_retries (fixedHub emptyWork (Some conflict))
           emptyWork [setApplied] tt).
  - intros sent w0. exists conflict, w0. split; reflexivity.
  - intros w0. exists emptyWork, w0. split; [reflexivity|].
    eexists. split; [reflexivity | discriminate].
  - eexists. split; [reflexivity | discriminate].
Defined.

End status_update_facts.
